(* ===== verification/_CoqProject ===== *)
-Q . S2P
Prelude.v
PyStr.v
Loaders.v
NumberGuessing.v
TicTacToe.v
Hangman.v
Dice.v
RockPaperScissors.v
HigherOrLower.v
Quiz.v
PageHost.v
App.v
