(* ===== verification/Prelude.v ===== *)
(** * A verification development of [src/games_gui.py]

    ** The program

    [games_gui.py] is a Tkinter desktop application that bundles seven
    small games behind one window.  [GameApp] (the page host) creates one
    frame per page class, registers it in [self.frames], grids all of
    them into the same cell, and raises one with [show_frame]; only the
    frame on top receives clicks.  [MainMenu] has one button per game and
    an Exit button; every game page has a "Back to Menu" button.  Each
    page keeps its own state in attributes and changes it only in its
    button callbacks (and, for the Quiz, in a callback scheduled with
    [after]).  Two loaders read Hangman's word list and the Quiz's
    questions from JSON files.

    ** Files, modules and what they model

    - [Prelude] (this file): Python exceptions [py_exn]; the callback
      monad [PyM] (a state monad whose exceptions keep the state reached,
      as Tk keeps the mutations of a callback that raised) with its
      notation in [py_scope]; Python list indexing with negative indices
      ([py_getitem], [py_setitem]); [random_choice]; counting lemmas on
      [filter]; the generic state machine [reachable_from] with the
      induction [reachable_from_inv] that every page's invariant uses.
    - [PyStr]: the string builtins the callbacks call: [str.strip]
      ([py_strip]), [str.lower]/[str.upper], [int(s)] in base 10
      ([py_int]) and [str(n)] ([py_str_int], with fuel, see below).
    - [Loaders]: [load_hangman_words] and [load_quiz_questions] on the
      outcome of reading the file ([file_read]), JSON values ([json]) and
      the Python operations the Quiz applies to them ([py_len],
      [py_index], [py_key], [py_strip_json]).
    - [NumberGuessing] (Module [NumberGuessing]), [TicTacToe], [Hangman],
      [Dice], [RockPaperScissors], [HigherOrLower], [Quiz]: one module per
      page class ([NumberGuessingGUI], [TicTacToeGUI], [WordGuessingGUI],
      [DiceRollingGUI], [RockPaperScissorsGUI], [HigherOrLowerGUI],
      [QuizGameGUI]).  Each has a [state] record with the attributes and
      the widget state the callbacks read or write (label texts, entry
      text, enabled flags), one definition per method, [init] for
      [__init__], an [event] type for what Tk can deliver, [handle] for
      the dispatch (a disabled widget ignores input), and [reachable].
    - [PageHost]: [GameApp]: the registry, the stacking order, [tkraise],
      [show_frame] with its [KeyError], [quit]; and the interface
      [FrameHost]/[FrameHostLaws] that the pages' navigation relies on,
      with its instance.
    - [App]: the whole application: the host and the seven pages, the
      menu's buttons, Exit, the Back to Menu buttons (Hangman's
      [back_to_menu] composed with the controller through the interface,
      Section [Navigation]), [GameApp.__init__] building every page, and
      the [__main__] block: [main] runs [mainloop], the delivery of the
      user's actions one by one until [quit].

    Random draws ([random.randint], [random.choice]) and file reads are
    parameters of the events that make them, so each theorem holds for
    every draw; the side conditions of [reachable] restrict draws to the
    ranges the calls produce.

    ** What the theorems show (claims C1-C37 of the manifest)

    Each page's invariant is proved once, as a lemma ([ttt_reachable_wf],
    [hm_reachable_wf], [ng_reachable_wf], [dice_reachable_wf],
    [rps_reachable_wf], [hl_reachable_wf]) that the claim restates and
    the other theorems of the page use.

    - Tic-Tac-Toe: [check_winner] equals a search over the eight lines
      and is sound and complete; reachable boards are well formed, X and
      O alternate, there is never more than one winner; a click on a
      taken cell or after the end changes nothing; during a game an
      index outside Python's range [-3..2] raises [IndexError], and a
      negative index in range writes the mark into the cell
      [(r mod 3, c mod 3)] and then raises [KeyError].
    - Hangman: the reachable invariant (26 letter keys, distinct guesses,
      attempts = 6 - wrong guesses while running); winning and losing
      letters end the round; repeated letters cost nothing; words with
      characters outside a-z cannot be won; the masked word read back
      every other character gives the word with its hidden letters as
      [_] (round trip); a non-empty word list leads to the fatal state
      exactly when it is one word that lower-cases to "error"; the
      loader's contract (an empty word list raising at start is the
      lemma [empty_word_list_raises]).
    - Number Guessing: the invariant, refinement of the abstract round,
      termination within the budget, rejection of bad input.
    - Dice: money never negative and the input enabled exactly while it
      is positive; bets settled by the announced rule; rejected bets.
    - Rock-Paper-Scissors: scores in 0..3 with the winner announced;
      every press is one round of the standard rules.
    - Higher or Lower: the counter equals the logged attempts; the hints
      are correct; bisection wins within 7 guesses (liveness).
    - Quiz: on well-formed files no callback raises and
      [0 <= score <= index <= len(questions)] (bounds); a full game
      shows k/n (the spec's "2/3" example is a witness); a double Submit
      skips a question; [start_game] raises exactly on a truthy file
      that is not a list whose first item is a dict with a question; a
      pending timer survives New Game and erases the typed answer.
    - Application: the pages compose: each page of a reachable
      application is reachable in its own page machine, so the page
      invariants hold inside the application; the program delivers the
      user's actions in order until Exit is pressed on the menu and none
      after it; Back to Menu keeps every page's state except Hangman's;
      menu buttons show their page without raising.

    ** Bounds and fuel

    [to_digits] (the digits of [str(n)], used by the bisecting player of
    [HigherOrLower]) recurses on [n / 10] with fuel [S (N.size n)]: [n]
    has at most [N.size n] binary digits, so fewer decimal ones, and
    [size_fuel_bound] proves the fuel is enough.  [HigherOrLower.bisect]
    is a player strategy with fuel 7, enough because 100 < 2 ^ 7
    ([bisect_wins]).  Integers are [Z]: Python integers do not overflow.

    ** Not modelled

    Fonts, colours, geometry and packing; the Text widget's scrolling
    ([see]); [messagebox] (its button is never created, as every
    [frame_name] of the menu is set); how Tk's [mainloop] reads input
    (the model takes the user's actions as a list); the file system and [json.load] themselves (the
    loaders are modelled on their outcome, [file_read]); JSON floats;
    non-ASCII digits, letters and whitespace, which Python's [int],
    [strip] and [lower] also accept. *)

From stdpp Require Import base list gmap.
From Stdlib Require Import ZArith Lia.

(** ** Python exceptions *)

(** The exceptions a callback of [games_gui.py] can raise: [int()] on a
    non-numeric string ([ValueError]), list indexing out of range and
    [random.choice] on an empty list ([IndexError]), a missing dictionary
    key ([KeyError]), subscripting or measuring a value of the wrong type
    ([TypeError]) and calling [.strip()] on a non-string
    ([AttributeError]). *)
Inductive py_exn : Type :=
  | ValueError
  | IndexError
  | KeyError
  | TypeError
  | AttributeError.

#[export] Instance py_exn_eq_dec : EqDecision py_exn.
Proof. solve_decision. Defined.

(** ** The callback monad

    A Tk callback runs to completion on the single UI thread, mutates the
    frame's attributes as it goes and may stop half way by raising.  Tk
    catches the exception ([report_callback_exception]) and the
    application keeps running with every mutation made before the raise.
    [PyM S A] is therefore a state monad whose failure still carries the
    state reached at the point of the raise. *)

Inductive outcome (A : Type) : Type :=
  | Ret (a : A)
  | Exc (e : py_exn).
Arguments Ret {A} a.
Arguments Exc {A} e.

Definition PyM (S A : Type) : Type := S -> outcome A * S.

Definition py_ret {S A} (a : A) : PyM S A := fun s => (Ret a, s).

Definition py_bind {S A B} (m : PyM S A) (k : A -> PyM S B) : PyM S B :=
  fun s =>
    match m s with
    | (Ret a, s') => k a s'
    | (Exc e, s') => (Exc e, s')
    end.

Definition py_raise {S A} (e : py_exn) : PyM S A := fun s => (Exc e, s).
Definition py_get {S} : PyM S S := fun s => (Ret s, s).
Definition py_gets {S A} (f : S -> A) : PyM S A := fun s => (Ret (f s), s).
Definition py_modify {S} (f : S -> S) : PyM S unit := fun s => (Ret tt, f s).

(** A lookup that raises [e] when it finds nothing ([d[k]], [l[i]]). *)
Definition py_of_option {S A} (e : py_exn) (o : option A) : PyM S A :=
  match o with
  | Some a => py_ret a
  | None => py_raise e
  end.

(** An expression that evaluates to a value or raises, run inside a
    callback. *)
Definition py_lift {S A} (o : outcome A) : PyM S A := fun s => (o, s).

Declare Scope py_scope.
Delimit Scope py_scope with py.
Notation "x <- m ;; k" := (py_bind m (fun x => k))
  (at level 100, m at next level, right associativity) : py_scope.
Notation "m ;; k" := (py_bind m (fun _ => k))
  (at level 100, right associativity) : py_scope.
Notation "'return!'" := (py_ret tt) : py_scope.

(** The state a callback leaves behind, whether it returned or raised:
    this is what Tk keeps. *)
Definition exec {S A} (m : PyM S A) (s : S) : S := snd (m s).

(** Whether a callback raised. *)
Definition raised {S A} (m : PyM S A) (s : S) : option py_exn :=
  match fst (m s) with Ret _ => None | Exc e => Some e end.

(** ** Python list indexing

    [l[i]] accepts [-len(l) <= i < len(l)], counting negative indices
    from the end, and raises [IndexError] otherwise; [l[i] = x] follows
    the same rule and never extends the list. *)

Definition py_norm_index (len i : Z) : option nat :=
  let j := if (i <? 0)%Z then (i + len)%Z else i in
  if (0 <=? j)%Z && (j <? len)%Z then Some (Z.to_nat j) else None.

Definition py_getitem {A} (l : list A) (i : Z) : option A :=
  n ← py_norm_index (Z.of_nat (length l)) i; l !! n.

Definition py_setitem {A} (l : list A) (i : Z) (x : A) : option (list A) :=
  n ← py_norm_index (Z.of_nat (length l)) i; Some (<[n := x]> l).

(** ** Randomness

    [random.choice(seq)] and [random.randint(a, b)] are modelled by the
    draw the generator makes: the draw is a parameter of the handler, and
    a theorem quantifies over every draw. *)

(** [random.choice(seq)] with the draw [k]: [None] is the [IndexError]
    it raises on an empty sequence. *)
Definition random_choice {A} (l : list A) (k : nat) : option A :=
  match l with [] => None | _ => l !! (k mod length l)%nat end.

Lemma random_choice_elem {A} (l : list A) (k : nat) (x : A) :
  random_choice l k = Some x -> x ∈ l.
Proof.
  unfold random_choice. destruct l as [|y t]; [done|].
  intros H. by apply list_elem_of_lookup_2 in H.
Qed.

Lemma random_choice_Some {A} (l : list A) (k : nat) : l <> [] -> is_Some (random_choice l k).
Proof.
  destruct l as [|y t]; [done|]. intros _. unfold random_choice.
  apply lookup_lt_is_Some, Nat.mod_upper_bound. simpl. lia.
Qed.

(** ** Automation *)

Create HintDb pyrun discriminated.
Create Rewrite HintDb pysimpl.

Lemma py_bind_ret_l {S A B} (a : A) (k : A -> PyM S B) (s : S) :
  py_bind (py_ret a) k s = k a s.
Proof. reflexivity. Qed.

Lemma py_bind_assoc {S A B C} (m : PyM S A) (k : A -> PyM S B) (h : B -> PyM S C) (s : S) :
  py_bind (py_bind m k) h s = py_bind m (fun a => py_bind (k a) h) s.
Proof. unfold py_bind. destruct (m s) as [[a|e] s']; reflexivity. Qed.

Lemma py_bind_ret_r {S A} (m : PyM S A) (s : S) : py_bind m py_ret s = m s.
Proof. unfold py_bind. destruct (m s) as [[a|e] s']; reflexivity. Qed.

#[export] Hint Rewrite @py_bind_ret_l @py_bind_assoc @py_bind_ret_r : pysimpl.

(** Unfold the monad's combinators to expose the state updates. *)
Ltac py_unfold :=
  unfold exec, raised, py_bind, py_ret, py_raise, py_get, py_gets, py_modify,
    py_of_option, py_lift in *; simpl in *.

(** Split the goal on the first boolean comparison on [Z] it computes,
    with the comparison as a hypothesis. *)
Ltac zcase :=
  match goal with
  | |- context [(?a <=? ?b)%Z] => destruct (Z.leb_spec a b)
  | |- context [(?a <? ?b)%Z] => destruct (Z.ltb_spec a b)
  | |- context [(?a =? ?b)%Z] => destruct (Z.eqb_spec a b)
  | |- context [(?a >? ?b)%Z] => destruct (Z.gtb_spec a b)
  end.

(** Turn the boolean comparisons on [Z] that the models compute into
    propositions. *)
Ltac zbool :=
  repeat match goal with
  | H : (_ <=? _)%Z = true |- _ => apply Z.leb_le in H
  | H : (_ <=? _)%Z = false |- _ => apply Z.leb_gt in H
  | H : (_ <? _)%Z = true |- _ => apply Z.ltb_lt in H
  | H : (_ <? _)%Z = false |- _ => apply Z.ltb_ge in H
  | H : (_ =? _)%Z = true |- _ => apply Z.eqb_eq in H
  | H : (_ =? _)%Z = false |- _ => apply Z.eqb_neq in H
  | H : (_ && _)%bool = true |- _ => apply andb_true_iff in H as [? ?]
  | H : (_ || _)%bool = false |- _ => apply orb_false_iff in H as [? ?]
  end.

(** ** Lemmas on Python indexing *)

Lemma py_norm_index_in (len i : Z) :
  (0 <= i < len)%Z -> py_norm_index len i = Some (Z.to_nat i).
Proof.
  intros Hi. unfold py_norm_index.
  destruct (Z.ltb_spec i 0); [lia|].
  destruct (Z.leb_spec 0 i), (Z.ltb_spec i len); simpl; lia || reflexivity.
Qed.

Lemma py_norm_index_lt (len i : Z) (n : nat) :
  py_norm_index len i = Some n -> (Z.of_nat n < len)%Z.
Proof.
  unfold py_norm_index. intros H.
  destruct (i <? 0)%Z eqn:Hneg;
  destruct (0 <=? _)%Z eqn:H1, (_ <? len)%Z eqn:H2; simpl in H; try discriminate;
  injection H as <-; zbool; lia.
Qed.

Lemma py_getitem_in {A} (l : list A) (i : nat) :
  i < length l -> py_getitem l (Z.of_nat i) = l !! i.
Proof.
  intros Hi. unfold py_getitem. rewrite py_norm_index_in by lia.
  simpl. by rewrite Nat2Z.id.
Qed.

Lemma py_getitem_none {A} (l : list A) (i : Z) :
  (Z.of_nat (length l) <= i)%Z -> py_getitem l i = None.
Proof.
  intros Hi. unfold py_getitem, py_norm_index.
  destruct (Z.ltb_spec i 0); [lia|].
  by destruct (Z.ltb_spec i (Z.of_nat (length l))); [lia|rewrite andb_false_r].
Qed.

Lemma py_setitem_length {A} (l l' : list A) (i : Z) (x : A) :
  py_setitem l i x = Some l' -> length l' = length l.
Proof.
  unfold py_setitem. destruct (py_norm_index _ _); simpl; [|discriminate].
  intros [= <-]. apply length_insert.
Qed.

Lemma py_setitem_in {A} (l : list A) (i : nat) (x : A) :
  i < length l -> py_setitem l (Z.of_nat i) x = Some (<[i := x]> l).
Proof.
  intros Hi. unfold py_setitem. rewrite py_norm_index_in by lia.
  simpl. by rewrite Nat2Z.id.
Qed.

Lemma py_setitem_none {A} (l : list A) (i : Z) (x : A) :
  (Z.of_nat (length l) <= i)%Z -> py_setitem l i x = None.
Proof.
  intros Hi. unfold py_setitem, py_norm_index.
  destruct (Z.ltb_spec i 0); [lia|].
  by destruct (Z.ltb_spec i (Z.of_nat (length l))); [lia|rewrite andb_false_r].
Qed.

(** A negative index counts from the end: [l[-1]] is the last element. *)
Lemma py_getitem_neg {A} (l : list A) (i : Z) :
  (- Z.of_nat (length l) <= i < 0)%Z ->
  py_getitem l i = l !! Z.to_nat (i + Z.of_nat (length l)).
Proof.
  intros Hi. unfold py_getitem, py_norm_index.
  destruct (Z.ltb_spec i 0); [|lia].
  destruct (Z.leb_spec 0 (i + Z.of_nat (length l))), (Z.ltb_spec (i + Z.of_nat (length l)) (Z.of_nat (length l)));
    simpl; lia || reflexivity.
Qed.

(** Any index in [-len, len) names the element at [i mod len]: Python's
    wrap-around of negative indices. *)
Lemma py_norm_index_wrap (len i : Z) :
  (- len <= i < len)%Z -> py_norm_index len i = Some (Z.to_nat (i mod len)).
Proof.
  intros Hi. unfold py_norm_index.
  destruct (Z.ltb_spec i 0).
  - rewrite <- (Z.mod_unique i len (-1) (i + len)) by lia.
    destruct (Z.leb_spec 0 (i + len)), (Z.ltb_spec (i + len) len); simpl; lia || reflexivity.
  - rewrite Z.mod_small by lia.
    destruct (Z.leb_spec 0 i), (Z.ltb_spec i len); simpl; lia || reflexivity.
Qed.

Lemma py_getitem_wrap {A} (l : list A) (i : Z) :
  (- Z.of_nat (length l) <= i < Z.of_nat (length l))%Z ->
  py_getitem l i = l !! Z.to_nat (i mod Z.of_nat (length l)).
Proof. intros Hi. unfold py_getitem. by rewrite py_norm_index_wrap. Qed.

Lemma py_setitem_wrap {A} (l : list A) (i : Z) (x : A) :
  (- Z.of_nat (length l) <= i < Z.of_nat (length l))%Z ->
  py_setitem l i x = Some (<[Z.to_nat (i mod Z.of_nat (length l)) := x]> l).
Proof. intros Hi. unfold py_setitem. by rewrite py_norm_index_wrap. Qed.

(** An index below [-len] is out of range as well. *)
Lemma py_getitem_below {A} (l : list A) (i : Z) :
  (i < - Z.of_nat (length l))%Z -> py_getitem l i = None.
Proof.
  intros Hi. unfold py_getitem, py_norm_index.
  destruct (Z.ltb_spec i 0); [|lia].
  by destruct (Z.leb_spec 0 (i + Z.of_nat (length l))); [lia|].
Qed.

#[export] Hint Resolve py_setitem_length : pyrun.

(** ** Counting with [filter]

    A game board is a finite set of cells and a move changes one of them:
    the number of cells satisfying a predicate changes by at most one. *)

Section filter_count.
Context {A : Type} (P Q : A -> Prop) `{!forall x, Decision (P x)} `{!forall x, Decision (Q x)}.

Lemma filter_length_ext (l : list A) :
  (forall x, x ∈ l -> P x <-> Q x) -> length (filter P l) = length (filter Q l).
Proof.
  induction l as [|x t IH]; intros Hpq; [done|]. rewrite !filter_cons.
  assert (P x <-> Q x) by (apply Hpq; left).
  assert (IH' : length (filter P t) = length (filter Q t))
    by (apply IH; intros y Hy; apply Hpq; by right).
  destruct (decide (P x)), (decide (Q x)); simpl; rewrite ?IH'; tauto.
Qed.

(** [k] leaves [P] and enters [Q]; every other element keeps its status. *)
Lemma filter_length_update (l : list A) (k : A) :
  NoDup l -> k ∈ l -> (forall x, x ∈ l -> x <> k -> P x <-> Q x) -> ~ P k -> Q k ->
  length (filter Q l) = S (length (filter P l)).
Proof.
  induction l as [|x t IH]; intros Hnd Hk Hpq HP HQ; [by apply elem_of_nil in Hk|].
  apply NoDup_cons in Hnd as [Hx Hnd]. rewrite !filter_cons.
  apply elem_of_cons in Hk as [<-|Hk].
  - rewrite decide_True, decide_False by done. simpl. f_equal.
    symmetry. apply filter_length_ext. intros y Hy.
    apply Hpq; [by right|]. intros ->. contradiction.
  - assert (Hne : x <> k) by (intros ->; contradiction).
    assert (P x <-> Q x) by (apply Hpq; [left|done]).
    assert (IH' : length (filter Q t) = S (length (filter P t)))
      by (apply IH; try done; intros y Hy; apply Hpq; by right).
    destruct (decide (P x)), (decide (Q x)); simpl; rewrite ?IH'; tauto.
Qed.
End filter_count.

(** ** Pages as state machines

    Every page is driven by the events Tk delivers to it: the page
    exists once its constructor returned ([start]), and each event the
    user or the timer produces ([valid] restricts the random draws and
    file reads an event carries to what the program can produce) runs
    one callback ([step]).  [reachable_from] is the set of states a page
    can be in, and [reachable_from_inv] is the induction every page uses
    to show its invariant: established by the constructor, preserved by
    every callback. *)

Section Reachability.
Context {S E : Type} (start : S -> Prop) (valid : E -> Prop) (step : E -> S -> S).

Inductive reachable_from : S -> Prop :=
  | reach_init s : start s -> reachable_from s
  | reach_step s e : reachable_from s -> valid e -> reachable_from (step e s).

Lemma reachable_from_inv (P : S -> Prop) :
  (forall s, start s -> P s) -> (forall s e, P s -> valid e -> P (step e s)) ->
  forall s, reachable_from s -> P s.
Proof. intros Hi Hs s Hr. induction Hr; eauto. Qed.

(** A run of valid events from a reachable state stays reachable. *)
Lemma reachable_from_run (es : list E) (s : S) :
  reachable_from s -> Forall valid es -> reachable_from (foldl (fun s e => step e s) s es).
Proof.
  intros Hs Hes. revert s Hs. induction Hes as [|e es He _ IH]; intros s Hs; simpl; [done|].
  apply IH. by constructor.
Qed.

End Reachability.

Arguments reach_init {S E start valid step} s _.
Arguments reach_step {S E start valid step} s e _ _.
#[export] Hint Constructors reachable_from : pyrun.
