(* ===== verification/PyStr.v ===== *)
(** * Python string builtins used by the callbacks

    The handlers of [games_gui.py] read text from [tk.Entry] widgets and
    turn it into data with [int(s)] (Number Guessing, Higher or Lower,
    Dice Betting) or [s.strip().lower()] (Quiz), and render numbers in
    labels with f-strings, that is [str(n)].  This file models these
    builtins on ASCII strings (Rocq's [string], a list of 8-bit
    characters): [py_strip] and [py_isspace] follow [str.strip] and
    [str.isspace], [py_lower] and [py_upper] follow [str.lower] and [str.upper] on ASCII
    letters,
    [py_int] follows [int(s)] in base 10 (surrounding whitespace, one
    optional sign, digits with single underscores between them), and
    [py_str_int] follows [str(n)].  Non-ASCII digits, letters and
    whitespace, which Python also accepts, are outside the model. *)

From stdpp Require Import base list.
From Stdlib Require Import Ascii String ZArith Lia.
From S2P Require Import Prelude.

Local Open Scope Z_scope.

(** ** Characters *)

(** [str.isspace] on ASCII: tab, newline, vertical tab, form feed,
    carriage return, the four information separators 0x1c-0x1f, and
    space. *)
Definition py_isspace (c : ascii) : bool :=
  let n := nat_of_ascii c in
  ((9 <=? n) && (n <=? 13))%nat || ((28 <=? n) && (n <=? 32))%nat.

Definition py_lower_char (c : ascii) : ascii :=
  let n := nat_of_ascii c in
  if ((65 <=? n) && (n <=? 90))%nat then ascii_of_nat (n + 32) else c.

Definition py_upper_char (c : ascii) : ascii :=
  let n := nat_of_ascii c in
  if ((97 <=? n) && (n <=? 122))%nat then ascii_of_nat (n - 32) else c.

Definition digit_val (c : ascii) : option Z :=
  let n := nat_of_ascii c in
  if ((48 <=? n) && (n <=? 57))%nat then Some (Z.of_nat (n - 48)) else None.

Definition digit_char (d : N) : ascii := ascii_of_nat (N.to_nat d + 48).

(** ** [str.strip] and [str.lower] *)

Fixpoint drop_space (l : list ascii) : list ascii :=
  match l with
  | [] => []
  | c :: t => if py_isspace c then drop_space t else l
  end.

Definition py_strip_list (l : list ascii) : list ascii :=
  rev (drop_space (rev (drop_space l))).

Definition py_strip (s : string) : string :=
  string_of_list_ascii (py_strip_list (list_ascii_of_string s)).

Definition py_lower (s : string) : string :=
  string_of_list_ascii (map py_lower_char (list_ascii_of_string s)).

Definition py_upper (s : string) : string :=
  string_of_list_ascii (map py_upper_char (list_ascii_of_string s)).

(** ** [int(s)] in base 10 *)

(** Digits, with an underscore allowed only between two digits.
    [after_digit] records whether the previous character was a digit. *)
Fixpoint parse_digits (acc : Z) (after_digit : bool) (l : list ascii) : option Z :=
  match l with
  | [] => if after_digit then Some acc else None
  | c :: t =>
      match digit_val c with
      | Some d => parse_digits (acc * 10 + d) true t
      | None =>
          if after_digit && bool_decide (c = "_"%char)
          then parse_digits acc false t else None
      end
  end.

(** [int(s)]: [None] is the [ValueError] the handlers catch. *)
Definition py_int (s : string) : option Z :=
  match py_strip_list (list_ascii_of_string s) with
  | c :: t =>
      if bool_decide (c = "-"%char) then Z.opp <$> parse_digits 0 false t
      else if bool_decide (c = "+"%char) then parse_digits 0 false t
      else parse_digits 0 false (c :: t)
  | [] => None
  end.

(** ** [str(n)] *)

(** The decimal digits of [n], most significant first; [fuel] bounds the
    number of digits and [S (N.size n)] is always enough ([size_fuel_bound]). *)
Fixpoint to_digits (fuel : nat) (n : N) : list ascii :=
  match fuel with
  | O => []
  | S f =>
      if (n <? 10)%N then [digit_char n]
      else to_digits f (n / 10)%N ++ [digit_char (n mod 10)%N]
  end.

Definition py_str_N (n : N) : list ascii := to_digits (S (N.to_nat (N.size n))) n.

Definition py_str_int (z : Z) : string :=
  string_of_list_ascii
    (if z <? 0 then "-"%char :: py_str_N (Z.to_N (- z)) else py_str_N (Z.to_N z)).

(** ** Lemmas *)

Lemma nat_of_digit_char (d : N) :
  (d < 10)%N -> nat_of_ascii (digit_char d) = (N.to_nat d + 48)%nat.
Proof. intros Hd. apply nat_ascii_embedding. lia. Qed.

Lemma digit_val_char (d : N) : (d < 10)%N -> digit_val (digit_char d) = Some (Z.of_N d).
Proof.
  intros Hd. unfold digit_val. rewrite nat_of_digit_char by done.
  destruct (Nat.leb_spec 48 (N.to_nat d + 48)), (Nat.leb_spec (N.to_nat d + 48) 57);
    simpl; try lia. f_equal. lia.
Qed.

Lemma digit_char_not_space (d : N) : (d < 10)%N -> py_isspace (digit_char d) = false.
Proof.
  intros Hd. unfold py_isspace. rewrite nat_of_digit_char by done.
  destruct (Nat.leb_spec 9 (N.to_nat d + 48)), (Nat.leb_spec (N.to_nat d + 48) 13),
    (Nat.leb_spec 28 (N.to_nat d + 48)), (Nat.leb_spec (N.to_nat d + 48) 32);
    simpl; lia || reflexivity.
Qed.

Lemma to_digits_digits (f : nat) (n : N) :
  Forall (fun c => exists d, (d < 10)%N /\ c = digit_char d) (to_digits f n).
Proof.
  revert n. induction f as [|f IH]; intros n; simpl; [constructor|].
  destruct (N.ltb_spec n 10).
  - repeat constructor. eauto.
  - apply Forall_app. split; [apply IH|]. repeat constructor.
    exists (n mod 10)%N. split; [apply N.mod_lt; lia|reflexivity].
Qed.

Lemma to_digits_nonempty (f : nat) (n : N) : f <> O -> to_digits f n <> [].
Proof.
  destruct f as [|f]; [done|]. intros _. simpl.
  destruct (n <? 10)%N; [done|]. intros Happ.
  apply app_eq_nil in Happ as [_ ?]. discriminate.
Qed.

(** Reading the digits of [n] after an accumulator [acc] shifts the
    accumulator by one decimal place per digit. *)
Lemma to_digits_S (f : nat) (n : N) :
  to_digits (S f) n =
  if (n <? 10)%N then [digit_char n] else to_digits f (n / 10)%N ++ [digit_char (n mod 10)%N].
Proof. reflexivity. Qed.

(** Dropping the last digit of a number of at most [S (S f)] digits
    leaves at most [S f] digits. *)
Lemma div10_fuel (f : nat) (n : N) :
  (n < 10 ^ N.of_nat (S (S f)))%N -> (n / 10 < 10 ^ N.of_nat (S f))%N.
Proof.
  intros Hn. rewrite Nat2N.inj_succ, N.pow_succ_r' in Hn.
  apply N.Div0.div_lt_upper_bound; lia.
Qed.

Lemma parse_to_digits (f : nat) (n : N) (acc : Z) (b : bool) (l : list ascii) :
  (n < 10 ^ N.of_nat (S f))%N ->
  parse_digits acc b (to_digits (S f) n ++ l) =
  parse_digits (acc * 10 ^ Z.of_nat (List.length (to_digits (S f) n)) + Z.of_N n) true l.
Proof.
  revert n acc b l. induction f as [|f IH]; intros n acc b l Hn.
  - simpl in *. destruct (N.ltb_spec n 10); [|lia].
    simpl. rewrite digit_val_char by lia; f_equal; lia.
  - rewrite to_digits_S. destruct (N.ltb_spec n 10) as [Hlt|Hge].
    + simpl. rewrite digit_val_char by lia; f_equal; lia.
    + rewrite <- app_assoc, IH.
      * simpl. rewrite digit_val_char by (apply N.mod_lt; lia).
        rewrite length_app. simpl. f_equal.
        rewrite Nat2Z.inj_add, Z.pow_add_r by lia.
        rewrite N2Z.inj_div, N2Z.inj_mod.
        pose proof (Z.div_mod (Z.of_N n) 10). lia.
      * by apply div10_fuel.
Qed.

Lemma size_fuel_bound (n : N) : (n < 10 ^ N.of_nat (S (N.to_nat (N.size n))))%N.
Proof.
  rewrite Nat2N.inj_succ, N2Nat.id, N.pow_succ_r'.
  pose proof (N.size_gt n).
  assert ((2 ^ N.size n <= 10 ^ N.size n)%N) by (apply N.pow_le_mono_l; lia).
  lia.
Qed.

Lemma drop_space_id (l : list ascii) :
  Forall (fun c => py_isspace c = false) l -> drop_space l = l.
Proof. intros [|c t Hc _]; simpl; [done|]. by rewrite Hc. Qed.

Lemma py_strip_list_id (l : list ascii) :
  Forall (fun c => py_isspace c = false) l -> py_strip_list l = l.
Proof.
  intros Hl. unfold py_strip_list.
  rewrite (drop_space_id l Hl), drop_space_id by (by apply Forall_rev).
  apply rev_involutive.
Qed.

Lemma py_str_N_digits (n : N) :
  Forall (fun c => exists d, (d < 10)%N /\ c = digit_char d) (py_str_N n).
Proof. apply to_digits_digits. Qed.

Lemma py_str_N_no_space (n : N) : Forall (fun c => py_isspace c = false) (py_str_N n).
Proof.
  eapply Forall_impl; [apply py_str_N_digits|].
  intros c (d & Hd & ->). by apply digit_char_not_space.
Qed.

Lemma parse_py_str_N (n : N) (b : bool) : parse_digits 0 b (py_str_N n) = Some (Z.of_N n).
Proof.
  unfold py_str_N. rewrite <- (app_nil_r (to_digits _ n)).
  rewrite parse_to_digits by apply size_fuel_bound. simpl. f_equal; lia.
Qed.

Lemma digit_char_not_sign (d : N) :
  (d < 10)%N -> digit_char d <> "-"%char /\ digit_char d <> "+"%char.
Proof.
  intros Hd. pose proof (nat_of_digit_char d Hd) as Hn.
  split; intros Heq; rewrite Heq in Hn;
    [change (nat_of_ascii "-"%char) with 45%nat in Hn
    |change (nat_of_ascii "+"%char) with 43%nat in Hn]; lia.
Qed.

(** Python's [int] is the inverse of [str] on integers: the text a label
    shows for [n] is read back as [n]. *)
Lemma py_int_str (z : Z) : py_int (py_str_int z) = Some z.
Proof.
  unfold py_int, py_str_int. rewrite list_ascii_of_string_of_list_ascii.
  destruct (Z.ltb_spec z 0).
  - rewrite py_strip_list_id by (constructor; [reflexivity|apply py_str_N_no_space]).
    rewrite bool_decide_true by done. rewrite parse_py_str_N. simpl. rewrite Z2N.id by lia. f_equal; lia.
  - rewrite py_strip_list_id by apply py_str_N_no_space.
    pose proof (py_str_N_digits (Z.to_N z)) as Hd.
    destruct (py_str_N (Z.to_N z)) as [|c t] eqn:E.
    + exfalso. refine (to_digits_nonempty _ _ _ E). done.
    + inversion Hd as [|? ? (d & Hlt & ->) _]; subst.
      destruct (digit_char_not_sign d Hlt).
      rewrite !bool_decide_false by done. rewrite <- E, parse_py_str_N, Z2N.id by lia. reflexivity.
Qed.

(** [str.strip] removes only whitespace: every other character stays. *)
Lemma drop_space_elem (l : list ascii) (x : ascii) :
  py_isspace x = false -> x ∈ drop_space l <-> x ∈ l.
Proof.
  intros Hx. induction l as [|c t IH]; simpl; [done|].
  destruct (py_isspace c) eqn:Hc; [|done].
  rewrite IH, elem_of_cons. split; [by right|]. intros [->|]; [congruence|done].
Qed.

Lemma elem_of_rev {A} (l : list A) (x : A) : x ∈ rev l <-> x ∈ l.
Proof. rewrite !list_elem_of_In. symmetry. apply in_rev. Qed.

Lemma py_strip_elem (s : string) (x : ascii) :
  py_isspace x = false ->
  x ∈ list_ascii_of_string (py_strip s) <-> x ∈ list_ascii_of_string s.
Proof.
  intros Hx. unfold py_strip, py_strip_list.
  rewrite list_ascii_of_string_of_list_ascii, elem_of_rev, drop_space_elem,
    elem_of_rev, drop_space_elem by done.
  done.
Qed.

Lemma drop_space_spaces (pre l : list ascii) :
  Forall (fun c => py_isspace c = true) pre -> drop_space (pre ++ l) = drop_space l.
Proof. induction 1 as [|c t Hc _ IH]; simpl; [done|]. by rewrite Hc. Qed.

Lemma drop_space_nonspace (c : ascii) (t : list ascii) :
  py_isspace c = false -> drop_space (c :: t) = c :: t.
Proof. simpl. by intros ->. Qed.

(** [str.strip] removes only the padding of a text whose first and last
    characters are not whitespace, whatever whitespace it holds inside. *)
Lemma py_strip_list_ends (d post : list ascii) (c c' : ascii) :
  Forall (fun c => py_isspace c = true) post ->
  head d = Some c -> py_isspace c = false -> last d = Some c' -> py_isspace c' = false ->
  py_strip_list (d ++ post) = d.
Proof.
  intros Hpost Hh Hc Hl Hc'. unfold py_strip_list.
  destruct d as [|x t]; [done|]. injection Hh as ->.
  rewrite <- app_comm_cons, drop_space_nonspace by done.
  rewrite app_comm_cons, rev_app_distr, drop_space_spaces by (by apply Forall_rev).
  apply last_Some in Hl as [d' Hd']. rewrite Hd', rev_app_distr. simpl.
  rewrite Hc'. simpl. by rewrite rev_involutive.
Qed.

