(* ===== verification/Loaders.v ===== *)
(** * The data loaders ([load_hangman_words], [load_quiz_questions],
    games_gui.py 9-55)

    Both loaders open a JSON file next to the script.  The file system and
    [json.load] are outside the model: what they produce is a [file_read],
    either a missing file, an error while reading, a decoding error, or a
    parsed JSON value.  The loaders are then the functions of the source
    on that outcome: [load_hangman_words] checks that the value is a list
    of strings and lower-cases them, returning the sentinel [["error"]]
    otherwise; [load_quiz_questions] returns the parsed value as it is,
    and [[]] on every failure.

    JSON values are [json]; numbers are integers (floats are not
    modelled).  Objects keep their members in file order, and a lookup
    returns the last binding of a key, as [json.load] builds a [dict].
    The file also holds the Python operations the Quiz applies to the
    loaded value: truthiness, [len], indexing and key lookup. *)

From stdpp Require Import base list.
From Stdlib Require Import Ascii String ZArith Lia.
From S2P Require Import Prelude PyStr.

Local Open Scope Z_scope.

Inductive json : Type :=
  | JNull
  | JBool (b : bool)
  | JNum (n : Z)
  | JStr (s : string)
  | JArr (l : list json)
  | JObj (members : list (string * json)).

(** What opening and decoding the file gives. *)
Inductive file_read : Type :=
  | FileMissing                 (** [not os.path.exists(full_path)] *)
  | ReadError                   (** [open] or [read] raised *)
  | DecodeError                 (** [json.load] raised [JSONDecodeError] *)
  | Parsed (j : json).

(** ** [load_hangman_words] *)

Definition json_str (j : json) : option string :=
  match j with JStr s => Some s | _ => None end.

(** [isinstance(data, list) and all(isinstance(item, str) for item in data)] *)
Fixpoint all_strings (l : list json) : option (list string) :=
  match l with
  | [] => Some []
  | j :: t =>
      match json_str j, all_strings t with
      | Some w, Some ws => Some (w :: ws)
      | _, _ => None
      end
  end.

Definition error_words : list string := ["error"%string].

Definition load_hangman_words (f : file_read) : list string :=
  match f with
  | Parsed (JArr l) =>
      match all_strings l with
      | Some ws => py_lower <$> ws
      | None => error_words
      end
  | _ => error_words
  end.

(** ** [load_quiz_questions] *)

Definition load_quiz_questions (f : file_read) : json :=
  match f with
  | Parsed j => j
  | _ => JArr []
  end.

(** ** Python operations on loaded values *)

(** [bool(v)] *)
Definition py_truthy (j : json) : bool :=
  match j with
  | JNull => false
  | JBool b => b
  | JNum n => negb (n =? 0)
  | JStr s => negb (String.eqb s EmptyString)
  | JArr l => negb (Nat.eqb (List.length l) 0)
  | JObj m => negb (Nat.eqb (List.length m) 0)
  end.

(** Members of a [dict]: duplicates collapse to their last value. *)
Fixpoint obj_lookup (m : list (string * json)) (k : string) : option json :=
  match m with
  | [] => None
  | (k', v) :: t =>
      match obj_lookup t k with
      | Some w => Some w
      | None => if String.eqb k k' then Some v else None
      end
  end.

Definition dict_keys (m : list (string * json)) : list string := remove_dups (fst <$> m).

(** [len(v)]: strings, lists and dicts; [TypeError] otherwise. *)
Definition py_len (j : json) : outcome Z :=
  match j with
  | JStr s => Ret (Z.of_nat (String.length s))
  | JArr l => Ret (Z.of_nat (List.length l))
  | JObj m => Ret (Z.of_nat (List.length (dict_keys m)))
  | _ => Exc TypeError
  end.

Definition of_option {A} (e : py_exn) (o : option A) : outcome A :=
  match o with Some a => Ret a | None => Exc e end.

(** [v[i]] with an integer [i]. *)
Definition py_index (j : json) (i : Z) : outcome json :=
  match j with
  | JArr l => of_option IndexError (py_getitem l i)
  | JStr s =>
      of_option IndexError
        ((fun c => JStr (String c EmptyString)) <$> py_getitem (list_ascii_of_string s) i)
  | JObj _ => Exc KeyError
  | _ => Exc TypeError
  end.

(** [v[k]] with a string [k]. *)
Definition py_key (j : json) (k : string) : outcome json :=
  match j with
  | JObj m => of_option KeyError (obj_lookup m k)
  | _ => Exc TypeError
  end.

(** [v.strip()]: only strings have the method. *)
Definition py_strip_json (j : json) : outcome string :=
  match j with
  | JStr s => Ret (py_strip s)
  | _ => Exc AttributeError
  end.

(** ** Lemmas *)

Lemma all_strings_Some (l : list json) (ws : list string) :
  all_strings l = Some ws -> l = map JStr ws.
Proof.
  revert ws. induction l as [|j t IH]; intros ws; simpl; [by intros [= <-]|].
  destruct j as [| | |w| |]; simpl; try discriminate.
  destruct (all_strings t) as [ws'|] eqn:E; [|discriminate].
  intros [= <-]. simpl. by rewrite (IH ws').
Qed.

Lemma all_strings_map (ws : list string) : all_strings (map JStr ws) = Some ws.
Proof. induction ws as [|w t IH]; simpl; [done|]. by rewrite IH. Qed.

(** C13 (functional): [load_hangman_words] either returns the sentinel
    [["error"]] or the lower-cased strings of a file that is a JSON list
    of strings, and it returns the latter on every such file. *)
Theorem load_hangman_words_spec (f : file_read) :
  (load_hangman_words f = error_words \/
   exists ws, f = Parsed (JArr (map JStr ws)) /\ load_hangman_words f = py_lower <$> ws) /\
  (forall ws, load_hangman_words (Parsed (JArr (map JStr ws))) = py_lower <$> ws).
Proof.
  split; [|intros ws; simpl; by rewrite all_strings_map].
  destruct f as [| | |[| | | | l |]]; simpl; try by left.
  destruct (all_strings l) as [ws|] eqn:E; [right|by left].
  exists ws. split; [by rewrite (all_strings_Some l ws E)|done].
Qed.
