(* ===== verification/NumberGuessing.v ===== *)
(** * Number Guessing ([NumberGuessingGUI], games_gui.py 119-220)

    The page keeps a secret number drawn by [random.randint(1, 10)], a
    budget of [max_attempts = 10] guesses, a log, a status label, a text
    entry and a Guess button.  [start_game] draws the number and resets
    the budget; [check_guess] reads the entry, rejects text that is not
    an integer or not in 1..10, and otherwise spends one attempt, logs a
    hint, and ends the round on a hit or when the budget is spent;
    [end_game] disables the entry and the button.

    The random draw is a parameter of [start_game] (the [NewGame] event
    carries it, with its range as a side condition of [step]).  Messages
    of the log and of the status label are constructors that carry the
    values their f-strings interpolate. *)

From stdpp Require Import base list.
From Stdlib Require Import String ZArith Lia.
From S2P Require Import Prelude PyStr.

Local Open Scope Z_scope.

Module NumberGuessing.

Inductive hint : Type := Lower | Higher.

(** The lines [log] appends to the game log. *)
Inductive log_msg : Type :=
  | MsgNewGame                  (** "New game started! Guess the number between 1 and 10!" *)
  | MsgRange                    (** "Please enter a number between 1 and 10!" *)
  | MsgCongrats (target : Z)    (** "Congrats! You guessed the correct number: {target}!" *)
  | MsgWrong (h : hint)         (** "Wrong guess! It's {hint}" *)
  | MsgGameOver (target : Z)    (** "Game Over! The number was {target}." *)
  | MsgInvalid.                 (** "Please enter a valid number!" *)

Inductive status_text : Type :=
  | StatusBlank
  | AttemptsLeft (n : Z)        (** "Attempts left: {n}" *)
  | GameEnded.                  (** "Game Ended. Start a New Game." *)

Record state : Type := mkState {
  max_attempts : Z;
  target_number : Z;
  attempts_left : Z;
  log_text : list log_msg;
  status_label : status_text;
  guess_entry : string;
  entry_enabled : bool;
  button_enabled : bool
}.

(** [log]: append one line. *)
Definition log (m : log_msg) (s : state) : state :=
  {| s with log_text := log_text s ++ [m] |}.

(** [start_game], with [target] the value of [random.randint(1, 10)]. *)
Definition start_game (target : Z) (s : state) : state :=
  let s := {| s with target_number := target; attempts_left := max_attempts s |} in
  let s := {| s with log_text := [] |} in
  let s := {| s with status_label := AttemptsLeft (attempts_left s) |} in
  let s := log MsgNewGame s in
  {| s with button_enabled := true; entry_enabled := true; guess_entry := EmptyString |}.

(** [end_game]: the argument [won] is unused by the source as well. *)
Definition end_game (won : bool) (s : state) : state :=
  {| s with button_enabled := false; entry_enabled := false; status_label := GameEnded |}.

(** [check_guess]: the whole [try] block, the [except ValueError] branch
    being the [None] case of [py_int]. *)
Definition check_guess (s : state) : state :=
  let guess_str := guess_entry s in
  let s := {| s with guess_entry := EmptyString |} in
  match py_int guess_str with
  | None => log MsgInvalid s
  | Some guess =>
      if negb ((1 <=? guess) && (guess <=? 10)) then log MsgRange s
      else
        let s := {| s with attempts_left := attempts_left s - 1 |} in
        if guess =? target_number s then
          end_game true (log (MsgCongrats (target_number s)) s)
        else
          let h := if guess >? target_number s then Lower else Higher in
          let s := log (MsgWrong h) s in
          if attempts_left s <=? 0 then
            end_game false (log (MsgGameOver (target_number s)) s)
          else {| s with status_label := AttemptsLeft (attempts_left s) |}
  end.

(** [__init__]: the attributes, then the first [start_game]. *)
Definition init (target : Z) : state :=
  start_game target
    {| max_attempts := 10; target_number := 0; attempts_left := 0;
       log_text := []; status_label := StatusBlank; guess_entry := EmptyString;
       entry_enabled := true; button_enabled := true |}.

(** ** The page as a state machine *)

(** What the user can do on the page: type into the entry, press Guess,
    press New Game (carrying the random draw).  A disabled Tk widget
    ignores input, which is the guard of each step. *)
Inductive event : Type :=
  | TypeText (txt : string)
  | Guess
  | NewGame (target : Z).

Definition handle (e : event) (s : state) : state :=
  match e with
  | TypeText txt => if entry_enabled s then {| s with guess_entry := txt |} else s
  | Guess => if button_enabled s then check_guess s else s
  | NewGame t => start_game t s
  end.

Definition valid_event (e : event) : Prop :=
  match e with NewGame t => 1 <= t <= 10 | _ => True end.

(** The pages [__init__] can build, then any valid events. *)
Definition reachable : state -> Prop :=
  reachable_from (fun s => exists t, 1 <= t <= 10 /\ s = init t) valid_event handle.

(** ** Abstract specification: a round of the game *)

Inductive phase : Type := Playing | Won | Lost.

Record abs_state : Type := mkAbs { a_target : Z; a_left : Z; a_phase : phase }.

(** A valid guess spends one attempt; a hit wins, a miss that spends the
    last attempt loses. *)
Inductive abs_guess : abs_state -> Z -> abs_state -> Prop :=
  | ag_hit t n g : g = t -> abs_guess (mkAbs t n Playing) g (mkAbs t (n - 1) Won)
  | ag_miss t n g : g <> t -> 0 < n - 1 -> abs_guess (mkAbs t n Playing) g (mkAbs t (n - 1) Playing)
  | ag_last t n g : g <> t -> n - 1 <= 0 -> abs_guess (mkAbs t n Playing) g (mkAbs t (n - 1) Lost).

(** The phase a page is in: the input is enabled while playing, and the
    last log line tells a won round from a lost one. *)
Definition phase_of (s : state) : phase :=
  if button_enabled s then Playing
  else match last (log_text s) with Some (MsgCongrats _) => Won | _ => Lost end.

Definition abstract (s : state) : abs_state :=
  mkAbs (target_number s) (attempts_left s) (phase_of s).

(** The invariant of every reachable page. *)
Definition inv (s : state) : Prop :=
  max_attempts s = 10 /\ 1 <= target_number s <= 10 /\
  0 <= attempts_left s <= 10 /\
  entry_enabled s = button_enabled s /\
  (button_enabled s = true -> 0 < attempts_left s).

(** ** Lemmas *)

Ltac solve_inv :=
  unfold inv; simpl; repeat split;
  first [reflexivity | discriminate | intros; discriminate | lia | solve [auto] | congruence].

Lemma check_guess_invalid (s : state) :
  py_int (guess_entry s) = None ->
  check_guess s = log MsgInvalid {| s with guess_entry := EmptyString |}.
Proof. unfold check_guess. intros ->. reflexivity. Qed.

Lemma check_guess_range (s : state) (g : Z) :
  py_int (guess_entry s) = Some g -> ~ (1 <= g <= 10) ->
  check_guess s = log MsgRange {| s with guess_entry := EmptyString |}.
Proof.
  unfold check_guess. intros -> Hg.
  destruct (Z.leb_spec 1 g), (Z.leb_spec g 10); simpl; lia || reflexivity.
Qed.

(** The case analysis of a valid guess, for the lemmas below. *)
Lemma check_guess_valid_cases (s : state) (g : Z) :
  py_int (guess_entry s) = Some g -> 1 <= g <= 10 ->
  let s1 := {| s with guess_entry := EmptyString; attempts_left := attempts_left s - 1 |} in
  check_guess s =
    if g =? target_number s then end_game true (log (MsgCongrats (target_number s)) s1)
    else
      let s2 := log (MsgWrong (if g >? target_number s then Lower else Higher)) s1 in
      if attempts_left s - 1 <=? 0 then end_game false (log (MsgGameOver (target_number s)) s2)
      else {| s2 with status_label := AttemptsLeft (attempts_left s - 1) |}.
Proof.
  unfold check_guess. intros -> Hg.
  destruct (Z.leb_spec 1 g), (Z.leb_spec g 10); simpl; try lia. reflexivity.
Qed.

Lemma ng_start_game_inv (t : Z) (s : state) :
  max_attempts s = 10 -> 1 <= t <= 10 -> inv (start_game t s).
Proof. intros Hm Ht. unfold inv; simpl. rewrite Hm. repeat split; lia. Qed.

Lemma ng_check_guess_inv (s : state) :
  inv s -> button_enabled s = true -> inv (check_guess s).
Proof.
  intros (Hm & Ht & Ha & He & Hp) Hb.
  destruct (py_int (guess_entry s)) as [g|] eqn:Hg.
  2: { rewrite check_guess_invalid by done. unfold inv; simpl; auto. }
  destruct (decide (1 <= g <= 10)) as [Hr|Hr].
  2: { rewrite (check_guess_range s g) by done. unfold inv; simpl; auto. }
  rewrite (check_guess_valid_cases s g) by done. specialize (Hp Hb).
  destruct (g =? target_number s); [solve_inv|].
  destruct (Z.leb_spec (attempts_left s - 1) 0); solve_inv.
Qed.

Lemma ng_handle_inv (e : event) (s : state) :
  inv s -> valid_event e -> inv (handle e s).
Proof.
  intros Hi Hv. destruct e as [txt| |t]; simpl.
  - destruct Hi as (? & ? & ? & ? & ?). destruct (entry_enabled s) eqn:E; solve_inv.
  - destruct (button_enabled s) eqn:Hb; [by apply ng_check_guess_inv|done].
  - apply ng_start_game_inv; [apply Hi|done].
Qed.

(** A valid guess on an enabled page spends exactly one attempt. *)
Lemma check_guess_attempts (s : state) (g : Z) :
  py_int (guess_entry s) = Some g -> 1 <= g <= 10 ->
  attempts_left (check_guess s) = attempts_left s - 1.
Proof.
  intros Hg Hr. rewrite (check_guess_valid_cases s g Hg Hr).
  destruct (g =? target_number s); [done|].
  by destruct (attempts_left s - 1 <=? 0).
Qed.

(** Pressing Guess after typing [txt], as the user does it. *)
Definition guess_with (txt : string) (s : state) : state :=
  handle Guess (handle (TypeText txt) s).

Definition valid_guess (txt : string) : Prop :=
  exists g, py_int txt = Some g /\ 1 <= g <= 10.

Lemma guess_with_disabled (txt : string) (s : state) :
  inv s -> button_enabled s = false -> guess_with txt s = s.
Proof.
  intros (_ & _ & _ & He & _) Hb. unfold guess_with; simpl.
  rewrite He, Hb. simpl. by rewrite Hb.
Qed.

Lemma guess_with_enabled (txt : string) (g : Z) (s : state) :
  inv s -> button_enabled s = true -> py_int txt = Some g -> 1 <= g <= 10 ->
  inv (guess_with txt s) /\
  attempts_left (guess_with txt s) = attempts_left s - 1.
Proof.
  intros Hi Hb Hg Hr. unfold guess_with.
  assert (He : entry_enabled s = true) by (destruct Hi as (_ & _ & _ & -> & _); done).
  pose proof (ng_handle_inv (TypeText txt) s Hi I) as Hi'.
  remember (handle (TypeText txt) s) as s' eqn:Hs'.
  assert (Hb' : button_enabled s' = true) by (subst s'; simpl; by rewrite He).
  assert (Hg' : py_int (guess_entry s') = Some g) by (subst s'; simpl; by rewrite He).
  assert (Ha' : attempts_left s' = attempts_left s) by (subst s'; simpl; by rewrite He).
  simpl. rewrite Hb'. split; [by apply ng_check_guess_inv|].
  rewrite (check_guess_attempts s' g); [lia|done|done].
Qed.

Lemma play_disabled (gs : list string) (s : state) :
  inv s -> button_enabled s = false -> foldl (fun s txt => guess_with txt s) s gs = s.
Proof.
  intros Hi Hb. induction gs as [|txt gs IH]; simpl; [done|].
  by rewrite guess_with_disabled.
Qed.

(** * Theorems *)

Lemma ng_reachable_wf (s : state) : reachable s -> inv s.
Proof.
  revert s. apply reachable_from_inv; [intros ? (t & Ht & ->); by apply ng_start_game_inv|].
  intros s e Hi Hv. by apply ng_handle_inv.
Qed.

(** C16 (invariant): every page state reachable from [__init__] by
    typing, guessing and starting new games keeps [max_attempts = 10],
    a secret in 1..10, between 0 and 10 attempts left, entry and button
    enabled together, and at least one attempt left while they are
    enabled. *)
Theorem ng_reachable_inv (s : state) : reachable s -> inv s.
Proof. apply ng_reachable_wf; assumption. Qed.

(** C17 (refinement): on an enabled page, a guess that [int()] reads as a
    number in 1..10 is a step of the abstract round: one attempt is
    spent, a hit wins, and a miss loses exactly when it spends the last
    attempt. *)
Theorem check_guess_refines (s : state) (g : Z) :
  inv s -> button_enabled s = true ->
  py_int (guess_entry s) = Some g -> 1 <= g <= 10 ->
  abs_guess (abstract s) g (abstract (check_guess s)).
Proof.
  intros Hi Hb Hg Hr. pose proof (proj2 (proj2 (proj2 (proj2 Hi))) Hb) as Hpos.
  unfold abstract, phase_of. rewrite Hb, (check_guess_valid_cases s g Hg Hr).
  destruct (Z.eqb_spec g (target_number s)) as [->|Hne].
  - simpl. rewrite last_snoc. by constructor.
  - destruct (Z.leb_spec (attempts_left s - 1) 0); simpl.
    + rewrite last_snoc. by apply ag_last.
    + rewrite Hb. by apply ag_miss; [|lia].
Qed.

(** C19 (error): text that [int()] rejects, or a number outside 1..10, is
    reported in the log and changes nothing else: the secret, the
    attempts left, the phase and the controls stay as they were, and the
    entry is cleared. *)
Theorem check_guess_rejects (s : state) :
  (py_int (guess_entry s) = None \/
   exists g, py_int (guess_entry s) = Some g /\ ~ (1 <= g <= 10)) ->
  exists m, m <> MsgNewGame /\
    check_guess s = {| s with guess_entry := EmptyString; log_text := log_text s ++ [m] |}.
Proof.
  intros [Hn|(g & Hg & Hr)].
  - exists MsgInvalid. split; [done|]. by rewrite check_guess_invalid.
  - exists MsgRange. split; [done|]. by rewrite (check_guess_range s g).
Qed.

(** a valid miss logs the hint "Lower!" exactly when the
    guess is above the secret, and "Higher!" otherwise. *)
Theorem check_guess_hint (s : state) (g : Z) :
  py_int (guess_entry s) = Some g -> 1 <= g <= 10 -> g <> target_number s ->
  exists rest,
    log_text (check_guess s) =
      log_text s ++ MsgWrong (if g >? target_number s then Lower else Higher) :: rest /\
    ((if g >? target_number s then Lower else Higher) = Lower <-> target_number s < g).
Proof.
  intros Hg Hr Hne. rewrite (check_guess_valid_cases s g Hg Hr).
  destruct (Z.eqb_spec g (target_number s)); [done|].
  destruct (attempts_left s - 1 <=? 0); simpl.
  - eexists. rewrite <- !app_assoc. split; [reflexivity|].
    destruct (Z.gtb_spec g (target_number s)); split; intros; try done; lia.
  - exists []. split; [done|].
    destruct (Z.gtb_spec g (target_number s)); split; intros; try done; lia.
Qed.

(** C18 (termination): a round cannot outlast its budget.  From any
    reachable page, whatever valid guesses the player types, after as
    many guesses as there are attempts left the input is disabled. *)
Theorem round_ends (gs : list string) (s : state) :
  reachable s -> Forall valid_guess gs ->
  attempts_left s <= Z.of_nat (List.length gs) ->
  button_enabled (foldl (fun s txt => guess_with txt s) s gs) = false.
Proof.
  intros Hr%ng_reachable_wf. revert s Hr.
  induction gs as [|txt gs IH]; intros s Hi Hv Hlen; simpl in *.
  - destruct (button_enabled s) eqn:Hb; [|done].
    destruct Hi as (_ & _ & _ & _ & Hp). specialize (Hp Hb). lia.
  - inversion Hv as [|? ? (g & Hg & Hgr) Hv']; subst.
    destruct (button_enabled s) eqn:Hb.
    + destruct (guess_with_enabled txt g s Hi Hb Hg Hgr) as [Hi' Ha].
      apply IH; [done|done|lia].
    + by rewrite guess_with_disabled, play_disabled.
Qed.

(** ** Witnesses *)

Lemma ng_reachable_init (t : Z) : 1 <= t <= 10 -> reachable (init t).
Proof. intros Ht. apply reach_init. by exists t. Qed.

(** The page after [__init__] drew 7 and the player typed [txt]. *)
Definition typed (txt : string) : state := handle (TypeText txt) (init 7).

Lemma ng_reachable_typed (txt : string) : reachable (typed txt).
Proof. apply (reach_step _ (TypeText txt)); [apply ng_reachable_init; lia|done]. Qed.

Lemma ng_reachable_inv_witness : reachable (init 7) /\ inv (init 7).
Proof.
  assert (H : reachable (init 7)) by (apply ng_reachable_init; lia).
  split; [exact H|exact (ng_reachable_inv (init 7) H)].
Defined.

Lemma check_guess_refines_witness :
  abs_guess (abstract (typed "5")) 5 (abstract (check_guess (typed "5"))).
Proof.
  apply check_guess_refines;
    [apply ng_reachable_wf, ng_reachable_typed|reflexivity|reflexivity|lia].
Defined.

Lemma check_guess_rejects_witness :
  exists m, m <> MsgNewGame /\
    check_guess (typed "ten") =
      {| (typed "ten") with guess_entry := EmptyString;
                          log_text := log_text (typed "ten") ++ [m] |}.
Proof. apply check_guess_rejects. left. reflexivity. Defined.

Lemma check_guess_hint_witness :
  exists rest,
    log_text (check_guess (typed " 9 ")) =
      log_text (typed " 9 ") ++ MsgWrong (if 9 >? target_number (typed " 9 ") then Lower else Higher) :: rest /\
    ((if 9 >? target_number (typed " 9 ") then Lower else Higher) = Lower <->
     target_number (typed " 9 ") < 9).
Proof. apply check_guess_hint; [reflexivity|lia|simpl; lia]. Defined.

Lemma round_ends_witness :
  button_enabled (foldl (fun s txt => guess_with txt s) (init 7)
    ["1"; "2"; "3"; "4"; "5"; "6"; "8"; "9"; "10"; "+1"]%string) = false.
Proof.
  apply round_ends; [apply ng_reachable_init; lia| |simpl; lia].
  repeat (apply List.Forall_cons; [eexists; split; [reflexivity|simpl; lia]|]). apply List.Forall_nil.
Defined.

End NumberGuessing.
