(* ===== verification/TicTacToe.v ===== *)
(** * Tic-Tac-Toe ([TicTacToeGUI], games_gui.py 753-860)

    The page keeps a 3x3 [board] of marks, the [current_player], a
    dictionary [buttons] from [(row, col)] to the grid buttons, the flag
    [game_active] and a status label.  [button_click(row, col)] ignores a
    click when the game is over or the cell is taken, otherwise writes the
    mark, updates and disables the button, and then either declares the
    winner found by [check_winner] (rows, then columns, then the two
    diagonals), declares a tie on a full board, or passes the turn.
    [reset_game] clears everything and gives the first move to X.

    The marks [' '], ["X"], ["O"] of the source are the constructors
    [Blank], [X], [O].  [button_click] runs in the callback monad [PyM]:
    [self.board[row][col]] follows Python indexing ([py_getitem]), and
    [self.buttons[(row, col)]] raises [KeyError] on a key that is not in
    the dictionary, after the board has already been written. *)

From stdpp Require Import base list gmap.
From Stdlib Require Import ZArith Lia.
From S2P Require Import Prelude.

Local Open Scope Z_scope.
Local Open Scope py_scope.

Module TicTacToe.

Inductive mark : Type := Blank | X | O.

#[export] Instance mark_eq_dec : EqDecision mark.
Proof. solve_decision. Defined.

(** A grid button: its [text] and whether it is enabled. *)
Record button : Type := mkButton { btn_text : mark; btn_enabled : bool }.

Inductive status_text : Type :=
  | Turn (p : mark)          (** "Player {p}'s turn" *)
  | Wins (p : mark)          (** "Player {winner} wins!" *)
  | TieGame.                 (** "It's a tie!" *)

Record state : Type := mkState {
  board : list (list mark);
  current_player : mark;
  buttons : gmap (Z * Z) button;
  game_active : bool;
  status_label : status_text
}.

(** [[[' ' for _ in range(3)] for _ in range(3)]] *)
Definition empty_board : list (list mark) := replicate 3 (replicate 3 Blank).

(** The nine keys [(row, col)] of [self.buttons], in creation order. *)
Definition cells : list (Z * Z) :=
  [(0,0); (0,1); (0,2); (1,0); (1,1); (1,2); (2,0); (2,1); (2,2)].

(** [self.board[i][j]] for the indices [check_winner] uses. *)
Definition cell (b : list (list mark)) (i j : nat) : mark :=
  default Blank (b !! i ≫= fun r => r !! j).

(** [a == b == c != ' '] *)
Definition line3 (a b c : mark) : bool :=
  bool_decide (a = b) && bool_decide (b = c) && bool_decide (c <> Blank).

(** The first [Some] of [f i] over [l]: a [for] loop with an early
    [return]. *)
Fixpoint first_some {A} (f : nat -> option A) (l : list nat) : option A :=
  match l with
  | [] => None
  | i :: t => match f i with Some a => Some a | None => first_some f t end
  end.

Definition row_win (b : list (list mark)) (i : nat) : option mark :=
  if line3 (cell b i 0) (cell b i 1) (cell b i 2) then Some (cell b i 0) else None.

Definition col_win (b : list (list mark)) (j : nat) : option mark :=
  if line3 (cell b 0 j) (cell b 1 j) (cell b 2 j) then Some (cell b 0 j) else None.

(** [check_winner]: rows, columns, then the two diagonals. *)
Definition check_winner (b : list (list mark)) : option mark :=
  match first_some (row_win b) [0; 1; 2]%nat with
  | Some w => Some w
  | None =>
      match first_some (col_win b) [0; 1; 2]%nat with
      | Some w => Some w
      | None =>
          if line3 (cell b 0 0) (cell b 1 1) (cell b 2 2) then Some (cell b 0 0)
          else if line3 (cell b 0 2) (cell b 1 1) (cell b 2 0) then Some (cell b 0 2)
          else None
      end
  end.

(** [all(self.board[i][j] != ' ' for i in range(3) for j in range(3))] *)
Definition board_full (b : list (list mark)) : bool :=
  forallb (fun i => forallb (fun j => bool_decide (cell b i j <> Blank)) [0; 1; 2]%nat)
    [0; 1; 2]%nat.

(** [disable_all_buttons]: only the buttons whose text is still [' ']. *)
Definition disable_all_buttons (s : state) : state :=
  {| s with buttons :=
       (fun bt => if bool_decide (btn_text bt = Blank)
                  then {| bt with btn_enabled := false |} else bt) <$> buttons s |}.

(** [button_click(row, col)]. *)
Definition button_click (row col : Z) : PyM state unit :=
  active <- py_gets game_active ;;
  (if negb active then return! else
  b <- py_gets board ;;
  r <- py_of_option IndexError (py_getitem b row) ;;
  v <- py_of_option IndexError (py_getitem r col) ;;
  if bool_decide (v <> Blank) then return! else
  p <- py_gets current_player ;;
  (* 1. self.board[row][col] = self.current_player *)
  r' <- py_of_option IndexError (py_setitem r col p) ;;
  b' <- py_of_option IndexError (py_setitem b row r') ;;
  py_modify (fun s => {| s with board := b' |}) ;;
  (* 2. button = self.buttons[(row, col)]; button.config(...) *)
  _ <- (s <- py_get ;; py_of_option KeyError (buttons s !! (row, col))) ;;
  py_modify (fun s => {| s with buttons := <[(row, col) := mkButton p false]> (buttons s) |}) ;;
  w <- py_gets (fun s => check_winner (board s)) ;;
  match w with
  | Some w =>
      py_modify (fun s => disable_all_buttons
                   {| s with status_label := Wins w; game_active := false |})
  | None =>
      full <- py_gets (fun s => board_full (board s)) ;;
      if full then py_modify (fun s => {| s with status_label := TieGame; game_active := false |})
      else
        py_modify (fun s =>
          let p' := if bool_decide (current_player s = X) then O else X in
          {| s with current_player := p'; status_label := Turn p' |})
  end).

(** [reset_game]. *)
Definition reset_game (s : state) : state :=
  {| board := empty_board; current_player := X; game_active := true;
     status_label := Turn X;
     buttons := (fun _ => mkButton Blank true) <$> buttons s |}.

(** [__init__]: nine enabled blank buttons, X to move. *)
Definition init : state :=
  {| board := empty_board; current_player := X;
     buttons := list_to_map ((fun k => (k, mkButton Blank true)) <$> cells);
     game_active := true; status_label := Turn X |}.

(** ** The page as a state machine *)

(** A click reaches [button_click] only through one of the nine grid
    buttons, and only while that button is enabled; New Game calls
    [reset_game]. *)
Inductive event : Type := Click (r c : Z) | NewGame.

Definition handle (e : event) (s : state) : state :=
  match e with
  | Click r c =>
      match buttons s !! (r, c) with
      | Some bt => if btn_enabled bt then exec (button_click r c) s else s
      | None => s
      end
  | NewGame => reset_game s
  end.

(** The page after [__init__], then any clicks. *)
Definition reachable : state -> Prop := reachable_from (fun s => s = init) (fun _ => True) handle.

(** ** Reference specification of a win *)

(** The eight lines of the grid, in the order [check_winner] visits them. *)
Definition lines : list (list (nat * nat)) :=
  [ [(0,0); (0,1); (0,2)]; [(1,0); (1,1); (1,2)]; [(2,0); (2,1); (2,2)];
    [(0,0); (1,0); (2,0)]; [(0,1); (1,1); (2,1)]; [(0,2); (1,2); (2,2)];
    [(0,0); (1,1); (2,2)]; [(0,2); (1,1); (2,0)] ]%nat.

(** Line [ln] is completed by player [p]. *)
Definition line_full (b : list (list mark)) (ln : list (nat * nat)) (p : mark) : Prop :=
  p <> Blank /\ Forall (fun ij => cell b ij.1 ij.2 = p) ln.

Definition line_winner (b : list (list mark)) (ln : list (nat * nat)) : option mark :=
  match ln with
  | [(i1, j1); (i2, j2); (i3, j3)] =>
      if line3 (cell b i1 j1) (cell b i2 j2) (cell b i3 j3) then Some (cell b i1 j1) else None
  | _ => None
  end.

(** The winner as a search over the eight lines. *)
Fixpoint first_line_winner (b : list (list mark)) (lns : list (list (nat * nat))) : option mark :=
  match lns with
  | [] => None
  | ln :: t => match line_winner b ln with Some w => Some w | None => first_line_winner b t end
  end.

Definition ref_winner (b : list (list mark)) : option mark := first_line_winner b lines.

(** ** Lemmas on the winner check *)

Lemma line3_spec (a b c : mark) : line3 a b c = true <-> a = b /\ b = c /\ c <> Blank.
Proof.
  unfold line3. rewrite !andb_true_iff, !bool_decide_eq_true. tauto.
Qed.

Lemma lines_three (ln : list (nat * nat)) :
  ln ∈ lines -> exists a b c, ln = [a; b; c].
Proof. intros Hin%list_elem_of_In. simpl in Hin. intuition (subst; eauto). Qed.

Lemma line_winner_full (b : list (list mark)) (ln : list (nat * nat)) (p : mark) :
  ln ∈ lines -> line_winner b ln = Some p <-> line_full b ln p.
Proof.
  intros ([i1 j1] & [i2 j2] & [i3 j3] & ->)%lines_three. unfold line_full. simpl.
  rewrite !Forall_cons, Forall_nil. simpl.
  destruct (line3 _ _ _) eqn:E.
  - apply line3_spec in E as (-> & -> & ?). split; [intros [= <-]; tauto|].
    intros (_ & -> & _). done.
  - split; [done|]. intros (Hp & H1 & H2 & H3 & _). rewrite H1, H2, H3 in E.
    assert (line3 p p p = true) by (by apply line3_spec). congruence.
Qed.

Lemma first_line_winner_sound (b : list (list mark)) (lns : list (list (nat * nat))) (p : mark) :
  first_line_winner b lns = Some p -> exists ln, ln ∈ lns /\ line_winner b ln = Some p.
Proof.
  induction lns as [|ln t IH]; simpl; [done|].
  destruct (line_winner b ln) eqn:E.
  - intros [= <-]. exists ln. split; [left|done].
  - intros (ln' & ? & ?)%IH. exists ln'. split; [right|]; done.
Qed.

Lemma first_line_winner_complete (b : list (list mark)) (lns : list (list (nat * nat)))
    (ln : list (nat * nat)) (p : mark) :
  ln ∈ lns -> line_winner b ln = Some p -> exists q, first_line_winner b lns = Some q.
Proof.
  induction lns as [|ln' t IH]; simpl; [by intros ?%elem_of_nil|].
  intros [->|Hin]%elem_of_cons Hw; [rewrite Hw; eauto|].
  destruct (line_winner b ln'); eauto.
Qed.

Lemma check_winner_ref (b : list (list mark)) : check_winner b = ref_winner b.
Proof.
  unfold check_winner, ref_winner; simpl.
  unfold row_win, col_win.
  repeat (destruct (line3 _ _ _); [reflexivity|]). reflexivity.
Qed.

(** C1 (equivalence): the hand-unrolled [check_winner] of the source,
    rows then columns then diagonals, computes the same result as the
    search over the eight lines in that order. *)
Theorem check_winner_equiv (b : list (list mark)) : check_winner b = ref_winner b.
Proof. apply check_winner_ref; assumption. Qed.

Lemma check_winner_lines (b : list (list mark)) (p : mark) :
  (check_winner b = Some p -> exists ln, ln ∈ lines /\ line_full b ln p) /\
  (forall ln, ln ∈ lines -> line_full b ln p -> exists q, check_winner b = Some q).
Proof.
  rewrite check_winner_ref. split.
  - intros (ln & Hin & Hw)%first_line_winner_sound.
    exists ln. split; [done|]. by apply line_winner_full.
  - intros ln Hin Hf. apply (first_line_winner_complete _ _ ln p Hin).
    by apply line_winner_full.
Qed.

(** C2 (functional): [check_winner] reports [p] only when [p] has
    completed one of the eight lines, and it reports some winner whenever
    a line is completed. *)
Theorem check_winner_correct (b : list (list mark)) (p : mark) :
  (check_winner b = Some p -> exists ln, ln ∈ lines /\ line_full b ln p) /\
  (forall ln, ln ∈ lines -> line_full b ln p -> exists q, check_winner b = Some q).
Proof. apply check_winner_lines; assumption. Qed.

(** ** Boards after a move *)

(** The nine cells as [nat] pairs, row-major. *)
Definition all9 : list (nat * nat) :=
  [(0,0); (0,1); (0,2); (1,0); (1,1); (1,2); (2,0); (2,1); (2,2)]%nat.

Definition shape_ok (b : list (list mark)) : Prop :=
  length b = 3%nat /\ Forall (fun row => length row = 3%nat) b.

(** [self.board[r][c] = p] on a well-shaped board. *)
Definition place (b : list (list mark)) (r c : nat) (p : mark) : list (list mark) :=
  <[r := <[c := p]> (default [] (b !! r))]> b.

(** The number of cells holding [q]. *)
Definition count (b : list (list mark)) (q : mark) : nat :=
  length (filter (fun ij => cell b ij.1 ij.2 = q) all9).

Lemma all9_NoDup : NoDup all9.
Proof. apply (bool_decide_unpack _). vm_compute. exact I. Qed.

Lemma all9_spec (i j : nat) : (i, j) ∈ all9 <-> (i < 3 /\ j < 3)%nat.
Proof.
  unfold all9. rewrite !elem_of_cons, elem_of_nil. split.
  - intros H. repeat (destruct H as [H|H]; [injection H as -> ->; lia|]). done.
  - intros [Hi Hj].
    assert (Hi' : (i = 0 \/ i = 1 \/ i = 2)%nat) by lia.
    assert (Hj' : (j = 0 \/ j = 1 \/ j = 2)%nat) by lia.
    destruct Hi' as [-> | [-> | ->]]; destruct Hj' as [-> | [-> | ->]]; tauto.
Qed.

Lemma shape_row (b : list (list mark)) (r : nat) :
  shape_ok b -> (r < 3)%nat -> exists row, b !! r = Some row /\ length row = 3%nat.
Proof.
  intros [Hl Hrows] Hr. destruct (b !! r) as [row|] eqn:E.
  - exists row. split; [done|]. by eapply (Forall_lookup_1 _ _ _ _ Hrows).
  - apply lookup_ge_None in E. lia.
Qed.

Lemma shape_place (b : list (list mark)) (r c : nat) (p : mark) :
  shape_ok b -> (r < 3)%nat -> shape_ok (place b r c p).
Proof.
  intros Hs Hr. destruct (shape_row b r Hs Hr) as (row & Hrow & Hlen).
  destruct Hs as [Hl Hrows]. unfold place. rewrite Hrow. simpl. split.
  - by rewrite length_insert.
  - apply Forall_insert; [done|]. by rewrite length_insert.
Qed.

Lemma cell_place (b : list (list mark)) (r c i j : nat) (p : mark) :
  shape_ok b -> (r < 3)%nat -> (c < 3)%nat ->
  cell (place b r c p) i j = if decide ((i, j) = (r, c)) then p else cell b i j.
Proof.
  intros Hs Hr Hc. destruct (shape_row b r Hs Hr) as (row & Hrow & Hlen).
  unfold cell, place. rewrite Hrow. simpl.
  destruct (decide (i = r)) as [->|Hir].
  - rewrite list_lookup_insert_eq by (destruct Hs; lia). simpl. rewrite Hrow. simpl.
    destruct (decide (j = c)) as [->|Hjc].
    + rewrite list_lookup_insert_eq by lia. by rewrite decide_True.
    + rewrite list_lookup_insert_ne by done. rewrite decide_False by congruence. done.
  - rewrite list_lookup_insert_ne by done. rewrite decide_False by congruence. done.
Qed.

(** Writing [p] into a blank cell adds one [p] and leaves the count of
    every other mark alone. *)
Lemma count_place (b : list (list mark)) (r c : nat) (p q : mark) :
  shape_ok b -> (r < 3)%nat -> (c < 3)%nat -> cell b r c = Blank -> p <> Blank ->
  count (place b r c p) q =
    if decide (q = p) then S (count b q)
    else if decide (q = Blank) then pred (count b q) else count b q.
Proof.
  intros Hs Hr Hc Hb Hp. unfold count.
  assert (Hin : (r, c) ∈ all9) by (by apply all9_spec).
  assert (Hother : forall ij, ij ∈ all9 -> ij <> (r, c) ->
            cell b ij.1 ij.2 = q <-> cell (place b r c p) ij.1 ij.2 = q).
  { intros [i j] _ Hne. rewrite cell_place by done. simpl.
    by rewrite decide_False by done. }
  destruct (decide (q = p)) as [->|Hqp].
  - apply (filter_length_update _ _ _ (r, c)).
    + apply all9_NoDup.
    + done.
    + intros ij Hij Hne. by apply Hother.
    + simpl. congruence.
    + simpl. rewrite cell_place, decide_True by done. done.
  - destruct (decide (q = Blank)) as [->|Hqb].
    + assert (E : length (filter (fun ij => cell b ij.1 ij.2 = Blank) all9) =
                    S (length (filter (fun ij => cell (place b r c p) ij.1 ij.2 = Blank) all9))).
      { apply (filter_length_update _ _ _ (r, c)); [apply all9_NoDup|done| | |done].
        - intros ij Hij Hne. symmetry. by apply Hother.
        - simpl. by rewrite cell_place, decide_True. }
      by rewrite E.
    + apply filter_length_ext. intros [i j] Hij. simpl.
      rewrite cell_place by done. destruct (decide ((i, j) = (r, c))) as [[= -> ->]|]; [|done].
      rewrite Hb. split; intros; subst; congruence.
Qed.

(** A full line after writing [p] at [(r, c)] either goes through
    [(r, c)] and belongs to [p], or was already full. *)
Lemma line_full_place (b : list (list mark)) (r c : nat) (p q : mark) (ln : list (nat * nat)) :
  shape_ok b -> (r < 3)%nat -> (c < 3)%nat ->
  line_full (place b r c p) ln q -> ((r, c) ∈ ln /\ q = p) \/ line_full b ln q.
Proof.
  intros Hs Hr Hc [Hq Hall]. rewrite Forall_forall in Hall.
  destruct (decide ((r, c) ∈ ln)) as [Hin|Hnin].
  - left. split; [done|]. specialize (Hall _ Hin). simpl in Hall.
    rewrite cell_place, decide_True in Hall by done. congruence.
  - right. split; [done|]. apply Forall_forall. intros [i j] Hij.
    specialize (Hall _ Hij). simpl in *. rewrite cell_place, decide_False in Hall by set_solver.
    done.
Qed.

Lemma no_winner_no_line (b : list (list mark)) (ln : list (nat * nat)) (q : mark) :
  check_winner b = None -> ln ∈ lines -> ~ line_full b ln q.
Proof.
  intros Hw Hin Hf. destruct (proj2 (check_winner_lines b q) ln Hin Hf) as [w Hw'].
  congruence.
Qed.

Lemma board_full_spec (b : list (list mark)) :
  board_full b = true <-> forall i j, (i, j) ∈ all9 -> cell b i j <> Blank.
Proof.
  unfold board_full. simpl. rewrite !andb_true_iff, !bool_decide_eq_true. split.
  - intros H i j Hin. apply all9_spec in Hin as [Hi Hj].
    assert (Hi' : (i = 0 \/ i = 1 \/ i = 2)%nat) by lia.
    assert (Hj' : (j = 0 \/ j = 1 \/ j = 2)%nat) by lia.
    destruct Hi' as [-> | [-> | ->]]; destruct Hj' as [-> | [-> | ->]]; tauto.
  - intros H. repeat split; apply H, all9_spec; lia.
Qed.

Lemma cell_lookup (b : list (list mark)) (r c : nat) :
  shape_ok b -> (r < 3)%nat -> (c < 3)%nat ->
  exists row, b !! r = Some row /\ row !! c = Some (cell b r c) /\ length row = 3%nat.
Proof.
  intros Hs Hr Hc. destruct (shape_row b r Hs Hr) as (row & Hrow & Hlen).
  exists row. unfold cell. rewrite Hrow. simpl.
  destruct (row !! c) eqn:E; [done|]. apply lookup_ge_None in E. lia.
Qed.

(** ** The effect of a click *)

(** What [button_click] does after writing the mark: the winner check,
    the tie check, or the change of turn. *)
Definition finish_move (s : state) : state :=
  match check_winner (board s) with
  | Some w => disable_all_buttons {| s with status_label := Wins w; game_active := false |}
  | None =>
      if board_full (board s) then {| s with status_label := TieGame; game_active := false |}
      else
        let p' := if bool_decide (current_player s = X) then O else X in
        {| s with current_player := p'; status_label := Turn p' |}
  end.

Definition move (r c : nat) (s : state) : state :=
  finish_move
    {| s with board := place (board s) r c (current_player s);
              buttons := <[(Z.of_nat r, Z.of_nat c) := mkButton (current_player s) false]> (buttons s) |}.

Lemma button_click_inactive (r c : Z) (s : state) :
  game_active s = false -> button_click r c s = (Ret tt, s).
Proof. intros H. unfold button_click. py_unfold. by rewrite H. Qed.

Lemma button_click_taken (r c : nat) (s : state) :
  game_active s = true -> shape_ok (board s) -> (r < 3)%nat -> (c < 3)%nat ->
  cell (board s) r c <> Blank ->
  button_click (Z.of_nat r) (Z.of_nat c) s = (Ret tt, s).
Proof.
  intros Ha Hs Hr Hc Hv. destruct (cell_lookup _ r c Hs Hr Hc) as (row & Hrow & Hcell & Hlen).
  unfold button_click. py_unfold. rewrite Ha. simpl.
  rewrite py_getitem_in by (destruct Hs; lia). rewrite Hrow. simpl.
  rewrite py_getitem_in by lia. rewrite Hcell. simpl.
  by rewrite bool_decide_true.
Qed.

Lemma button_click_move (r c : nat) (s : state) :
  game_active s = true -> shape_ok (board s) -> (r < 3)%nat -> (c < 3)%nat ->
  cell (board s) r c = Blank -> is_Some (buttons s !! (Z.of_nat r, Z.of_nat c)) ->
  button_click (Z.of_nat r) (Z.of_nat c) s = (Ret tt, move r c s).
Proof.
  intros Ha Hs Hr Hc Hv [bt Hbt].
  destruct (cell_lookup _ r c Hs Hr Hc) as (row & Hrow & Hcell & Hlen).
  unfold button_click. py_unfold. rewrite Ha. simpl.
  rewrite py_getitem_in by (destruct Hs; lia). rewrite Hrow. simpl.
  rewrite py_getitem_in by lia. rewrite Hcell, Hv. simpl.
  rewrite py_setitem_in by lia. simpl.
  rewrite py_setitem_in by (destruct Hs; lia). simpl.
  rewrite Hbt. simpl. unfold move, finish_move, place. rewrite Hrow. simpl.
  destruct (check_winner _) as [w|]; [reflexivity|]. by destruct (board_full _).
Qed.

(** ** The invariant of the page *)

(** Each grid button shows its cell and is enabled exactly when the game
    is on and the cell is blank. *)
Definition mirror (s : state) : Prop :=
  forall i j, (i, j) ∈ all9 ->
    buttons s !! (Z.of_nat i, Z.of_nat j) =
      Some (mkButton (cell (board s) i j)
                     (game_active s && bool_decide (cell (board s) i j = Blank))).

Definition cell_keys : gset (Z * Z) := list_to_set cells.
Arguments cell_keys : simpl never.

Definition keys_ok (s : state) : Prop := dom (buttons s) = cell_keys.

(** X moves first and the players alternate. *)
Definition turn_ok (s : state) : Prop :=
  (count (board s) X = count (board s) O /\ (game_active s = true -> current_player s = X)) \/
  (count (board s) X = S (count (board s) O) /\ (game_active s = true -> current_player s = O)).

(** All completed lines belong to the same player. *)
Definition lines_agree (b : list (list mark)) : Prop :=
  forall ln1 ln2 p1 p2, ln1 ∈ lines -> ln2 ∈ lines ->
    line_full b ln1 p1 -> line_full b ln2 p2 -> p1 = p2.

Definition inv (s : state) : Prop :=
  shape_ok (board s) /\ mirror s /\ keys_ok s /\ turn_ok s /\ lines_agree (board s) /\
  (game_active s = true -> check_winner (board s) = None /\ board_full (board s) = false).

Lemma cells_fmap : cells = (fun ij => (Z.of_nat ij.1, Z.of_nat ij.2)) <$> all9.
Proof. reflexivity. Qed.

Lemma cells_all9 (k : Z * Z) :
  k ∈ cells -> exists i j, (i, j) ∈ all9 /\ k = (Z.of_nat i, Z.of_nat j).
Proof.
  rewrite cells_fmap. intros ([i j] & -> & Hin)%list_elem_of_fmap. eauto.
Qed.

Lemma all9_cells (i j : nat) : (i, j) ∈ all9 -> (Z.of_nat i, Z.of_nat j) ∈ cells.
Proof.
  intros Hin. rewrite cells_fmap.
  apply (list_elem_of_fmap_2 (fun ij => (Z.of_nat ij.1, Z.of_nat ij.2)) _ (i, j) Hin).
Qed.

Lemma count_le (b : list (list mark)) (q : mark) : (count b q <= 9)%nat.
Proof. unfold count. etrans; [apply length_filter|]. done. Qed.

(** The state between writing the mark and [finish_move]: the game is
    on, the written cell is counted, and the mover is still current. *)
Definition pre_finish (s : state) : Prop :=
  shape_ok (board s) /\ game_active s = true /\ mirror s /\ keys_ok s /\
  ((count (board s) X = S (count (board s) O) /\ current_player s = X) \/
   (count (board s) X = count (board s) O /\ current_player s = O)) /\
  lines_agree (board s).

Lemma cell_empty (i j : nat) : (i, j) ∈ all9 -> cell empty_board i j = Blank.
Proof.
  intros [Hi Hj]%all9_spec.
  assert (Hi' : (i = 0 \/ i = 1 \/ i = 2)%nat) by lia.
  assert (Hj' : (j = 0 \/ j = 1 \/ j = 2)%nat) by lia.
  destruct Hi' as [-> | [-> | ->]]; destruct Hj' as [-> | [-> | ->]]; reflexivity.
Qed.

Lemma empty_no_line (ln : list (nat * nat)) (p : mark) :
  ln ∈ lines -> ~ line_full empty_board ln p.
Proof. apply no_winner_no_line. reflexivity. Qed.

Lemma finish_move_inv (s : state) : pre_finish s -> inv (finish_move s).
Proof.
  intros (Hs & Ha & Hm & Hk & Ht & Hl). unfold finish_move.
  destruct (check_winner (board s)) as [w|] eqn:Hw.
  - refine (conj Hs (conj _ (conj _ (conj _ (conj Hl _))))); simpl; [| | |done].
    + intros i j Hij. simpl. rewrite lookup_fmap, Hm by done. simpl. rewrite Ha.
      case_bool_decide as Hb; simpl; [by rewrite Hb|done].
    + unfold keys_ok. simpl. by rewrite dom_fmap_L.
    + unfold turn_ok; simpl. destruct Ht as [[? _]|[? _]]; [right|left]; split; done.
  - destruct (board_full (board s)) eqn:Hf.
    + refine (conj Hs (conj _ (conj Hk (conj _ (conj Hl _))))); simpl; [| |done].
      * intros i j Hij. simpl. rewrite Hm by done. rewrite Ha.
        rewrite bool_decide_false; [done|]. by apply board_full_spec.
      * unfold turn_ok; simpl. destruct Ht as [[? _]|[? _]]; [right|left]; split; done.
    + refine (conj Hs (conj _ (conj Hk (conj _ (conj Hl _))))); simpl.
      * intros i j Hij. simpl. by rewrite Hm.
      * unfold turn_ok; simpl. rewrite Ha.
        destruct Ht as [[Hc ->]|[Hc ->]]; [right|left]; split; try done; intros _; done.
      * by intros _.
Qed.

Lemma of_nat_pair_inj (i j i' j' : nat) :
  (Z.of_nat i', Z.of_nat j') = (Z.of_nat i, Z.of_nat j) -> (i', j') = (i, j).
Proof. intros [= Hi Hj]. f_equal; lia. Qed.

Lemma place_pre_finish (i j : nat) (s : state) :
  inv s -> game_active s = true -> (i, j) ∈ all9 -> cell (board s) i j = Blank ->
  pre_finish
    {| s with board := place (board s) i j (current_player s);
              buttons := <[(Z.of_nat i, Z.of_nat j) := mkButton (current_player s) false]> (buttons s) |}.
Proof.
  intros (Hs & Hm & Hk & Ht & Hl & Hact) Ha Hij Hb.
  destruct (Hact Ha) as [Hw _]. pose proof Hij as [Hi Hj]%all9_spec.
  assert (Hp : current_player s <> Blank)
    by (destruct Ht as [[_ H]|[_ H]]; rewrite (H Ha); done).
  refine (conj (shape_place _ _ _ _ Hs Hi) (conj Ha (conj _ (conj _ (conj _ _))))); simpl.
  - intros i' j' Hij'. simpl. rewrite cell_place by done.
    destruct (decide ((i', j') = (i, j))) as [[= -> ->]|Hne].
    + rewrite lookup_insert_eq, Ha. simpl. by rewrite bool_decide_false.
    + rewrite lookup_insert_ne by (by intros ?%of_nat_pair_inj). by rewrite Hm, Ha.
  - unfold keys_ok. simpl. rewrite dom_insert_L, Hk.
    apply subseteq_union_1_L. unfold cell_keys.
    rewrite singleton_subseteq_l, elem_of_list_to_set. by apply all9_cells.
  - rewrite !count_place by done.
    destruct Ht as [[Hc Hx]|[Hc Ho]]; [left; rewrite (Hx Ha)|right; rewrite (Ho Ha)];
      simpl; split; try done; lia.
  - intros ln1 ln2 p1 p2 Hin1 Hin2 Hf1 Hf2.
    destruct (line_full_place _ _ _ _ _ _ Hs Hi Hj Hf1) as [[_ ->]|Hf1'];
      [|by destruct (no_winner_no_line _ _ _ Hw Hin1 Hf1')].
    destruct (line_full_place _ _ _ _ _ _ Hs Hi Hj Hf2) as [[_ ->]|Hf2'];
      [done|by destruct (no_winner_no_line _ _ _ Hw Hin2 Hf2')].
Qed.

(** A click on an enabled grid button is a move. *)
Lemma handle_click (r c : Z) (s : state) :
  inv s -> handle (Click r c) s = s \/
  exists i j, (i, j) ∈ all9 /\ r = Z.of_nat i /\ c = Z.of_nat j /\
    game_active s = true /\ cell (board s) i j = Blank /\ handle (Click r c) s = move i j s.
Proof.
  intros Hinv. pose proof Hinv as (Hs & Hm & Hk & _). simpl.
  destruct (buttons s !! (r, c)) as [bt|] eqn:Hbt; [|by left].
  assert (Hdom : (r, c) ∈ dom (buttons s)) by (apply elem_of_dom; eauto).
  rewrite Hk in Hdom. unfold cell_keys in Hdom. apply elem_of_list_to_set, cells_all9 in Hdom as (i & j & Hij & [= -> ->]).
  rewrite Hm in Hbt by done. injection Hbt as <-. simpl.
  destruct (game_active s) eqn:Ha; [|by left].
  case_bool_decide as Hb; [right|by left].
  exists i, j. repeat split; try done. unfold exec.
  pose proof Hij as [Hi Hj]%all9_spec.
  rewrite button_click_move; [done|done|done|done|done|done|].
  rewrite Hm by done. eauto.
Qed.

Lemma ttt_reset_game_inv (s : state) : keys_ok s -> inv (reset_game s).
Proof.
  intros Hk. assert (Hw : check_winner empty_board = None) by reflexivity.
  unfold reset_game, inv, mirror, keys_ok, turn_ok, lines_agree.
  cbn [buttons board game_active current_player].
  refine (conj _ (conj _ (conj _ (conj _ (conj _ _))))).
  - split; [done|]. repeat constructor.
  - intros i j Hij. rewrite lookup_fmap, cell_empty by done.
    destruct (buttons s !! _) eqn:E; [done|].
    apply not_elem_of_dom in E. rewrite Hk in E. unfold cell_keys in E.
    by destruct E; apply elem_of_list_to_set, all9_cells.
  - by rewrite dom_fmap_L.
  - left. split; [reflexivity|done].
  - intros ln1 ln2 p1 p2 Hin1 _ Hf1. by destruct (no_winner_no_line _ _ _ Hw Hin1 Hf1).
  - intros _. done.
Qed.

Lemma init_reset : reset_game init = init.
Proof. reflexivity. Qed.

Lemma ttt_init_inv : inv init.
Proof. rewrite <- init_reset. apply ttt_reset_game_inv. reflexivity. Qed.

Lemma ttt_handle_inv (e : event) (s : state) : inv s -> inv (handle e s).
Proof.
  intros Hinv. destruct e as [r c|].
  - destruct (handle_click r c s Hinv) as [->|(i & j & Hij & -> & -> & Ha & Hb & ->)]; [done|].
    by apply finish_move_inv, place_pre_finish.
  - apply ttt_reset_game_inv. apply Hinv.
Qed.

(** The moves left in the current game: the blank cells while it is on. *)
Definition moves_left (s : state) : nat :=
  if game_active s then count (board s) Blank else 0.

Lemma count_pos (b : list (list mark)) (i j : nat) (q : mark) :
  (i, j) ∈ all9 -> cell b i j = q -> (0 < count b q)%nat.
Proof.
  intros Hij Hq. unfold count.
  assert (Hin : (i, j) ∈ filter (fun ij => cell b ij.1 ij.2 = q) all9)
    by (by apply list_elem_of_filter).
  destruct (filter _ all9); [by apply elem_of_nil in Hin|simpl; lia].
Qed.

Lemma finish_move_moves_left (s : state) (n : nat) :
  game_active s = true -> count (board s) Blank = n -> (moves_left (finish_move s) <= n)%nat.
Proof.
  intros Ha Hn. unfold moves_left, finish_move.
  destruct (check_winner (board s)); simpl; [lia|].
  destruct (board_full (board s)); simpl; [lia|]. rewrite Ha. lia.
Qed.

Lemma move_moves_left (i j : nat) (s : state) :
  inv s -> game_active s = true -> (i, j) ∈ all9 -> cell (board s) i j = Blank ->
  (moves_left (move i j s) < moves_left s)%nat.
Proof.
  intros Hinv Ha Hij Hb. pose proof (count_pos _ _ _ _ Hij Hb) as Hpos.
  pose proof Hij as [Hi Hj]%all9_spec. destruct Hinv as (Hs & _ & _ & Ht & _).
  assert (Hp : current_player s <> Blank)
    by (destruct Ht as [[_ H]|[_ H]]; rewrite (H Ha); done).
  assert (H : (moves_left (move i j s) <= pred (count (board s) Blank))%nat).
  { unfold move. apply finish_move_moves_left; [done|]. simpl.
    rewrite count_place by done. rewrite decide_False by congruence. by rewrite decide_True. }
  unfold moves_left at 2. rewrite Ha. lia.
Qed.

(** Play a list of clicks. *)
Definition play (moves : list (Z * Z)) (s : state) : state :=
  foldl (fun s rc => handle (Click rc.1 rc.2) s) s moves.

Lemma reachable_play (moves : list (Z * Z)) (s : state) :
  reachable s -> reachable (play moves s).
Proof.
  revert s. induction moves as [|[r c] t IH]; intros s Hs; simpl; [done|].
  apply IH. exact (reach_step s (Click r c) Hs I).
Qed.

(** * Theorems *)

Lemma ttt_reachable_wf (s : state) : reachable s -> inv s.
Proof.
  revert s. apply reachable_from_inv; [intros ? ->; apply ttt_init_inv|].
  intros s e Hi _. by apply ttt_handle_inv.
Qed.

(** C3 (invariant): on every page state reachable from [__init__] by
    clicks and New Game, the board is 3x3, every grid button shows its
    cell and is enabled exactly when the game is on and the cell is
    blank, the button dictionary has exactly the nine keys, X and O
    alternate with X first, all completed lines belong to one player,
    and while the game is on there is no winner and a blank cell. *)
Theorem board_reachable_inv (s : state) : reachable s -> inv s.
Proof. apply ttt_reachable_wf; assumption. Qed.

(** C4 (safety): a reachable board never shows two completed lines of
    different players, so the order in which [check_winner] visits the
    lines does not change the winner it reports. *)
Theorem one_winner (s : state) (ln1 ln2 : list (nat * nat)) (p1 p2 : mark) :
  reachable s -> ln1 ∈ lines -> ln2 ∈ lines ->
  line_full (board s) ln1 p1 -> line_full (board s) ln2 p2 -> p1 = p2.
Proof.
  intros Hr%ttt_reachable_wf. destruct Hr as (_ & _ & _ & _ & Hl & _). apply Hl.
Qed.

(** C5 (functional): a click is ignored, with no change at all, when
    the game is over or the cell is already taken. *)
Theorem click_ignored (r c : nat) (s : state) :
  shape_ok (board s) -> (r < 3)%nat -> (c < 3)%nat ->
  game_active s = false \/ cell (board s) r c <> Blank ->
  button_click (Z.of_nat r) (Z.of_nat c) s = (Ret tt, s).
Proof.
  intros Hs Hr Hc [Ha|Hv]; [by apply button_click_inactive|].
  destruct (game_active s) eqn:Ha; [by apply button_click_taken|by apply button_click_inactive].
Qed.

(** C6 (error): during a game, an index outside the range [-3..2] that
    Python accepts for a list of three makes [self.board[row][col]]
    raise [IndexError] before anything changes: a row below [-3] or of
    3 or more, or a valid row with such a column.  (A finished game
    returns before the lookup: [click_ignored].) *)
Theorem click_out_of_range (r c : Z) (s : state) :
  shape_ok (board s) -> game_active s = true ->
  (r < -3 \/ 3 <= r \/ (-3 <= r < 3 /\ (c < -3 \/ 3 <= c))) ->
  button_click r c s = (Exc IndexError, s).
Proof.
  intros Hs Ha Hrc. unfold button_click. py_unfold. rewrite Ha. simpl.
  assert (Hl : length (board s) = 3%nat) by apply Hs.
  destruct Hrc as [Hr|[Hr|[Hr Hc]]].
  - by rewrite py_getitem_below by (rewrite Hl; lia).
  - by rewrite py_getitem_none by (rewrite Hl; lia).
  - pose proof (Z.mod_pos_bound r 3 ltac:(lia)).
    destruct (shape_row (board s) (Z.to_nat (r mod 3)) Hs ltac:(lia)) as (row & Hrow & Hlen).
    rewrite py_getitem_wrap, Hl by (rewrite Hl; lia). change (Z.of_nat 3) with 3%Z. simpl. rewrite Hrow. simpl.
    destruct Hc; [rewrite py_getitem_below by (rewrite Hlen; lia)
                 |rewrite py_getitem_none by (rewrite Hlen; lia)]; done.
Qed.

(** a game has at most nine moves.  Every click on a
    reachable page either changes nothing or strictly lowers the number
    of blank cells of a game that is still on, which is at most 9. *)
Theorem click_decreases (r c : Z) (s : state) :
  reachable s ->
  handle (Click r c) s = s \/ (moves_left (handle (Click r c) s) < moves_left s <= 9)%nat.
Proof.
  intros Hr%ttt_reachable_wf.
  destruct (handle_click r c s Hr) as [->|(i & j & Hij & -> & -> & Ha & Hb & Hmove)]; [by left|].
  right. rewrite Hmove. split; [by apply move_moves_left|].
  unfold moves_left. destruct (game_active s); [apply count_le|lia].
Qed.

(** C7 (error): negative indices are not rejected.  Python reads
    [self.board[-1]] as the last row, so a click at [(r, c)] in
    [-3..2] with a negative coordinate on a blank cell of a running
    game writes the player's mark into the cell [(r mod 3, c mod 3)]
    and only then raises [KeyError] on [self.buttons[(r, c)]], whose
    keys are the nine pairs in [0..2]: the board and the grid disagree
    afterwards, since the cell's button still shows a blank and is
    enabled. *)
Theorem click_negative_index (r c : Z) (s : state) :
  reachable s -> game_active s = true -> -3 <= r < 3 -> -3 <= c < 3 -> (r < 0 \/ c < 0) ->
  cell (board s) (Z.to_nat (r mod 3)) (Z.to_nat (c mod 3)) = Blank ->
  button_click r c s =
    (Exc KeyError, {| s with board := place (board s) (Z.to_nat (r mod 3)) (Z.to_nat (c mod 3))
                                         (current_player s) |}) /\
  buttons s !! (r mod 3, c mod 3) = Some (mkButton Blank true).
Proof.
  intros (Hs & Hm & Hk & _)%ttt_reachable_wf Ha Hr Hc Hneg Hb.
  pose proof (Z.mod_pos_bound r 3 ltac:(lia)). pose proof (Z.mod_pos_bound c 3 ltac:(lia)).
  destruct (cell_lookup _ (Z.to_nat (r mod 3)) (Z.to_nat (c mod 3)) Hs ltac:(lia) ltac:(lia))
    as (row & Hrow & Hcell & Hlen).
  assert (Hl : length (board s) = 3%nat) by apply Hs.
  split.
  - assert (Hnone : buttons s !! (r, c) = None).
    { apply not_elem_of_dom. rewrite Hk. unfold cell_keys. rewrite elem_of_list_to_set.
      intros (i & j & _ & [= -> ->])%cells_all9. lia. }
    unfold button_click. py_unfold. rewrite Ha. simpl.
    rewrite py_getitem_wrap, Hl by (rewrite Hl; lia). change (Z.of_nat 3) with 3%Z. simpl. rewrite Hrow. simpl.
    rewrite py_getitem_wrap, Hlen by (rewrite Hlen; lia). change (Z.of_nat 3) with 3%Z. simpl. rewrite Hcell, Hb. simpl.
    rewrite py_setitem_wrap, Hlen by (rewrite Hlen; lia). change (Z.of_nat 3) with 3%Z. simpl.
    rewrite py_setitem_wrap, Hl by (rewrite Hl; lia). change (Z.of_nat 3) with 3%Z. simpl.
    rewrite Hnone. simpl. unfold place. rewrite Hrow, Ha. reflexivity.
  - assert (Hin : (Z.to_nat (r mod 3), Z.to_nat (c mod 3)) ∈ all9) by (apply all9_spec; lia).
    pose proof (Hm _ _ Hin) as Hbt.
    rewrite !Z2Nat.id, Hb, Ha in Hbt by lia. exact Hbt.
Qed.

(** ** Witnesses *)

(** X takes the top row while O plays the middle row. *)
Definition x_wins_top : state := play [(0,0); (1,0); (0,1); (1,1); (0,2)] init.

Lemma board_reachable_inv_witness : reachable x_wins_top /\ inv x_wins_top.
Proof.
  assert (H : reachable x_wins_top) by (apply reachable_play, reach_init, eq_refl).
  exact (conj H (board_reachable_inv _ H)).
Defined.

Lemma one_winner_witness : status_label x_wins_top = Wins X /\ X = X.
Proof.
  split; [vm_compute; reflexivity|].
  apply (one_winner x_wins_top [(0,0); (0,1); (0,2)]%nat [(0,0); (0,1); (0,2)]%nat X X).
  - apply reachable_play, reach_init, eq_refl.
  - apply (list_elem_of_In lines). left. reflexivity.
  - apply (list_elem_of_In lines). left. reflexivity.
  - split; [done|]. vm_compute. repeat constructor.
  - split; [done|]. vm_compute. repeat constructor.
Defined.

Lemma click_ignored_witness :
  button_click 0 0 x_wins_top = (Ret tt, x_wins_top).
Proof.
  apply (click_ignored 0 0); [split; vm_compute; [reflexivity|repeat constructor]|lia|lia|].
  left. vm_compute. reflexivity.
Defined.

Lemma click_negative_index_witness :
  button_click (-1) 0 init =
    (Exc KeyError, {| init with board := place (board init) (Z.to_nat ((-1) mod 3)) (Z.to_nat (0 mod 3))
                                           (current_player init) |}) /\
  buttons init !! ((-1) mod 3, 0 mod 3) = Some (mkButton Blank true).
Proof.
  apply click_negative_index; [apply reach_init, eq_refl|reflexivity|lia|lia|lia|vm_compute; reflexivity].
Defined.

Lemma click_out_of_range_witness : button_click 1 3 init = (Exc IndexError, init).
Proof.
  apply click_out_of_range; [split; vm_compute; [reflexivity|repeat constructor]|reflexivity|lia].
Defined.

Lemma click_decreases_witness :
  handle (Click 1 1) init = init \/
  (moves_left (handle (Click 1 1) init) < moves_left init <= 9)%nat.
Proof. apply click_decreases, reach_init, eq_refl. Defined.

End TicTacToe.
