(* ===== verification/Hangman.v ===== *)
(** * Hangman ([WordGuessingGUI], games_gui.py 224-347)

    The page keeps the [secret_word], the list [guessed_letters], the
    [attempts] left, a dictionary [letter_buttons] from 'a'..'z' to the 26
    letter buttons, the masked word shown in [word_display] and a status
    label.  [start_game] reloads the word list through
    [load_hangman_words], enters a fatal state on the sentinel
    [["error"]], and otherwise picks a word with [random.choice], resets
    the guesses and the six attempts, enables the letters and calls
    [update_display].  [check_letter] disables the letter's button,
    records a new letter, spends an attempt when the letter is not in the
    word, and calls [update_display], which shows the masked word and
    declares a win (no underscore left) or a loss (no attempt left).

    A button is its enabled flag.  [random.choice(words)] is
    [random_choice words k] for a draw [k]; it raises [IndexError] on an
    empty list.  The status label's colour is not modelled. *)

From stdpp Require Import base list gmap strings.
From Stdlib Require Import Ascii String ZArith Lia.
From S2P Require Import Prelude PyStr Loaders.

Local Open Scope Z_scope.
Local Open Scope py_scope.

Module Hangman.

(** [chr(ord('a') + i) for i in range(26)] *)
Definition letters : list ascii := (fun i => ascii_of_nat (97 + i)) <$> seq 0 26.

Inductive status_text : Type :=
  | AttemptsLeft (n : Z)      (** "Attempts left: {attempts}" *)
  | FatalError                (** "FATAL ERROR: Could not load word list." *)
  | Congrats                  (** "CONGRATULATIONS! You guessed the word!" *)
  | GameOver (w : string).    (** "GAME OVER! The word was: {secret_word}" *)

Record state : Type := mkState {
  secret_word : string;
  guessed_letters : list ascii;
  attempts : Z;
  letter_buttons : gmap ascii bool;
  word_display : string;
  status_label : status_text
}.

(** [create_letter_buttons]: 26 enabled buttons. *)
Definition create_letter_buttons : gmap ascii bool :=
  list_to_map ((fun l => (l, true)) <$> letters).

Definition disable_all_letters (s : state) : state :=
  {| s with letter_buttons := (fun _ => false) <$> letter_buttons s |}.

(** [get_masked_word]: each letter followed by a space, underscores for
    the letters not guessed, then [.strip()]. *)
Definition mask_letter (guessed : list ascii) (c : ascii) : list ascii :=
  if bool_decide (c ∈ guessed) then [c; " "%char] else ["_"%char; " "%char].

Definition get_masked_word (s : state) : string :=
  py_strip (string_of_list_ascii
    (List.concat (mask_letter (guessed_letters s) <$> list_ascii_of_string (secret_word s)))).

(** ["_" in masked_word] *)
Definition has_underscore (w : string) : bool :=
  bool_decide ("_"%char ∈ list_ascii_of_string w).

Definition update_display (s : state) : state :=
  let masked := get_masked_word s in
  let s := {| s with word_display := masked |} in
  if negb (has_underscore masked) then disable_all_letters {| s with status_label := Congrats |}
  else if attempts s <=? 0 then
    disable_all_letters {| s with status_label := GameOver (secret_word s) |}
  else {| s with status_label := AttemptsLeft (attempts s) |}.

(** [start_game], with [f] what reading the word file gives and [k] the
    random draw. *)
Definition start_game (f : file_read) (k : nat) : PyM state unit :=
  let words := load_hangman_words f in
  if bool_decide (words = error_words) then
    py_modify (fun s => disable_all_letters
      {| s with secret_word := "error"; status_label := FatalError |})
  else
    w <- py_of_option IndexError (random_choice words k) ;;
    py_modify (fun s =>
      let s := {| s with secret_word := py_lower w; guessed_letters := [];
                         attempts := 6; letter_buttons := (fun _ => true) <$> letter_buttons s |} in
      let s := update_display s in
      {| s with status_label := AttemptsLeft (attempts s) |}).

(** The [if guess not in self.guessed_letters] block of [check_letter]. *)
Definition record_guess (guess : ascii) (s : state) : state :=
  if bool_decide (guess ∈ guessed_letters s) then s
  else
    let s := {| s with guessed_letters := guessed_letters s ++ [guess] |} in
    if bool_decide (guess ∈ list_ascii_of_string (secret_word s)) then s
    else {| s with attempts := attempts s - 1 |}.

(** [check_letter(guess)]. *)
Definition check_letter (guess : ascii) : PyM state unit :=
  _ <- (s <- py_get ;; py_of_option KeyError (letter_buttons s !! guess)) ;;
  py_modify (fun s => {| s with letter_buttons := <[guess := false]> (letter_buttons s) |}) ;;
  py_modify (record_guess guess) ;;
  py_modify update_display.

(** [back_to_menu], without the call to the controller (see [App]). *)
Definition back_to_menu (s : state) : state := disable_all_letters s.

(** [__init__]: the attributes, the buttons, then the first
    [start_game], which may raise. *)
Definition init_attrs : state :=
  {| secret_word := ""; guessed_letters := []; attempts := 0;
     letter_buttons := create_letter_buttons; word_display := "";
     status_label := AttemptsLeft 6 |}.

Definition init (f : file_read) (k : nat) : outcome unit * state := start_game f k init_attrs.

(** ** The page as a state machine *)

Inductive event : Type :=
  | Letter (l : ascii)
  | NewGame (f : file_read) (k : nat)
  | BackToMenu.

(** A letter reaches [check_letter] only through its enabled button. *)
Definition handle (e : event) (s : state) : state :=
  match e with
  | Letter l =>
      match letter_buttons s !! l with
      | Some true => exec (check_letter l) s
      | _ => s
      end
  | NewGame f k => exec (start_game f k) s
  | BackToMenu => back_to_menu s
  end.

(** The page exists once [__init__] returned. *)
Definition reachable : state -> Prop :=
  reachable_from (fun s => exists f k, init f k = (Ret tt, s)) (fun _ => True) handle.

(** ** Reading the display back

    [get_masked_word] shows one character per letter of the word,
    separated by single spaces; [spaced] is that layout, [evens] reads
    the characters back, and [shown] is what one letter looks like. *)
Definition shown (guessed : list ascii) (c : ascii) : ascii :=
  if bool_decide (c ∈ guessed) then c else "_"%char.

Fixpoint spaced (l : list ascii) : list ascii :=
  match l with
  | [] => []
  | [x] => [x]
  | x :: t => x :: " "%char :: spaced t
  end.

Fixpoint evens (l : list ascii) : list ascii :=
  match l with
  | x :: _ :: t => x :: evens t
  | l => l
  end.

(** ** The invariant *)

Definition letter_keys : gset ascii := list_to_set letters.
Arguments letter_keys : simpl never.

Definition enabled (s : state) (l : ascii) : Prop := letter_buttons s !! l = Some true.

#[export] Instance enabled_dec (s : state) (l : ascii) : Decision (enabled s l).
Proof. unfold enabled. apply _. Defined.

(** Some letter can still be pressed: the round is on. *)
Definition running (s : state) : Prop := exists l, enabled s l.

Definition wrong_count (s : state) : nat :=
  List.length (filter (fun c => c ∉ list_ascii_of_string (secret_word s)) (guessed_letters s)).

(** What holds of every page, running or not. *)
Definition base_inv (s : state) : Prop :=
  dom (letter_buttons s) = letter_keys /\
  Forall (fun c => c ∈ letters) (guessed_letters s) /\ NoDup (guessed_letters s) /\
  0 <= attempts s <= 6.

(** The state [update_display] is called on. *)
Definition pre_display (s : state) : Prop :=
  base_inv s /\ (forall l, enabled s l -> l ∉ guessed_letters s) /\
  (running s -> attempts s = 6 - Z.of_nat (wrong_count s)).

(** A running round has attempts left, one per wrong guess spent, and
    an underscore in its masked word. *)
Definition inv (s : state) : Prop :=
  pre_display s /\ (running s -> 0 < attempts s /\ has_underscore (get_masked_word s) = true).

(** ** Lemmas *)

Lemma underscore_not_space : py_isspace "_"%char = false.
Proof. reflexivity. Qed.

Lemma underscore_not_letter : "_"%char ∉ letters.
Proof. apply (bool_decide_unpack _). vm_compute. exact I. Qed.

Lemma letters_NoDup : NoDup letters.
Proof. apply (bool_decide_unpack _). vm_compute. exact I. Qed.

Lemma underscore_concat (g l : list ascii) :
  "_"%char ∉ g ->
  "_"%char ∈ List.concat (mask_letter g <$> l) <-> exists c, c ∈ l /\ c ∉ g.
Proof.
  intros Hg. induction l as [|c t IH]; simpl.
  - split; [by intros ?%elem_of_nil|]. intros (c & ?%elem_of_nil & _). done.
  - rewrite elem_of_app, IH. unfold mask_letter. case_bool_decide as Hc.
    + rewrite !elem_of_cons, elem_of_nil. split.
      * intros [[Heq|[Heq|[]]]|(c' & ? & ?)]; [by subst c|discriminate|].
        exists c'. split; [by right|done].
      * intros (c' & [->|Hin]%elem_of_cons & Hn); [done|]. right. eauto.
    + split; [intros _; exists c; split; [left|]; done|intros _; left; left].
Qed.

(** The masked word shows an underscore exactly when a letter of the
    word has not been guessed. *)
Lemma masked_underscore (s : state) :
  "_"%char ∉ guessed_letters s ->
  has_underscore (get_masked_word s) = true <->
  exists c, c ∈ list_ascii_of_string (secret_word s) /\ c ∉ guessed_letters s.
Proof.
  intros Hg. unfold has_underscore, get_masked_word.
  rewrite bool_decide_eq_true, py_strip_elem by apply underscore_not_space.
  rewrite list_ascii_of_string_of_list_ascii. by apply underscore_concat.
Qed.

Lemma guessed_no_underscore (s : state) :
  Forall (fun c => c ∈ letters) (guessed_letters s) -> "_"%char ∉ guessed_letters s.
Proof.
  intros Hf Hin. rewrite Forall_forall in Hf. by apply underscore_not_letter, Hf.
Qed.

Lemma disable_all_not_running (s : state) : ~ running (disable_all_letters s).
Proof.
  intros (l & Hl). unfold enabled in Hl. simpl in Hl.
  rewrite lookup_fmap in Hl. by destruct (letter_buttons s !! l).
Qed.

Lemma disable_all_base (s : state) : base_inv s -> base_inv (disable_all_letters s).
Proof. intros (Hd & ?). unfold base_inv. simpl. by rewrite dom_fmap_L. Qed.

Lemma disable_all_inv (s : state) : base_inv s -> inv (disable_all_letters s).
Proof.
  intros Hb. split; [split; [by apply disable_all_base|split]|];
    intros; exfalso; eapply disable_all_not_running; try done; by exists l.
Qed.

Lemma update_display_inv (s : state) : pre_display s -> inv (update_display s).
Proof.
  intros Hpre. unfold update_display.
  destruct (has_underscore (get_masked_word s)) eqn:Hu; simpl.
  - destruct (Z.leb_spec (attempts s) 0).
    + apply disable_all_inv. apply Hpre.
    + split; [exact Hpre|]. intros _. simpl. split; [lia|exact Hu].
  - apply disable_all_inv. apply Hpre.
Qed.

(** Pressing a letter whose button exists. *)
Definition press (l : ascii) (s : state) : state :=
  update_display (record_guess l {| s with letter_buttons := <[l := false]> (letter_buttons s) |}).

Lemma check_letter_run (l : ascii) (s : state) (b : bool) :
  letter_buttons s !! l = Some b -> check_letter l s = (Ret tt, press l s).
Proof. intros H. unfold check_letter. py_unfold. by rewrite H. Qed.

Lemma check_letter_missing (l : ascii) (s : state) :
  letter_buttons s !! l = None -> check_letter l s = (Exc KeyError, s).
Proof. intros H. unfold check_letter. py_unfold. by rewrite H. Qed.

Lemma enabled_in_letters (s : state) (l : ascii) :
  dom (letter_buttons s) = letter_keys -> enabled s l -> l ∈ letters.
Proof.
  intros Hd Hl. apply (elem_of_list_to_set (C := gset ascii)). fold letter_keys. rewrite <- Hd.
  apply elem_of_dom. unfold enabled in Hl. eauto.
Qed.

Lemma wrong_count_snoc (s : state) (l : ascii) :
  List.length (filter (fun c => c ∉ list_ascii_of_string (secret_word s)) (guessed_letters s ++ [l])) =
  (wrong_count s + if bool_decide (l ∈ list_ascii_of_string (secret_word s)) then 0 else 1)%nat.
Proof.
  unfold wrong_count. rewrite filter_app, length_app. f_equal.
  rewrite filter_cons, filter_nil.
  case_bool_decide; [rewrite decide_False by tauto|rewrite decide_True by done]; done.
Qed.

Lemma press_pre (l : ascii) (s : state) :
  inv s -> enabled s l -> pre_display (record_guess l {| s with letter_buttons := <[l := false]> (letter_buttons s) |}).
Proof.
  intros [((Hd & Hf & Hnd & Ha) & Hen & Hw) Hrun] Hl.
  assert (Hrs : running s) by (by exists l).
  destruct (Hrun Hrs) as [Hpos _]. specialize (Hw Hrs).
  pose proof (Hen l Hl) as Hng. pose proof (enabled_in_letters s l Hd Hl) as Hlet.
  assert (Hdom : dom (<[l := false]> (letter_buttons s)) = letter_keys).
  { rewrite dom_insert_L, Hd. apply subseteq_union_1_L.
    rewrite singleton_subseteq_l. unfold letter_keys. by apply elem_of_list_to_set. }
  assert (Hen' : forall l', letter_buttons s !! l' = Some true -> l' <> l ->
            (<[l := false]> (letter_buttons s)) !! l' = Some true).
  { intros l' H' Hne. by rewrite lookup_insert_ne. }
  unfold record_guess. simpl. rewrite bool_decide_false by done.
  assert (Hnd' : NoDup (guessed_letters s ++ [l])).
  { apply NoDup_app. split; [done|]. split; [|apply NoDup_singleton].
    intros x Hx ->%list_elem_of_singleton. contradiction. }
  assert (Hgen : forall l', enabled {| s with letter_buttons := <[l:=false]> (letter_buttons s) |} l' ->
            l' <> l /\ enabled s l').
  { intros l' H'. unfold enabled in *. simpl in H'.
    destruct (decide (l' = l)) as [->|Hne]; [by rewrite lookup_insert_eq in H'|].
    rewrite lookup_insert_ne in H' by done. done. }
  case_bool_decide as Hin; repeat split; simpl; try done; try lia.
  1,4: apply Forall_app; split; [done|by apply Forall_singleton].
  1,3: intros l' (Hne & Hl')%Hgen; rewrite elem_of_app, list_elem_of_singleton;
    intros [?|?]; [by apply (Hen l')|done].
  - intros _. unfold wrong_count. simpl. rewrite wrong_count_snoc, bool_decide_true by done. lia.
  - intros _. unfold wrong_count. simpl. rewrite wrong_count_snoc, bool_decide_false by done. lia.
Qed.

Lemma press_inv (l : ascii) (s : state) : inv s -> enabled s l -> inv (press l s).
Proof. intros Hi Hl. apply update_display_inv. by apply press_pre. Qed.

(** [start_game] either raises [IndexError] without touching the page,
    or leaves a page satisfying the invariant. *)
Lemma start_game_cases (f : file_read) (k : nat) (s : state) :
  base_inv s ->
  start_game f k s = (Exc IndexError, s) \/
  (fst (start_game f k s) = Ret tt /\ inv (exec (start_game f k) s)).
Proof.
  intros Hb. unfold start_game.
  case_bool_decide as He.
  - right. split; [done|]. unfold exec; simpl. by apply disable_all_inv.
  - py_unfold. destruct (random_choice _ k) as [w|]; [right|by left].
    simpl. split; [done|].
    assert (Hpre : pre_display {| secret_word := py_lower w; guessed_letters := [];
      attempts := 6; letter_buttons := (fun _ => true) <$> letter_buttons s;
      word_display := word_display s; status_label := status_label s |}).
    { destruct Hb as (Hd & _). repeat split; simpl; try done; try lia.
      - by rewrite dom_fmap_L.
      - constructor.
      - intros ? ? ?%elem_of_nil. done. }
    pose proof (update_display_inv _ Hpre) as Hi. destruct Hi as [Hp Hr].
    split; [exact Hp|exact Hr].
Qed.

Lemma hangman_start_game_inv (f : file_read) (k : nat) (s : state) :
  inv s -> inv (exec (start_game f k) s).
Proof.
  intros Hi. destruct (start_game_cases f k s (proj1 (proj1 Hi))) as [E|[_ H]]; [|done].
  unfold exec. by rewrite E.
Qed.

Lemma hangman_handle_inv (e : event) (s : state) : inv s -> inv (handle e s).
Proof.
  intros Hi. destruct e as [l|f k|]; simpl.
  - destruct (letter_buttons s !! l) as [[]|] eqn:E; try done.
    unfold exec. rewrite (check_letter_run l s true E). by apply press_inv.
  - by apply hangman_start_game_inv.
  - apply disable_all_inv. apply Hi.
Qed.

Lemma init_attrs_base : base_inv init_attrs.
Proof. repeat split; simpl; try lia; constructor. Qed.

Lemma handle_letter (l : ascii) (s : state) :
  enabled s l -> handle (Letter l) s = press l s.
Proof.
  intros Hl. unfold enabled in Hl. simpl. rewrite Hl.
  unfold exec. by rewrite (check_letter_run l s true Hl).
Qed.

Lemma record_guess_new (l : ascii) (s : state) :
  l ∉ guessed_letters s ->
  guessed_letters (record_guess l s) = guessed_letters s ++ [l] /\
  attempts (record_guess l s) =
    attempts s - (if bool_decide (l ∈ list_ascii_of_string (secret_word s)) then 0 else 1) /\
  secret_word (record_guess l s) = secret_word s /\
  letter_buttons (record_guess l s) = letter_buttons s.
Proof.
  intros Hn. unfold record_guess. rewrite bool_decide_false by done. simpl.
  case_bool_decide; simpl; repeat split; lia.
Qed.

(** The number of letter buttons still enabled. *)
Definition enabled_count (s : state) : nat := List.length (filter (enabled s) letters).

Lemma update_display_buttons (s : state) :
  letter_buttons (update_display s) = letter_buttons s \/
  letter_buttons (update_display s) = (fun _ => false) <$> letter_buttons s.
Proof.
  unfold update_display. destruct (has_underscore _); simpl; [|by right].
  destruct (attempts s <=? 0); simpl; [by right|by left].
Qed.

Lemma disabled_count (m : gmap ascii bool) (s : state) :
  letter_buttons s = (fun _ => false) <$> m -> enabled_count s = 0%nat.
Proof.
  intros Hm. unfold enabled_count. induction letters as [|a t IH]; [done|].
  rewrite filter_cons, decide_False; [done|]. unfold enabled. rewrite Hm, lookup_fmap.
  by destruct (m !! a).
Qed.

(** ** Lemmas: the masked word *)

Lemma mask_letter_shown (g : list ascii) (c : ascii) : mask_letter g c = [shown g c; " "%char].
Proof. unfold mask_letter, shown. by case_bool_decide. Qed.

Lemma concat_mask (g w : list ascii) :
  w <> [] -> List.concat (mask_letter g <$> w) = spaced (shown g <$> w) ++ [" "%char].
Proof.
  induction w as [|x t IH]; [done|]. intros _. destruct t as [|y t].
  - simpl. by rewrite mask_letter_shown.
  - rewrite fmap_cons, List.concat_cons, IH, mask_letter_shown by done.
    rewrite !fmap_cons. reflexivity.
Qed.

Lemma evens_spaced (l : list ascii) : evens (spaced l) = l.
Proof.
  induction l as [|x t IH]; [done|]. destruct t as [|y t]; [done|].
  change (x :: evens (spaced (y :: t)) = x :: y :: t). by rewrite IH.
Qed.

Lemma head_spaced (l : list ascii) : head (spaced l) = head l.
Proof. destruct l as [|x [|y t]]; done. Qed.

Lemma last_spaced (l : list ascii) : last (spaced l) = last l.
Proof.
  induction l as [|x t IH]; [done|]. destruct t as [|y t]; [done|].
  change (last (x :: " "%char :: spaced (y :: t)) = last (x :: y :: t)).
  rewrite !last_cons_cons, <- IH. pose proof (head_spaced (y :: t)) as Hh.
  destruct (spaced (y :: t)); [done|]. by rewrite last_cons_cons.
Qed.

Lemma shown_nonspace (g w : list ascii) :
  Forall (fun c => py_isspace c = false) w -> Forall (fun c => py_isspace c = false) (shown g <$> w).
Proof.
  intros Hw. apply Forall_fmap. eapply Forall_impl; [exact Hw|].
  intros c Hc. simpl. unfold shown. by destruct (bool_decide _).
Qed.

(** * Theorems *)

Lemma hm_reachable_wf (s : state) : reachable s -> inv s.
Proof.
  revert s. apply reachable_from_inv; [|intros s e Hi _; by apply hangman_handle_inv].
  intros s (f & k & Hinit).
  destruct (start_game_cases f k init_attrs init_attrs_base) as [E|[_ H]].
  - unfold init in Hinit. congruence.
  - unfold init, exec in *. by rewrite Hinit in H.
Qed.

(** C8 (invariant): every Hangman page that [__init__] built and the
    user then drove keeps the 26 letter keys, distinct guessed letters
    from 'a'..'z', between 0 and 6 attempts, no enabled button for a
    guessed letter, and while a letter is enabled: at least one attempt,
    six minus the number of wrong guesses, and an underscore in the
    masked word. *)
Theorem hangman_reachable_inv (s : state) : reachable s -> inv s.
Proof. apply hm_reachable_wf; assumption. Qed.

(** C11 (functional): choosing a letter already guessed changes neither
    the attempts left nor the guessed letters. *)
Theorem repeated_letter (g : ascii) (s : state) :
  g ∈ guessed_letters s -> is_Some (letter_buttons s !! g) ->
  attempts (exec (check_letter g) s) = attempts s /\
  guessed_letters (exec (check_letter g) s) = guessed_letters s.
Proof.
  intros Hg [b Hb]. unfold exec. rewrite (check_letter_run g s b Hb). simpl.
  unfold press, record_guess. rewrite bool_decide_true by done.
  unfold update_display. destruct (has_underscore _); simpl; [|done].
  by destruct (attempts _ <=? 0).
Qed.

(** C9 (functional): the letter that completes the word wins: the status
    says so and no letter can be pressed any more. *)
Theorem letter_wins (l : ascii) (s : state) :
  reachable s -> enabled s l ->
  (forall c, c ∈ list_ascii_of_string (secret_word s) -> c ∈ guessed_letters s ++ [l]) ->
  status_label (handle (Letter l) s) = Congrats /\ ~ running (handle (Letter l) s).
Proof.
  intros Hr%hm_reachable_wf Hl Hall. rewrite handle_letter by done.
  pose proof (press_pre l s Hr Hl) as ((_ & Hf & _) & _).
  destruct Hr as [((_ & _ & _ & _) & Hen & _) _].
  destruct (record_guess_new l {| s with letter_buttons := <[l:=false]> (letter_buttons s) |})
    as (Hg & _ & Hsec & _); [by apply Hen|].
  unfold press, update_display.
  assert (Hu : has_underscore (get_masked_word
             (record_guess l {| s with letter_buttons := <[l:=false]> (letter_buttons s) |})) = false).
  { apply not_true_iff_false. rewrite masked_underscore by (by apply guessed_no_underscore).
    intros (c & Hc & Hnc). rewrite Hsec, Hg in *. simpl in *. by apply Hnc, Hall. }
  rewrite Hu. simpl. split; [done|apply disable_all_not_running].
Qed.

(** C10 (functional): a wrong letter with one attempt left loses: the
    status shows the word and no letter can be pressed any more. *)
Theorem letter_loses (l : ascii) (s : state) :
  reachable s -> enabled s l -> l ∉ list_ascii_of_string (secret_word s) -> attempts s = 1 ->
  status_label (handle (Letter l) s) = GameOver (secret_word s) /\ ~ running (handle (Letter l) s).
Proof.
  intros Hr%hm_reachable_wf Hl Hnl Ha. rewrite handle_letter by done.
  pose proof (press_pre l s Hr Hl) as ((_ & Hf & _) & _).
  destruct Hr as [((_ & Hf0 & _ & _) & Hen & _) Hrun].
  destruct (Hrun (ex_intro _ l Hl)) as [_ Hu0].
  destruct (record_guess_new l {| s with letter_buttons := <[l:=false]> (letter_buttons s) |})
    as (Hg & Hat & Hsec & _); [by apply Hen|].
  simpl in Hg, Hat, Hsec. rewrite bool_decide_false in Hat by done.
  unfold press, update_display.
  assert (Hu : has_underscore (get_masked_word
             (record_guess l {| s with letter_buttons := <[l:=false]> (letter_buttons s) |})) = true).
  { rewrite masked_underscore by (by apply guessed_no_underscore).
    apply masked_underscore in Hu0 as (c & Hc & Hnc); [|by apply guessed_no_underscore].
    exists c. rewrite Hsec, Hg. split; [done|].
    rewrite elem_of_app, list_elem_of_singleton. intros [? | ->]; [done|contradiction]. }
  rewrite Hu, Hat. simpl. rewrite Hsec, Ha. simpl. split; [done|apply disable_all_not_running].
Qed.

(** every letter press disables its button, so the
    enabled buttons strictly decrease and a round takes at most 26
    presses. *)
Theorem press_decreases (l : ascii) (s : state) :
  reachable s -> enabled s l ->
  (enabled_count (handle (Letter l) s) < enabled_count s <= 26)%nat.
Proof.
  intros Hr%hm_reachable_wf Hl. rewrite handle_letter by done. unfold press.
  destruct Hr as [((Hd & _) & Hen & _) _].
  set (s1 := {| s with letter_buttons := <[l:=false]> (letter_buttons s) |}).
  assert (Hcount : enabled_count s = S (enabled_count s1)).
  { apply (filter_length_update _ _ letters l letters_NoDup).
    - by apply (enabled_in_letters s).
    - intros x _ Hne. unfold enabled. simpl. by rewrite lookup_insert_ne.
    - unfold enabled. simpl. by rewrite lookup_insert_eq.
    - done. }
  assert (Hle : (enabled_count s <= 26)%nat)
    by (unfold enabled_count; etrans; [apply length_filter|done]).
  split; [|done].
  destruct (update_display_buttons (record_guess l s1)) as [Hb|Hb].
  - unfold enabled_count at 1. rewrite (list_filter_iff _ (enabled s1)).
    + fold (enabled_count s1). lia.
    + intros x. unfold enabled. rewrite Hb.
      destruct (decide (l ∈ guessed_letters s)) as [Hin|Hnin]; [by destruct (Hen l Hl)|].
      by destruct (record_guess_new l s1 Hnin) as (_ & _ & _ & ->).
  - rewrite (disabled_count _ _ Hb). lia.
Qed.

(** C12 (functional): a word with a character that is not a lower-case
    ASCII letter, such as a space or a hyphen, can never be won: no
    letter button reveals it, so no press ever shows the winning
    message. *)
Theorem unwinnable_word (l c : ascii) (s : state) :
  Forall (fun x => x ∈ letters) (guessed_letters s) ->
  c ∈ list_ascii_of_string (secret_word s) -> c ∉ letters ->
  l ∈ letters -> is_Some (letter_buttons s !! l) ->
  status_label (exec (check_letter l) s) <> Congrats.
Proof.
  intros Hf Hc Hnc Hl [b Hb]. unfold exec. rewrite (check_letter_run l s b Hb). simpl.
  set (s1 := record_guess l {| s with letter_buttons := <[l:=false]> (letter_buttons s) |}).
  assert (Hf1 : Forall (fun x => x ∈ letters) (guessed_letters s1) /\ secret_word s1 = secret_word s).
  { subst s1. unfold record_guess. simpl. case_bool_decide; [done|].
    case_bool_decide; simpl; (split; [apply Forall_app; split; [done|by apply Forall_singleton]|done]). }
  destruct Hf1 as [Hf1 Hsec].
  assert (Hu : has_underscore (get_masked_word s1) = true).
  { apply masked_underscore; [by apply guessed_no_underscore|].
    exists c. rewrite Hsec. split; [done|]. rewrite Forall_forall in Hf1. intros Hin.
    by apply Hnc, Hf1. }
  unfold press. fold s1. unfold update_display. rewrite Hu. simpl.
  by destruct (attempts s1 <=? 0).
Qed.

(** a word file holding the empty list [[]] passes the
    loader's check, and [random.choice([])] then raises [IndexError]:
    [start_game] changes nothing and, called from [__init__], stops the
    application instead of showing the fatal-error state. *)
Theorem empty_word_list_raises (k : nat) (s : state) :
  start_game (Parsed (JArr [])) k s = (Exc IndexError, s) /\
  fst (init (Parsed (JArr [])) k) = Exc IndexError.
Proof. split; reflexivity. Qed.

(** C14 (roundtrip): [get_masked_word] lays the word out one character
    per letter, separated by single spaces, with [_] for a letter not
    yet guessed; reading every other character of the display back
    gives the word with its hidden letters as [_], and once every
    letter is guessed it gives back the secret word itself.  (This
    holds for words without whitespace, which [strip] would eat.) *)
Theorem masked_word_reads_back (s : state) :
  Forall (fun c => py_isspace c = false) (list_ascii_of_string (secret_word s)) ->
  list_ascii_of_string (get_masked_word s) =
    spaced (shown (guessed_letters s) <$> list_ascii_of_string (secret_word s)) /\
  evens (list_ascii_of_string (get_masked_word s)) =
    shown (guessed_letters s) <$> list_ascii_of_string (secret_word s) /\
  (Forall (fun c => c ∈ guessed_letters s) (list_ascii_of_string (secret_word s)) ->
     evens (list_ascii_of_string (get_masked_word s)) = list_ascii_of_string (secret_word s)).
Proof.
  intros Hw. unfold get_masked_word, py_strip. rewrite !list_ascii_of_string_of_list_ascii.
  assert (Hm : py_strip_list (List.concat (mask_letter (guessed_letters s) <$>
                 list_ascii_of_string (secret_word s))) =
               spaced (shown (guessed_letters s) <$> list_ascii_of_string (secret_word s))).
  { destruct (list_ascii_of_string (secret_word s)) as [|x t] eqn:E; [done|].
    pose proof (shown_nonspace (guessed_letters s) _ Hw) as Hsh.
    rewrite concat_mask by done.
    destruct (last (shown (guessed_letters s) <$> x :: t)) as [c'|] eqn:El;
      [|by apply last_None in El].
    apply (py_strip_list_ends _ _ (shown (guessed_letters s) x) c'); [repeat constructor| |by inversion Hsh| |].
    - by rewrite head_spaced.
    - by rewrite last_spaced.
    - apply last_Some_elem_of in El. by eapply Forall_forall in Hsh. }
  rewrite Hm, evens_spaced. split_and!; [done|done|].
  intros Hall. apply list_eq_Forall2. apply Forall2_fmap_l, Forall_Forall2_diag.
  eapply Forall_impl; [exact Hall|]. intros c Hc. simpl. unfold shown. by rewrite bool_decide_true.
Qed.

(** C15 (functional): the sentinel collides with data.  A valid word
    file holding a non-empty list of strings leads [start_game] to the
    fatal-error state exactly when the list is one word that lower-cases
    to "error" ("Error", "ERROR", ...), and then no letter can be
    pressed: such a file is taken for a load failure. *)
Theorem error_word_is_fatal (ws : list string) (k : nat) (s : state) :
  ws <> [] ->
  (status_label (exec (start_game (Parsed (JArr (map JStr ws))) k) s) = FatalError <->
     exists w, ws = [w] /\ py_lower w = "error") /\
  (status_label (exec (start_game (Parsed (JArr (map JStr ws))) k) s) = FatalError ->
     ~ running (exec (start_game (Parsed (JArr (map JStr ws))) k) s)).
Proof.
  intros Hne. unfold start_game, load_hangman_words. rewrite all_strings_map.
  assert (Hiff : py_lower <$> ws = error_words <-> exists w, ws = [w] /\ py_lower w = "error").
  { split.
    - destruct ws as [|w [|w' t]]; intros H; inversion H; eauto.
    - intros (w & -> & Hw). simpl. by rewrite Hw. }
  case_bool_decide as Hb.
  - py_unfold. split; [split; [intros _; by apply Hiff|done]|]. intros _. apply disable_all_not_running.
  - destruct (random_choice_Some (py_lower <$> ws) k) as [w Hw];
      [by destruct ws|].
    py_unfold. rewrite Hw. simpl. split; [|done]. split; [done|]. intros H%Hiff. contradiction.
Qed.

(** A word list whose only word is empty: the first [update_display]
    declares a win and disables every letter, and [start_game] then
    overwrites the status with "Attempts left: 6". *)
Lemma all_disabled_not_running (s : state) :
  map_Forall (fun _ b => b = false) (letter_buttons s) -> ~ running s.
Proof. intros Hall (l & Hl). unfold enabled in Hl. by specialize (Hall _ _ Hl). Qed.

Lemma empty_word_stuck :
  exists s, init (Parsed (JArr [JStr ""])) 0 = (Ret tt, s) /\
    status_label s = AttemptsLeft 6 /\ ~ running s.
Proof.
  exists (snd (init (Parsed (JArr [JStr ""])) 0)).
  split; [vm_compute; reflexivity|]. split; [vm_compute; reflexivity|].
  apply all_disabled_not_running, (bool_decide_unpack _). vm_compute. exact I.
Qed.

(** ** Witnesses *)

Definition words_file : file_read := Parsed (JArr [JStr "Cat"; JStr "ice cream"]).

Definition cat_page : state := exec (start_game words_file 0) init_attrs.

Lemma cat_page_reachable : reachable cat_page.
Proof. apply reach_init. exists words_file, 0%nat. vm_compute. reflexivity. Qed.

(** "c _ t": the word "cat" with "c" and "t" guessed. *)
Lemma masked_word_reads_back_witness :
  let s := {| init_attrs with secret_word := "cat"; guessed_letters := ["c"; "t"]%char |} in
  list_ascii_of_string (get_masked_word s) =
    spaced (shown (guessed_letters s) <$> list_ascii_of_string (secret_word s)) /\
  evens (list_ascii_of_string (get_masked_word s)) =
    shown (guessed_letters s) <$> list_ascii_of_string (secret_word s) /\
  (Forall (fun c => c ∈ guessed_letters s) (list_ascii_of_string (secret_word s)) ->
     evens (list_ascii_of_string (get_masked_word s)) = list_ascii_of_string (secret_word s)).
Proof. apply masked_word_reads_back. repeat constructor. Defined.

Lemma error_word_is_fatal_witness :
  (status_label (exec (start_game (Parsed (JArr (map JStr ["ErRoR"]))) 0) init_attrs) = FatalError <->
     exists w, ["ErRoR"] = [w] /\ py_lower w = "error") /\
  (status_label (exec (start_game (Parsed (JArr (map JStr ["ErRoR"]))) 0) init_attrs) = FatalError ->
     ~ running (exec (start_game (Parsed (JArr (map JStr ["ErRoR"]))) 0) init_attrs)).
Proof. apply error_word_is_fatal. discriminate. Defined.

Lemma hangman_reachable_inv_witness : reachable cat_page /\ inv cat_page.
Proof. exact (conj cat_page_reachable (hangman_reachable_inv _ cat_page_reachable)). Defined.

Definition cat_after_ca : state := handle (Letter "a") (handle (Letter "c") cat_page).

Lemma repeated_letter_witness :
  attempts (exec (check_letter "c") cat_after_ca) = attempts cat_after_ca /\
  guessed_letters (exec (check_letter "c") cat_after_ca) = guessed_letters cat_after_ca.
Proof. apply repeated_letter; vm_compute; [left|eexists; reflexivity]. Defined.

Lemma letter_wins_witness :
  status_label (handle (Letter "t") cat_after_ca) = Congrats /\
  ~ running (handle (Letter "t") cat_after_ca).
Proof.
  apply letter_wins.
  - do 2 (apply reach_step; [|exact I]). apply cat_page_reachable.
  - vm_compute. reflexivity.
  - vm_compute. intros c Hc. repeat (apply elem_of_cons in Hc as [->|Hc]; [by vm_compute; repeat constructor|]).
    by apply elem_of_nil in Hc.
Defined.

Definition cat_one_left : state :=
  foldl (fun s l => handle (Letter l) s) cat_page ["b"; "d"; "e"; "f"; "g"]%char.

Lemma letter_loses_witness :
  status_label (handle (Letter "h") cat_one_left) = GameOver (secret_word cat_one_left) /\
  ~ running (handle (Letter "h") cat_one_left).
Proof.
  apply letter_loses.
  - unfold cat_one_left. cbn [foldl]. repeat (apply reach_step; [|exact I]). apply cat_page_reachable.
  - vm_compute. reflexivity.
  - apply (bool_decide_unpack _). vm_compute. exact I.
  - vm_compute. reflexivity.
Defined.

Lemma press_decreases_witness :
  (enabled_count (handle (Letter "c") cat_page) < enabled_count cat_page <= 26)%nat.
Proof. apply press_decreases; [apply cat_page_reachable|vm_compute; reflexivity]. Defined.

Definition ice_cream_page : state := exec (start_game words_file 1) init_attrs.

Lemma unwinnable_word_witness :
  status_label (exec (check_letter "i") ice_cream_page) <> Congrats.
Proof.
  apply (unwinnable_word "i" " ").
  - vm_compute. constructor.
  - apply (bool_decide_unpack _). vm_compute. exact I.
  - apply (bool_decide_unpack _). vm_compute. exact I.
  - apply (bool_decide_unpack _). vm_compute. exact I.
  - vm_compute. eexists. reflexivity.
Defined.

End Hangman.
