(* ===== verification/Dice.v ===== *)
(** * Dice Betting ([DiceRollingGUI], games_gui.py 541-652)

    The page keeps the player's money (100 at the start), the High/Low
    choice of the two radio buttons (the [tk.StringVar] [bet_choice],
    "h" or "l"), a money label, a log, the bet entry and the Place Bet
    button.  [place_bet] reads the entry, rejects text that is not an
    integer, a bet that is not positive and a bet above the money, and
    otherwise rolls the die, pays or takes the bet, and disables the
    input when the money is gone; [reset_game] gives 100 again and
    re-enables the input.

    The die [random.randint(1, 6)] is a parameter of [place_bet], drawn
    by the [PlaceBet] event.  The money label holds the amount its
    f-string shows. *)

From stdpp Require Import base list.
From Stdlib Require Import String ZArith Lia.
From S2P Require Import Prelude PyStr.

Local Open Scope string_scope.
Local Open Scope Z_scope.

Module Dice.

(** The lines [log] appends to the game log. *)
Inductive log_msg : Type :=
  | MsgWelcome                  (** "Welcome! Bet on High (4-6) or Low (1-3)!" *)
  | MsgPositive                 (** "Bet must be a positive number!" *)
  | MsgOnlyHave (money : Z)     (** "You only have ${money}! Bet less than that." *)
  | MsgRound                    (** "\n--- Round ---" *)
  | MsgBet (bet : Z) (high : bool)  (** "Bet: ${bet} on HIGH" / "... on LOW" *)
  | MsgRolled (dice : Z)        (** "Dice rolled: {dice}" *)
  | MsgWin (bet : Z)            (** "YOU WIN! You gained ${bet}." *)
  | MsgLose (bet : Z)           (** "You lose ${bet}." *)
  | MsgGameOver                 (** "GAME OVER! You're out of money. Start a New Game." *)
  | MsgInvalid                  (** "Please enter a valid numerical bet!" *)
  | MsgNewGame.                 (** "New game started. Bet wisely!" *)

Record state : Type := mkState {
  money : Z;
  bet_choice : string;          (** the [StringVar] of the radio buttons *)
  money_label : Z;              (** "Current Money: ${money_label}" *)
  log_text : list log_msg;
  bet_entry : string;
  entry_enabled : bool;
  button_enabled : bool         (** [place_bet_button] *)
}.

Definition log (m : log_msg) (s : state) : state :=
  {| s with log_text := log_text s ++ [m] |}.

Definition update_money_display (s : state) : state :=
  {| s with money_label := money s |}.

(** [is_win = (choice == "h" and dice >= 4) or (choice == "l" and dice <= 3)] *)
Definition is_win (choice : string) (dice : Z) : bool :=
  (String.eqb choice "h" && (4 <=? dice)) || (String.eqb choice "l" && (dice <=? 3)).

(** [place_bet], with [dice] the value of [random.randint(1, 6)]; the
    [except ValueError] branch is the [None] case of [py_int]. *)
Definition place_bet (dice : Z) (s : state) : state :=
  let bet_str := bet_entry s in
  let s := {| s with bet_entry := EmptyString |} in
  match py_int bet_str with
  | None => log MsgInvalid s
  | Some bet =>
      if bet <=? 0 then log MsgPositive s
      else if bet >? money s then log (MsgOnlyHave (money s)) s
      else
        let choice := bet_choice s in
        let s := log MsgRound s in
        let s := log (MsgBet bet (String.eqb choice "h")) s in
        let s := log (MsgRolled dice) s in
        let s := if is_win choice dice
                 then log (MsgWin bet) {| s with money := money s + bet |}
                 else log (MsgLose bet) {| s with money := money s - bet |} in
        let s := update_money_display s in
        if money s <=? 0 then
          let s := log MsgGameOver s in
          {| s with button_enabled := false; entry_enabled := false |}
        else s
  end.

(** [reset_game]: the entry's text and the radio choice are kept. *)
Definition reset_game (s : state) : state :=
  let s := update_money_display {| s with money := 100 |} in
  let s := log MsgNewGame {| s with log_text := [] |} in
  {| s with button_enabled := true; entry_enabled := true |}.

(** [__init__]: the attributes, the widgets, and the welcome line. *)
Definition init : state :=
  log MsgWelcome
    {| money := 100; bet_choice := "h"; money_label := 100; log_text := [];
       bet_entry := EmptyString; entry_enabled := true; button_enabled := true |}.

(** ** The page as a state machine *)

(** Typing a bet, selecting High ([true]) or Low ([false]), pressing
    Place Bet with the die it rolls, and New Game.  The radio buttons are
    never disabled; a disabled entry or button ignores input. *)
Inductive event : Type :=
  | TypeBet (txt : string)
  | Choose (high : bool)
  | PlaceBet (dice : Z)
  | NewGame.

Definition handle (e : event) (s : state) : state :=
  match e with
  | TypeBet txt => if entry_enabled s then {| s with bet_entry := txt |} else s
  | Choose high => {| s with bet_choice := if high then "h" else "l" |}
  | PlaceBet d => if button_enabled s then place_bet d s else s
  | NewGame => reset_game s
  end.

Definition valid_event (e : event) : Prop :=
  match e with PlaceBet d => 1 <= d <= 6 | _ => True end.

Definition reachable : state -> Prop := reachable_from (fun s => s = init) valid_event handle.

(** ** Specification of a bet

    The rule the page announces: High wins on 4, 5 and 6, Low on 1, 2
    and 3; a winning bet is paid one to one and a losing bet is lost. *)

Inductive side : Type := High | Low.

Definition side_of (choice : string) : side :=
  if String.eqb choice "h" then High else Low.

Inductive wins : side -> Z -> Prop :=
  | wins_high d : 4 <= d <= 6 -> wins High d
  | wins_low d : 1 <= d <= 3 -> wins Low d.

Definition settle (sd : side) (d bet money : Z) (m' : Z) : Prop :=
  (wins sd d -> m' = money + bet) /\ (~ wins sd d -> m' = money - bet).

(** The invariant of every reachable page. *)
Definition inv (s : state) : Prop :=
  0 <= money s /\ money_label s = money s /\
  entry_enabled s = button_enabled s /\
  (button_enabled s = true <-> 0 < money s) /\
  (bet_choice s = "h" \/ bet_choice s = "l").

(** ** Lemmas *)

Lemma place_bet_invalid (d : Z) (s : state) :
  py_int (bet_entry s) = None ->
  place_bet d s = log MsgInvalid {| s with bet_entry := EmptyString |}.
Proof. unfold place_bet. by intros ->. Qed.

Lemma place_bet_out_of_range (d bet : Z) (s : state) :
  py_int (bet_entry s) = Some bet -> ~ (0 < bet <= money s) ->
  exists m, place_bet d s = log m {| s with bet_entry := EmptyString |}.
Proof.
  unfold place_bet. intros -> Hb. simpl.
  destruct (Z.leb_spec bet 0); [by eexists|].
  destruct (Z.gtb_spec bet (money s)); [|lia]. eexists. reflexivity.
Qed.

(** A valid bet: the log gets the round, then the money is settled and
    the game-over test runs on the new amount. *)
Lemma place_bet_valid (d bet : Z) (s : state) :
  py_int (bet_entry s) = Some bet -> 0 < bet <= money s ->
  let m' := if is_win (bet_choice s) d then money s + bet else money s - bet in
  money (place_bet d s) = m' /\ money_label (place_bet d s) = m' /\
  bet_choice (place_bet d s) = bet_choice s /\
  button_enabled (place_bet d s) = (if m' <=? 0 then false else button_enabled s) /\
  entry_enabled (place_bet d s) = (if m' <=? 0 then false else entry_enabled s).
Proof.
  intros Hbet Hb. unfold place_bet. rewrite Hbet. simpl.
  destruct (Z.leb_spec bet 0); [lia|]. destruct (Z.gtb_spec bet (money s)); [lia|].
  by destruct (is_win (bet_choice s) d), (_ <=? 0).
Qed.

Lemma is_win_spec (choice : string) (d : Z) :
  (choice = "h" \/ choice = "l") -> 1 <= d <= 6 ->
  is_win choice d = true <-> wins (side_of choice) d.
Proof.
  unfold is_win, side_of. intros [-> | ->] Hd; simpl.
  - rewrite orb_false_r. split; [intros H%Z.leb_le; constructor; lia|].
    inversion 1; subst. apply Z.leb_le. lia.
  - split; [intros H%Z.leb_le; constructor; lia|].
    inversion 1; subst. apply Z.leb_le. lia.
Qed.

Lemma dice_init_inv : inv init.
Proof. unfold inv; simpl. repeat split; try lia; auto. Qed.

Lemma place_bet_inv (d : Z) (s : state) :
  inv s -> button_enabled s = true -> inv (place_bet d s).
Proof.
  intros (Hm & Hl & He & Hb & Hc) Hon.
  destruct (py_int (bet_entry s)) as [bet|] eqn:Hbet.
  - destruct (decide (0 < bet <= money s)) as [Hr|Hr].
    + destruct (place_bet_valid d bet s Hbet Hr) as (Hm' & Hl' & Hc' & Hb' & He').
      unfold inv. rewrite Hm', Hl', Hc', Hb', He', He.
      destruct (is_win _ d); zcase; repeat split; try lia; try done; auto.
    + destruct (place_bet_out_of_range d bet s Hbet Hr) as [m ->].
      unfold inv; simpl. auto.
  - rewrite place_bet_invalid by done. unfold inv; simpl. auto.
Qed.

Lemma dice_handle_inv (e : event) (s : state) : inv s -> inv (handle e s).
Proof.
  intros Hi. destruct e as [txt|high|d|]; simpl.
  - assert (inv {| s with bet_entry := txt |}) by (unfold inv in *; simpl; tauto).
    by destruct (entry_enabled s).
  - unfold inv in *; simpl. destruct high; intuition auto.
  - destruct (button_enabled s) eqn:Hb; [by apply place_bet_inv|done].
  - unfold inv; simpl. repeat split; try lia; try done. apply Hi.
Qed.

(** * Theorems *)

Lemma dice_reachable_wf (s : state) : reachable s -> inv s.
Proof.
  revert s. apply reachable_from_inv; [intros ? ->; apply dice_init_inv|].
  intros s e Hi _. by apply dice_handle_inv.
Qed.

(** C20 (invariant): on every reachable page the money is never negative,
    the label shows it, the entry and the button are enabled together,
    and they are enabled exactly while the money is positive; the choice
    is "h" or "l". *)
Theorem dice_reachable_inv (s : state) : reachable s -> inv s.
Proof. apply dice_reachable_wf; assumption. Qed.

(** C21 (refinement): a bet that [int()] reads as a number in 1..money,
    on a reachable page with the input enabled and a roll in 1..6, is
    settled by the announced rule (High wins on 4-6, Low on 1-3, one to
    one), and the input is disabled exactly when the money is gone. *)
Theorem place_bet_settles (d bet : Z) (s : state) :
  reachable s -> button_enabled s = true ->
  py_int (bet_entry s) = Some bet -> 0 < bet <= money s -> 1 <= d <= 6 ->
  settle (side_of (bet_choice s)) d bet (money s) (money (place_bet d s)) /\
  (button_enabled (place_bet d s) = true <-> 0 < money (place_bet d s)).
Proof.
  intros Hr Hon Hbet Hb Hd. pose proof (dice_reachable_wf s Hr) as Hi.
  destruct (place_bet_valid d bet s Hbet Hb) as (Hm' & _ & _ & Hb' & _).
  pose proof (is_win_spec (bet_choice s) d (proj2 (proj2 (proj2 (proj2 Hi)))) Hd) as Hw.
  rewrite Hm', Hb', Hon. split.
  - split; intros Hs; destruct (is_win _ d) eqn:E; try done; exfalso.
    + by apply Hw in Hs.
    + by apply Hs, Hw.
  - destruct (is_win _ d); zcase; split; done || lia.
Qed.

(** C22 (error): text that [int()] rejects, a bet that is not positive,
    or a bet above the money is reported by one log line, and nothing
    but the log and the cleared entry changes (the line names the
    reason and, for a bet above the money, the amount): the money, the choice and
    the controls stay as they were. *)
Theorem place_bet_rejects (d : Z) (s : state) :
  (py_int (bet_entry s) = None \/
   exists bet, py_int (bet_entry s) = Some bet /\ ~ (0 < bet <= money s)) ->
  exists m, (m = MsgInvalid \/ m = MsgPositive \/ m = MsgOnlyHave (money s)) /\
    place_bet d s = {| s with bet_entry := EmptyString; log_text := log_text s ++ [m] |}.
Proof.
  intros [Hn|(bet & Hbet & Hr)].
  - exists MsgInvalid. split; [by left|by rewrite place_bet_invalid].
  - unfold place_bet. rewrite Hbet. simpl.
    destruct (Z.leb_spec bet 0); [exists MsgPositive; split; [by right; left|done]|].
    destruct (Z.gtb_spec bet (money s)); [|lia].
    exists (MsgOnlyHave (money s)). split; [by right; right|done].
Qed.

(** ** Witnesses *)

(** The page after [__init__], with [txt] typed into the entry. *)
Definition typed (txt : string) : state := handle (TypeBet txt) init.

Lemma dice_reachable_typed (txt : string) : reachable (typed txt).
Proof. apply (reach_step _ (TypeBet txt)); [by apply reach_init|done]. Qed.

Lemma dice_reachable_inv_witness : inv (handle (PlaceBet 5) (typed "100")).
Proof.
  apply dice_reachable_inv. apply (reach_step _ (PlaceBet 5)); [apply dice_reachable_typed|simpl; lia].
Defined.

Lemma place_bet_settles_witness :
  settle (side_of (bet_choice (typed "40"))) 2 40 (money (typed "40"))
    (money (place_bet 2 (typed "40"))) /\
  (button_enabled (place_bet 2 (typed "40")) = true <-> 0 < money (place_bet 2 (typed "40"))).
Proof. apply place_bet_settles; [apply dice_reachable_typed|reflexivity|reflexivity|simpl; lia|lia]. Defined.

Lemma place_bet_rejects_witness :
  exists m, (m = MsgInvalid \/ m = MsgPositive \/ m = MsgOnlyHave (money (typed "250"))) /\
    place_bet 3 (typed "250") =
      {| (typed "250") with bet_entry := EmptyString; log_text := log_text (typed "250") ++ [m] |}.
Proof. apply place_bet_rejects. right. exists 250. split; [reflexivity|simpl; lia]. Defined.

End Dice.
