(* ===== verification/RockPaperScissors.v ===== *)
(** * Rock-Paper-Scissors ([RockPaperScissorsGUI], games_gui.py 350-441)

    The page keeps the list [choices] of the computer's weapons, the two
    scores, a score label, a result label and the three weapon buttons.
    [play_round] draws the computer's weapon with [random.choice],
    compares it with the player's, scores the round, and ends the game
    (the result label announces the winner and [toggle_buttons] disables
    the weapons) when a score reaches 3; [reset_game] zeroes the scores
    and enables the weapons again.

    Weapons are the strings of the source; the labels are the strings
    the f-strings build (UTF-8 bytes for the emoji), with [str.upper] as
    [py_upper] and the score rendered by [py_str_int].  The draw of
    [random.choice] is a parameter of [play_round]. *)

From stdpp Require Import base list.
From Stdlib Require Import Ascii String ZArith Lia.
From S2P Require Import Prelude PyStr.

Local Open Scope string_scope.
Local Open Scope Z_scope.

Module RockPaperScissors.

Definition nl : string := String "010"%char EmptyString.

Record state : Type := mkState {
  choices : list string;
  player_score : Z;
  computer_score : Z;
  score_label : string;
  result_label : string;
  rock_enabled : bool;
  paper_enabled : bool;
  scissors_enabled : bool
}.

Definition score_text (p c : Z) : string :=
  "First to 3 wins!" ++ nl ++ "Score: You " ++ py_str_int p ++ " - " ++ py_str_int c ++ " Computer".

Definition msg_tie : string := "🤝 It's a tie!".
Definition msg_round_won : string := "🎉 You win this round!".
Definition msg_round_lost : string := "❌ Computer wins this round!".
Definition msg_game_won : string := "🏆 You won the game! Click 'New Game' to restart.".
Definition msg_game_lost : string := "💻 Computer won the game! Click 'New Game' to restart.".
Definition msg_choose : string := "Choose your weapon!".

Definition update_score_display (s : state) : state :=
  {| s with score_label := score_text (player_score s) (computer_score s) |}.

(** [toggle_buttons(state)], [true] for [tk.NORMAL]. *)
Definition toggle_buttons (b : bool) (s : state) : state :=
  {| s with rock_enabled := b; paper_enabled := b; scissors_enabled := b |}.

(** The [elif] condition of [play_round]. *)
Definition player_beats (p c : string) : bool :=
  (String.eqb p "rock" && String.eqb c "scissors") ||
  (String.eqb p "paper" && String.eqb c "rock") ||
  (String.eqb p "scissors" && String.eqb c "paper").

(** [play_round(player_choice)], with [k] the draw of [random.choice]
    (which raises [IndexError] before any change on an empty list).
    [round_result] starts as [""], so [+=] is the message itself. *)
Definition play_round (player_choice : string) (k : nat) (s : state) : state :=
  match random_choice (choices s) k with
  | None => s
  | Some computer_choice =>
      let s := {| s with result_label := "You chose: " ++ py_upper player_choice ++
                                        " | Computer chose: " ++ py_upper computer_choice |} in
      let '(round_result, s) :=
        if String.eqb player_choice computer_choice then (msg_tie, s)
        else if player_beats player_choice computer_choice
        then (msg_round_won, {| s with player_score := player_score s + 1 |})
        else (msg_round_lost, {| s with computer_score := computer_score s + 1 |}) in
      let s := {| s with result_label := result_label s ++ nl ++ round_result |} in
      let s := update_score_display s in
      if 3 <=? player_score s then toggle_buttons false {| s with result_label := msg_game_won |}
      else if 3 <=? computer_score s then toggle_buttons false {| s with result_label := msg_game_lost |}
      else s
  end.

Definition reset_game (s : state) : state :=
  let s := update_score_display {| s with player_score := 0; computer_score := 0 |} in
  toggle_buttons true {| s with result_label := msg_choose |}.

Definition init : state :=
  {| choices := ["rock"; "paper"; "scissors"]; player_score := 0; computer_score := 0;
     score_label := score_text 0 0; result_label := msg_choose;
     rock_enabled := true; paper_enabled := true; scissors_enabled := true |}.

(** ** The page as a state machine *)

Inductive weapon : Type := Rock | Paper | Scissors.

#[export] Instance weapon_eq_dec : EqDecision weapon.
Proof. solve_decision. Defined.

Definition weapon_name (w : weapon) : string :=
  match w with Rock => "rock" | Paper => "paper" | Scissors => "scissors" end.

Definition weapon_enabled (w : weapon) (s : state) : bool :=
  match w with Rock => rock_enabled s | Paper => paper_enabled s | Scissors => scissors_enabled s end.

(** A weapon button, pressed with the draw it makes, and New Game. *)
Inductive event : Type :=
  | Press (w : weapon) (k : nat)
  | NewGame.

Definition handle (e : event) (s : state) : state :=
  match e with
  | Press w k => if weapon_enabled w s then play_round (weapon_name w) k s else s
  | NewGame => reset_game s
  end.

Definition reachable : state -> Prop := reachable_from (fun s => s = init) (fun _ => True) handle.

(** ** Specification: the game of the rules *)

(** Rock blunts scissors, paper covers rock, scissors cut paper. *)
Inductive beats : weapon -> weapon -> Prop :=
  | rock_scissors : beats Rock Scissors
  | paper_rock : beats Paper Rock
  | scissors_paper : beats Scissors Paper.

(** The computer's weapon for the draw [k]. *)
Definition drawn (k : nat) : weapon :=
  match (k mod 3)%nat with 0%nat => Rock | 1%nat => Paper | _ => Scissors end.

(** The invariant of every reachable page: the scores stay in 0..3 and
    at most one reaches 3; the three weapons are enabled together, and
    exactly while both scores are below 3; a finished game's result label
    names the player who reached 3; the score label shows the scores. *)
Definition inv (s : state) : Prop :=
  choices s = ["rock"; "paper"; "scissors"] /\
  0 <= player_score s <= 3 /\ 0 <= computer_score s <= 3 /\
  ~ (player_score s = 3 /\ computer_score s = 3) /\
  paper_enabled s = rock_enabled s /\ scissors_enabled s = rock_enabled s /\
  (rock_enabled s = true <-> player_score s < 3 /\ computer_score s < 3) /\
  (player_score s = 3 -> result_label s = msg_game_won) /\
  (computer_score s = 3 -> result_label s = msg_game_lost) /\
  score_label s = score_text (player_score s) (computer_score s).

(** ** Lemmas *)

Lemma drawn_choice (k : nat) :
  random_choice ["rock"; "paper"; "scissors"] k = Some (weapon_name (drawn k)).
Proof.
  unfold random_choice, drawn. cbn [Datatypes.length].
  pose proof (Nat.mod_upper_bound k 3 ltac:(lia)).
  destruct (k mod 3)%nat as [|[|[|n]]]; [reflexivity..|lia].
Qed.

Lemma weapon_name_eqb (w v : weapon) :
  String.eqb (weapon_name w) (weapon_name v) = bool_decide (w = v).
Proof. by destruct w, v. Qed.

Lemma player_beats_spec (w v : weapon) :
  player_beats (weapon_name w) (weapon_name v) = true <-> beats w v.
Proof. destruct w, v; simpl; split; intros H; try constructor; inversion H || done. Qed.

(** What a round does to the scores: the computer's weapon is [drawn k],
    and the score of the side whose weapon beats the other's goes up. *)
Lemma play_round_scores (w : weapon) (k : nat) (s : state) :
  choices s = ["rock"; "paper"; "scissors"] ->
  let v := drawn k in
  let p' := if bool_decide (w = v) then player_score s
            else if player_beats (weapon_name w) (weapon_name v) then player_score s + 1
            else player_score s in
  let c' := if bool_decide (w = v) then computer_score s
            else if player_beats (weapon_name w) (weapon_name v) then computer_score s
            else computer_score s + 1 in
  player_score (play_round (weapon_name w) k s) = p' /\
  computer_score (play_round (weapon_name w) k s) = c' /\
  score_label (play_round (weapon_name w) k s) = score_text p' c' /\
  choices (play_round (weapon_name w) k s) = choices s /\
  (3 <= p' -> result_label (play_round (weapon_name w) k s) = msg_game_won) /\
  (p' < 3 -> 3 <= c' -> result_label (play_round (weapon_name w) k s) = msg_game_lost) /\
  (forall u, weapon_enabled u (play_round (weapon_name w) k s) =
     if (3 <=? p') || (3 <=? c') then false else weapon_enabled u s).
Proof.
  intros Hc v p' c'. unfold play_round. rewrite Hc, drawn_choice, weapon_name_eqb.
  subst v p' c'.
  destruct (bool_decide (w = drawn k)); [|destruct (player_beats _ _)]; simpl;
    repeat zcase; simpl; repeat split; intros; try done; try (destruct u; reflexivity); lia.
Qed.

Lemma rps_init_inv : inv init.
Proof. unfold inv; simpl. repeat split; try lia; try done. Qed.

Lemma rps_reset_game_inv (s : state) : inv s -> inv (reset_game s).
Proof. intros Hi. unfold inv; simpl. repeat split; try lia; try done. apply Hi. Qed.

Lemma play_round_inv (w : weapon) (k : nat) (s : state) :
  inv s -> weapon_enabled w s = true -> inv (play_round (weapon_name w) k s).
Proof.
  intros (Hc & Hp & Hq & Hn & Hpe & Hse & Hon & Hwon & Hlost & Hl) Hw.
  assert (Hrun : player_score s < 3 /\ computer_score s < 3).
  { apply Hon. destruct w; simpl in Hw; congruence. }
  destruct (play_round_scores w k s Hc) as (Hp' & Hc' & Hl' & Hch & Hwon' & Hlost' & He').
  pose proof (He' Rock) as HR; pose proof (He' Paper) as HP; pose proof (He' Scissors) as HS.
  simpl in HR, HP, HS. rewrite Hpe in HP. rewrite Hse in HS.
  unfold inv. rewrite Hp', Hc', Hl', Hch, Hc, HR, HP, HS.
  destruct (bool_decide (w = drawn k)); [|destruct (player_beats _ _)];
    repeat zcase; simpl; repeat split; intros; try done; try lia;
    solve [apply Hon; lia | apply Hwon'; lia | apply Hlost'; lia].
Qed.

Lemma rps_handle_inv (e : event) (s : state) : inv s -> inv (handle e s).
Proof.
  intros Hi. destruct e as [w k|]; simpl; [|by apply rps_reset_game_inv].
  destruct (weapon_enabled w s) eqn:Hw; [by apply play_round_inv|done].
Qed.

(** Two different weapons: one of them beats the other. *)
Lemma beats_total (w v : weapon) : w <> v -> ~ beats w v -> beats v w.
Proof. destruct w, v; intros Hne Hb; try done; try constructor; exfalso; apply Hb; constructor. Qed.

(** * Theorems *)

Lemma rps_reachable_wf (s : state) : reachable s -> inv s.
Proof.
  revert s. apply reachable_from_inv; [intros ? ->; apply rps_init_inv|].
  intros s e Hi _. by apply rps_handle_inv.
Qed.

(** C23 (invariant): on every reachable page the scores stay in 0..3 and
    never both reach 3, the three weapon buttons are enabled together and
    exactly while both scores are below 3, a score of 3 is announced by
    the matching "won the game" label, and the score label shows the
    scores. *)
Theorem rps_reachable_inv (s : state) : reachable s -> inv s.
Proof. apply rps_reachable_wf; assumption. Qed.

(** C24 (refinement): pressing an enabled weapon [w] plays one round of
    the game against the computer's weapon [v] drawn by [random.choice]:
    a tie when [v = w] leaves the scores alone, and otherwise the side
    whose weapon beats the other's (rock blunts scissors, paper covers
    rock, scissors cut paper) scores exactly one point. *)
Theorem press_plays_round (w : weapon) (k : nat) (s : state) :
  reachable s -> weapon_enabled w s = true ->
  let s' := handle (Press w k) s in
  let v := drawn k in
  (w = v /\ player_score s' = player_score s /\ computer_score s' = computer_score s) \/
  (beats w v /\ player_score s' = player_score s + 1 /\ computer_score s' = computer_score s) \/
  (beats v w /\ player_score s' = player_score s /\ computer_score s' = computer_score s + 1).
Proof.
  intros Hr Hw s' v. subst s'. simpl. rewrite Hw.
  destruct (play_round_scores w k s (proj1 (rps_reachable_wf s Hr))) as (Hp & Hc & _).
  rewrite Hp, Hc. subst v.
  destruct (decide (w = drawn k)) as [Heq|Hne].
  - left. by rewrite bool_decide_true.
  - right. rewrite bool_decide_false by done.
    destruct (player_beats _ _) eqn:Hb; [left; split; [by apply player_beats_spec|done]|].
    right. split; [|done]. apply beats_total; [done|]. by rewrite <- player_beats_spec, Hb.
Qed.

(** ** Witnesses *)

(** The player wins three rounds with paper against the draw 0 (rock). *)
Definition three_papers : state :=
  foldl (fun s e => handle e s) init [Press Paper 0; Press Paper 0; Press Paper 0].

Lemma rps_reachable_inv_witness : inv three_papers.
Proof. apply rps_reachable_inv, reachable_from_run; [by apply reach_init|repeat constructor]. Defined.

Lemma press_plays_round_witness :
  let s' := handle (Press Scissors 1) init in
  let v := drawn 1 in
  (Scissors = v /\ player_score s' = player_score init /\ computer_score s' = computer_score init) \/
  (beats Scissors v /\ player_score s' = player_score init + 1 /\ computer_score s' = computer_score init) \/
  (beats v Scissors /\ player_score s' = player_score init /\ computer_score s' = computer_score init + 1).
Proof. apply press_plays_round; [by apply reach_init|reflexivity]. Defined.

End RockPaperScissors.
