(* ===== verification/HigherOrLower.v ===== *)
(** * Higher or Lower ([HigherOrLowerGUI], games_gui.py 444-538)

    The page keeps a secret in 1..100 drawn by [random.randint(1, 100)],
    the number of attempts, a log, a status label, a text entry and a
    Guess button.  [start_game] draws the number and clears the count;
    [check_guess] reads the entry, rejects text that is not an integer or
    not in 1..100, and otherwise counts the attempt and logs "Higher!"
    for a guess below the secret, "Lower!" above it, and the congratulation
    on a hit, which ends the round ([end_game] disables the input).

    Unlike Number Guessing there is no attempt limit: the theorems show
    the count is exact, and that the hints are informative enough for
    bisection to win from any enabled page within 7 guesses. *)

From stdpp Require Import base list.
From Stdlib Require Import String ZArith Lia.
From S2P Require Import Prelude PyStr.

Local Open Scope Z_scope.

Module HigherOrLower.

Inductive log_msg : Type :=
  | MsgNewGame                        (** "New game started! Guess the number between 1 and 100!" *)
  | MsgRange                          (** "Please enter a number between 1 and 100!" *)
  | MsgCorrect (target attempts : Z)  (** "Correct! You guessed it ({target}) in {attempts} attempts!" *)
  | MsgHigher (guess : Z)             (** "Your guess: {guess}. Higher!" *)
  | MsgLower (guess : Z)              (** "Your guess: {guess}. Lower!" *)
  | MsgInvalid.                       (** "Please enter a valid number!" *)

Record state : Type := mkState {
  target_number : Z;
  attempts : Z;
  log_text : list log_msg;
  status_label : Z;                   (** "Attempts: {status_label}" *)
  guess_entry : string;
  entry_enabled : bool;
  button_enabled : bool
}.

Definition log (m : log_msg) (s : state) : state :=
  {| s with log_text := log_text s ++ [m] |}.

(** [start_game], with [target] the value of [random.randint(1, 100)]. *)
Definition start_game (target : Z) (s : state) : state :=
  let s := {| s with target_number := target; attempts := 0 |} in
  let s := {| s with log_text := [] |} in
  let s := log MsgNewGame {| s with status_label := 0 |} in
  {| s with button_enabled := true; entry_enabled := true; guess_entry := EmptyString |}.

Definition end_game (s : state) : state :=
  {| s with button_enabled := false; entry_enabled := false |}.

(** [check_guess]; the [except ValueError] branch is the [None] case of
    [py_int]. *)
Definition check_guess (s : state) : state :=
  let guess_str := guess_entry s in
  let s := {| s with guess_entry := EmptyString |} in
  match py_int guess_str with
  | None => log MsgInvalid s
  | Some guess =>
      if negb ((1 <=? guess) && (guess <=? 100)) then log MsgRange s
      else
        let s := {| s with attempts := attempts s + 1 |} in
        let s := {| s with status_label := attempts s |} in
        if guess =? target_number s then
          end_game (log (MsgCorrect (target_number s) (attempts s)) s)
        else if guess <? target_number s then log (MsgHigher guess) s
        else log (MsgLower guess) s
  end.

Definition init (target : Z) : state :=
  start_game target
    {| target_number := 0; attempts := 0; log_text := []; status_label := 0;
       guess_entry := EmptyString; entry_enabled := true; button_enabled := true |}.

(** ** The page as a state machine *)

Inductive event : Type :=
  | TypeText (txt : string)
  | Guess
  | NewGame (target : Z).

Definition handle (e : event) (s : state) : state :=
  match e with
  | TypeText txt => if entry_enabled s then {| s with guess_entry := txt |} else s
  | Guess => if button_enabled s then check_guess s else s
  | NewGame t => start_game t s
  end.

Definition valid_event (e : event) : Prop :=
  match e with NewGame t => 1 <= t <= 100 | _ => True end.

Definition reachable : state -> Prop :=
  reachable_from (fun s => exists t, 1 <= t <= 100 /\ s = init t) valid_event handle.

Lemma hl_reachable_init (t : Z) : 1 <= t <= 100 -> reachable (init t).
Proof. intros Ht. apply reach_init. by exists t. Qed.

(** The log lines that record a counted attempt. *)
Definition is_attempt (m : log_msg) : bool :=
  match m with MsgCorrect _ _ | MsgHigher _ | MsgLower _ => true | _ => false end.

Definition is_correct (m : log_msg) : bool :=
  match m with MsgCorrect _ _ => true | _ => false end.

(** The invariant: the counter and the status label equal the number of
    attempts the log records since the last start, and the input is
    enabled exactly while the log has no hit. *)
Definition inv (s : state) : Prop :=
  1 <= target_number s <= 100 /\
  status_label s = attempts s /\
  attempts s = Z.of_nat (List.length (List.filter is_attempt (log_text s))) /\
  entry_enabled s = button_enabled s /\
  button_enabled s = negb (existsb is_correct (log_text s)).

(** Typing [txt] and pressing Guess. *)
Definition guess_with (txt : string) (s : state) : state :=
  handle Guess (handle (TypeText txt) s).

(** The player who bisects: guess the middle of the interval the hints
    leave, for at most [fuel] guesses, while the input is enabled. *)
Fixpoint bisect (fuel : nat) (lo hi : Z) (s : state) : state :=
  match fuel with
  | O => s
  | S f =>
      if button_enabled s then
        let m := (lo + hi) / 2 in
        let s' := guess_with (py_str_int m) s in
        match last (log_text s') with
        | Some (MsgHigher _) => bisect f (m + 1) hi s'
        | Some (MsgLower _) => bisect f lo (m - 1) s'
        | _ => s'
        end
      else s
  end.

(** ** Lemmas *)

Lemma filter_snoc {A} (P : A -> bool) (l : list A) (x : A) :
  List.length (List.filter P (l ++ [x])) = (List.length (List.filter P l) + if P x then 1 else 0)%nat.
Proof. rewrite List.filter_app, length_app. simpl. by destruct (P x). Qed.

Lemma existsb_snoc {A} (P : A -> bool) (l : list A) (x : A) :
  existsb P (l ++ [x]) = existsb P l || P x.
Proof. rewrite existsb_app. simpl. by rewrite orb_false_r. Qed.

(** A valid guess: the counter goes up by one and the outcome follows
    the comparison with the secret. *)
Lemma check_guess_valid (s : state) (g : Z) :
  py_int (guess_entry s) = Some g -> 1 <= g <= 100 ->
  let s1 := {| s with guess_entry := EmptyString; attempts := attempts s + 1;
                      status_label := attempts s + 1 |} in
  check_guess s =
    if g =? target_number s then end_game (log (MsgCorrect (target_number s) (attempts s + 1)) s1)
    else if g <? target_number s then log (MsgHigher g) s1 else log (MsgLower g) s1.
Proof.
  intros Hg Hr. unfold check_guess. rewrite Hg.
  destruct (Z.leb_spec 1 g), (Z.leb_spec g 100); simpl; try lia. reflexivity.
Qed.

Lemma check_guess_rejected (s : state) :
  (py_int (guess_entry s) = None \/
   exists g, py_int (guess_entry s) = Some g /\ ~ (1 <= g <= 100)) ->
  exists m, is_attempt m = false /\ is_correct m = false /\
    check_guess s = log m {| s with guess_entry := EmptyString |}.
Proof.
  unfold check_guess. intros [-> | (g & -> & Hr)]; [by exists MsgInvalid|].
  exists MsgRange. repeat split.
  destruct (Z.leb_spec 1 g), (Z.leb_spec g 100); simpl; done || lia.
Qed.

Lemma hl_start_game_inv (t : Z) (s : state) : 1 <= t <= 100 -> inv (start_game t s).
Proof. intros Ht. unfold inv; simpl. repeat split; lia. Qed.

Lemma hl_check_guess_inv (s : state) :
  inv s -> button_enabled s = true -> inv (check_guess s).
Proof.
  intros (Ht & Hl & Ha & He & Hb) Hon.
  assert (Hnc : existsb is_correct (log_text s) = false)
    by (rewrite Hon in Hb; by destruct (existsb _ _)).
  destruct (py_int (guess_entry s)) as [g|] eqn:Hg;
    [destruct (decide (1 <= g <= 100)) as [Hr|Hr]|].
  - rewrite (check_guess_valid s g Hg Hr).
    unfold inv; repeat zcase; simpl; rewrite ?filter_snoc, ?existsb_snoc, Hnc; simpl;
      repeat split; lia || congruence.
  - destruct (check_guess_rejected s) as (m & Hm1 & Hm2 & ->); [right; eauto|].
    unfold inv; simpl. rewrite filter_snoc, existsb_snoc, Hm1, Hm2, orb_false_r, Hnc, Hon.
    repeat split; lia || congruence.
  - destruct (check_guess_rejected s) as (m & Hm1 & Hm2 & ->); [by left|].
    unfold inv; simpl. rewrite filter_snoc, existsb_snoc, Hm1, Hm2, orb_false_r, Hnc, Hon.
    repeat split; lia || congruence.
Qed.

Lemma hl_handle_inv (e : event) (s : state) : inv s -> valid_event e -> inv (handle e s).
Proof.
  intros Hi Hv. destruct e as [txt| |t]; simpl.
  - assert (inv {| s with guess_entry := txt |}) by (unfold inv in *; simpl; tauto).
    by destruct (entry_enabled s).
  - destruct (button_enabled s) eqn:Hb; [by apply hl_check_guess_inv|done].
  - by apply hl_start_game_inv.
Qed.

Lemma guess_with_valid (s : state) (g : Z) :
  inv s -> button_enabled s = true -> 1 <= g <= 100 ->
  inv (guess_with (py_str_int g) s) /\
  target_number (guess_with (py_str_int g) s) = target_number s /\
  attempts (guess_with (py_str_int g) s) = attempts s + 1 /\
  (g = target_number s -> button_enabled (guess_with (py_str_int g) s) = false /\
     last (log_text (guess_with (py_str_int g) s)) = Some (MsgCorrect g (attempts s + 1))) /\
  (g < target_number s -> button_enabled (guess_with (py_str_int g) s) = true /\
     last (log_text (guess_with (py_str_int g) s)) = Some (MsgHigher g)) /\
  (target_number s < g -> button_enabled (guess_with (py_str_int g) s) = true /\
     last (log_text (guess_with (py_str_int g) s)) = Some (MsgLower g)).
Proof.
  intros Hi Hon Hr.
  destruct s as [t a l st e en bn]; simpl in *. subst bn.
  assert (en = true) as -> by (destruct Hi as (_ & _ & _ & He & _); exact He).
  assert (Hi0 : inv (mkState t a l st (py_str_int g) true true)) by (unfold inv in *; simpl in *; tauto).
  unfold guess_with; simpl. split; [by apply hl_check_guess_inv|].
  rewrite (check_guess_valid _ g) by (simpl; apply py_int_str || lia).
  simpl. repeat zcase; simpl; rewrite ?last_snoc; repeat split; intros; try done; try lia; by subst.
Qed.

(** Bisection halves the interval that holds the secret: an interval of
    fewer than [2 ^ n] numbers inside 1..100 is searched in [n] guesses. *)
Lemma bisect_wins (n : nat) (lo hi : Z) (s : state) :
  inv s -> button_enabled s = true ->
  1 <= lo -> hi <= 100 -> lo <= target_number s <= hi -> hi - lo + 1 < 2 ^ Z.of_nat n ->
  inv (bisect n lo hi s) /\ target_number (bisect n lo hi s) = target_number s /\
  button_enabled (bisect n lo hi s) = false /\
  attempts (bisect n lo hi s) <= attempts s + Z.of_nat n.
Proof.
  revert lo hi s. induction n as [|n IH]; intros lo hi s Hi Hon Hlo Hhi Ht Hsz.
  { simpl in Hsz. lia. }
  rewrite Nat2Z.inj_succ, Z.pow_succ_r in Hsz by lia.
  simpl. rewrite Hon.
  assert (Hm : lo <= (lo + hi) / 2 <= hi) by (split; [apply Z.div_le_lower_bound|apply Z.div_le_upper_bound]; lia).
  destruct (guess_with_valid s ((lo + hi) / 2) Hi Hon ltac:(lia))
    as (Hi' & Ht' & Ha' & Heq & Hlt & Hgt).
  destruct (Z.lt_trichotomy ((lo + hi) / 2) (target_number s)) as [Hc|[Hc|Hc]].
  - destruct (Hlt Hc) as [Hon' ->].
    destruct (IH ((lo + hi) / 2 + 1) hi _ Hi' Hon') as (? & ? & ? & ?); try lia.
    + pose proof (Z.mul_div_le (lo + hi) 2). pose proof (Z.mod_pos_bound (lo + hi) 2).
      pose proof (Z.div_mod (lo + hi) 2). lia.
    + split; [done|]. repeat split; lia || congruence.
  - destruct (Heq Hc) as [Hoff ->]. split; [done|]. repeat split; lia || congruence.
  - destruct (Hgt Hc) as [Hon' ->].
    destruct (IH lo ((lo + hi) / 2 - 1) _ Hi' Hon') as (? & ? & ? & ?); try lia.
    + pose proof (Z.mul_div_le (lo + hi) 2). pose proof (Z.mod_pos_bound (lo + hi) 2).
      pose proof (Z.div_mod (lo + hi) 2). lia.
    + split; [done|]. repeat split; lia || congruence.
Qed.

(** * Theorems *)

Lemma hl_reachable_wf (s : state) : reachable s -> inv s.
Proof.
  revert s. apply reachable_from_inv; [intros ? (t & Ht & ->); by apply hl_start_game_inv|].
  intros s e Hi Hv. by apply hl_handle_inv.
Qed.

(** C25 (invariant): on every reachable page the secret is in 1..100, the
    counter and the status label both equal the number of counted
    attempts in the log since the last New Game, the entry and the button
    are enabled together, and they are enabled exactly while the log has
    no "Correct!" line. *)
Theorem hl_reachable_inv (s : state) : reachable s -> inv s.
Proof. apply hl_reachable_wf; assumption. Qed.

(** C26 (functional): a guess in 1..100 is counted once and answered by
    exactly one log line: "Higher!" when it is below the secret, "Lower!"
    when it is above, and "Correct!" with the attempt count when it is
    the secret, which also disables the input; other text adds one line
    that is not counted. *)
Theorem hl_check_guess (s : state) (g : Z) :
  py_int (guess_entry s) = Some g -> 1 <= g <= 100 ->
  let s' := check_guess s in
  attempts s' = attempts s + 1 /\ status_label s' = attempts s + 1 /\
  exists m, log_text s' = log_text s ++ [m] /\
    (m = MsgHigher g <-> g < target_number s) /\
    (m = MsgLower g <-> target_number s < g) /\
    (m = MsgCorrect (target_number s) (attempts s + 1) <-> g = target_number s) /\
    (button_enabled s' = false <-> g = target_number s \/ button_enabled s = false).
Proof.
  intros Hg Hr s'. subst s'. rewrite (check_guess_valid s g Hg Hr).
  repeat zcase; simpl; (split; [done|]); (split; [done|]); eexists; (split; [reflexivity|]);
    repeat split; intros; try (congruence || lia); destruct (button_enabled s); intuition (congruence || lia).
Qed.

(** C27 (liveness): the hints are enough to win.  From every reachable
    page with the input enabled, a player who bisects 1..100 by the hints
    hits the secret within 7 guesses, which ends the round. *)
Theorem bisect_seven (s : state) :
  reachable s -> button_enabled s = true ->
  button_enabled (bisect 7 1 100 s) = false /\
  attempts (bisect 7 1 100 s) <= attempts s + 7 /\
  existsb is_correct (log_text (bisect 7 1 100 s)) = true.
Proof.
  intros Hr Hon. pose proof (hl_reachable_wf s Hr) as Hi.
  destruct (bisect_wins 7 1 100 s Hi Hon) as (Hi' & _ & Hoff & Ha);
    [lia|lia|destruct Hi; lia|simpl; lia|].
  split; [done|]. split; [lia|].
  destruct Hi' as (_ & _ & _ & _ & Hb). rewrite Hoff in Hb. by destruct existsb.
Qed.

(** ** Witnesses *)

Lemma hl_reachable_inv_witness : inv (handle Guess (handle (TypeText "50") (init 73))).
Proof.
  apply hl_reachable_inv. apply (reach_step _ Guess); [|done].
  apply (reach_step _ (TypeText "50")); [apply hl_reachable_init; lia|done].
Defined.

Lemma hl_check_guess_witness :
  let s := handle (TypeText " 80") (init 73) in
  let s' := check_guess s in
  attempts s' = attempts s + 1 /\ status_label s' = attempts s + 1 /\
  exists m, log_text s' = (log_text s ++ [m])%list /\
    (m = MsgHigher 80 <-> 80 < target_number s) /\
    (m = MsgLower 80 <-> target_number s < 80) /\
    (m = MsgCorrect (target_number s) (attempts s + 1) <-> 80 = target_number s) /\
    (button_enabled s' = false <-> 80 = target_number s \/ button_enabled s = false).
Proof. apply hl_check_guess; [reflexivity|lia]. Defined.

Lemma bisect_seven_witness :
  button_enabled (bisect 7 1 100 (init 73)) = false /\
  attempts (bisect 7 1 100 (init 73)) <= attempts (init 73) + 7 /\
  existsb is_correct (log_text (bisect 7 1 100 (init 73))) = true.
Proof. apply bisect_seven; [apply hl_reachable_init; lia|reflexivity]. Defined.

End HigherOrLower.
