(* ===== verification/Quiz.v ===== *)
(** * The Quiz ([QuizGameGUI], games_gui.py 655-750)

    The page keeps the loaded value [questions] (whatever
    [load_quiz_questions] returned: the parsed JSON is not checked), the
    index of the current question, the score, the labels, the answer
    entry and the Submit button.  [start_game] reloads the file and shows
    the first question (or the "No questions" message); [submit_answer]
    compares the trimmed, lower-cased answer with the question's answer,
    scores it, advances the index and schedules [show_next_question] with
    [self.after(1000, ...)]; [show_next_question] shows the question at
    the index or calls [end_game], which shows the final score and
    disables the input.

    Every callback is a [PyM] computation, since [len], indexing, key
    lookup and [.strip()] raise on a value of the wrong shape.  The Tk
    timer queue is the field [pending]: the number of scheduled
    [show_next_question] calls, which all run the same bound method; the
    [Timer] event fires the oldest one.  Nothing cancels them, so a
    [NewGame] keeps them.  A disabled [tk.Entry] ignores [delete], which
    [entry_delete] writes out. *)

From stdpp Require Import base list.
From Stdlib Require Import String ZArith Lia.
From S2P Require Import Prelude PyStr Loaders.

Local Open Scope string_scope.
Local Open Scope Z_scope.
Local Open Scope py_scope.

Module Quiz.

(** The text of [question_label]. *)
Inductive question_text : Type :=
  | QBlank
  | QText (number : Z) (question : json)   (** "Q{number}: {question}" *)
  | QNoQuestions                          (** "No questions loaded. Check quiz_data.json." *)
  | QFinished (score n : Z).              (** "Quiz Finished! Your final score is: {score}/{n}" *)

Inductive feedback_text : Type :=
  | FBlank
  | FCorrect                              (** "Correct!" in green *)
  | FWrong (answer : string).             (** "Wrong! Answer: {answer}" in red *)

Record state : Type := mkState {
  questions : json;
  current_question_index : Z;
  score : Z;
  score_label : string;
  question_label : question_text;
  answer_entry : string;
  entry_enabled : bool;
  button_enabled : bool;                  (** [submit_button] *)
  feedback_label : feedback_text;
  pending : nat                           (** scheduled [show_next_question] calls *)
}.

Definition score_text (k n : Z) : string :=
  "Score: " ++ py_str_int k ++ "/" ++ py_str_int n.

Definition final_score_text (k n : Z) : string :=
  "Final Score: " ++ py_str_int k ++ "/" ++ py_str_int n.

(** [answer_entry.delete(0, tk.END)]: no effect on a disabled entry. *)
Definition entry_delete (s : state) : state :=
  if entry_enabled s then {| s with answer_entry := EmptyString |} else s.

Definition end_game : PyM state unit :=
  s <- py_get ;;
  n <- py_lift (py_len (questions s)) ;;
  py_modify (fun s => {| s with question_label := QFinished (score s) n;
                                score_label := final_score_text (score s) n;
                                button_enabled := false; entry_enabled := false |}).

Definition show_next_question : PyM state unit :=
  s <- py_get ;;
  n <- py_lift (py_len (questions s)) ;;
  if current_question_index s <? n then
    q_data <- py_lift (py_index (questions s) (current_question_index s)) ;;
    q <- py_lift (py_key q_data "question") ;;
    py_modify (fun s => {| s with question_label := QText (current_question_index s + 1) q |}) ;;
    py_modify (fun s => {| s with score_label := score_text (score s) n |}) ;;
    py_modify entry_delete ;;
    py_modify (fun s => {| s with feedback_label := FBlank |})
  else end_game.

(** [user_answer == correct_answer] after [.strip().lower()] on both. *)
Definition answer_matches (user answer : string) : bool :=
  String.eqb (py_lower (py_strip user)) (py_lower (py_strip answer)).

Definition submit_answer : PyM state unit :=
  s <- py_get ;;
  n <- py_lift (py_len (questions s)) ;;
  if n <=? current_question_index s then return!
  else
    q_data <- py_lift (py_index (questions s) (current_question_index s)) ;;
    let user_answer := py_lower (py_strip (answer_entry s)) in
    a <- py_lift (py_key q_data "answer") ;;
    ca <- py_lift (py_strip_json a) ;;
    let correct_answer := py_lower ca in
    py_modify (fun s =>
      if String.eqb user_answer correct_answer
      then {| s with score := score s + 1; feedback_label := FCorrect |}
      else {| s with feedback_label := FWrong correct_answer |}) ;;
    py_modify (fun s => {| s with current_question_index := current_question_index s + 1 |}) ;;
    py_modify (fun s => {| s with pending := S (pending s) |}).

(** [start_game], with [f] what reading [quiz_data.json] gives this time. *)
Definition start_game (f : file_read) : PyM state unit :=
  py_modify (fun s => {| s with questions := load_quiz_questions f;
                                current_question_index := 0; score := 0 |}) ;;
  py_modify (fun s => {| s with button_enabled := true; entry_enabled := true;
                                feedback_label := FBlank |}) ;;
  s <- py_get ;;
  if py_truthy (questions s) then show_next_question
  else py_modify (fun s => {| s with question_label := QNoQuestions; button_enabled := false |}).

Definition init_attrs : state :=
  {| questions := JArr []; current_question_index := 0; score := 0;
     score_label := "Score: 0/0"; question_label := QBlank; answer_entry := EmptyString;
     entry_enabled := true; button_enabled := true; feedback_label := FBlank; pending := 0 |}.

(** [__init__] ends with [start_game]; an exception there propagates out
    of the constructor, and so out of [GameApp.__init__]. *)
Definition init (f : file_read) : outcome unit * state := start_game f init_attrs.

(** ** The page as a state machine *)

Inductive event : Type :=
  | TypeAnswer (txt : string)
  | Submit
  | Timer                                 (** the oldest [after] callback fires *)
  | NewGame (f : file_read).

Definition handle_m (e : event) : PyM state unit :=
  match e with
  | TypeAnswer txt =>
      py_modify (fun s => if entry_enabled s then {| s with answer_entry := txt |} else s)
  | Submit => s <- py_get ;; if button_enabled s then submit_answer else return!
  | Timer =>
      s <- py_get ;;
      match pending s with
      | O => return!
      | S p => py_modify (fun s => {| s with pending := p |}) ;; show_next_question
      end
  | NewGame f => start_game f
  end.

(** Tk reports an exception of a callback and keeps the state it left. *)
Definition handle (e : event) (s : state) : state := exec (handle_m e) s.

(** The pages reachable when every read of the file gives an [ok] result. *)
Definition reachable (ok : file_read -> bool) : state -> Prop :=
  reachable_from (fun s => exists f, ok f = true /\ init f = (Ret tt, s))
    (fun e => forall f, e = NewGame f -> ok f = true) handle.

(** ** Well-formed question files *)

(** The shape the spec gives a question file: a list of records with a
    [question] and a string [answer]. *)
Definition good_question (j : json) : bool :=
  match j with
  | JObj m =>
      match obj_lookup m "question", obj_lookup m "answer" with
      | Some _, Some (JStr _) => true
      | _, _ => false
      end
  | _ => false
  end.

Definition q_answer (j : json) : option string :=
  match j with
  | JObj m => match obj_lookup m "answer" with Some (JStr a) => Some a | _ => None end
  | _ => None
  end.

Definition good_file (f : file_read) : bool :=
  match load_quiz_questions f with
  | JArr qs => forallb good_question qs
  | _ => false
  end.

(** The invariant of a page that only ever read well-formed files. *)
Definition inv (s : state) : Prop :=
  exists qs, questions s = JArr qs /\ Forall (fun q => good_question q = true) qs /\
    0 <= score s <= current_question_index s /\
    current_question_index s <= Z.of_nat (List.length qs).

(** ** Lemmas: the callbacks on a list of questions *)

Lemma py_len_list (qs : list json) : py_len (JArr qs) = Ret (Z.of_nat (List.length qs)).
Proof. reflexivity. Qed.

Lemma py_index_list (qs : list json) (i : Z) (q : json) :
  0 <= i -> qs !! Z.to_nat i = Some q -> py_index (JArr qs) i = Ret q.
Proof.
  intros Hi Hq. unfold py_index. pose proof (lookup_lt_Some _ _ _ Hq).
  rewrite <- (Z2Nat.id i Hi), py_getitem_in, Hq by lia. reflexivity.
Qed.

Lemma good_question_key (q : json) :
  good_question q = true ->
  (exists qt, py_key q "question" = Ret qt) /\
  (exists a, py_key q "answer" = Ret (JStr a) /\ q_answer q = Some a).
Proof.
  destruct q as [| | | | |m]; try discriminate. simpl.
  destruct (obj_lookup m "question"), (obj_lookup m "answer") as [[]|]; try discriminate.
  intros _. eauto.
Qed.

Lemma q_answer_key (q : json) (a : string) :
  q_answer q = Some a -> py_key q "answer" = Ret (JStr a).
Proof.
  destruct q as [| | | | |m]; try discriminate. simpl.
  destruct (obj_lookup m "answer") as [[]|]; simpl; congruence.
Qed.

Local Arguments py_len : simpl never.
Local Arguments py_index : simpl never.
Local Arguments py_key : simpl never.

Lemma show_next_in (s : state) (qs : list json) (q : json) :
  questions s = JArr qs -> 0 <= current_question_index s ->
  qs !! Z.to_nat (current_question_index s) = Some q -> good_question q = true ->
  exists qt, show_next_question s =
    (Ret tt, entry_delete {| s with question_label := QText (current_question_index s + 1) qt;
                                    score_label := score_text (score s) (Z.of_nat (List.length qs));
                                    feedback_label := FBlank |}).
Proof.
  intros Hq Hi Hl Hg. destruct (good_question_key q Hg) as [[qt Hqt] _].
  pose proof (lookup_lt_Some _ _ _ Hl).
  exists qt. unfold show_next_question. py_unfold. rewrite Hq, py_len_list. simpl.
  destruct (Z.ltb_spec (current_question_index s) (Z.of_nat (List.length qs))); [|lia].
  rewrite (py_index_list qs _ q Hi Hl), Hqt. unfold entry_delete. simpl.
  destruct (entry_enabled s); simpl; by rewrite ?Hq.
Qed.

Lemma show_next_end (s : state) (qs : list json) :
  questions s = JArr qs -> Z.of_nat (List.length qs) <= current_question_index s ->
  show_next_question s =
    (Ret tt, {| s with question_label := QFinished (score s) (Z.of_nat (List.length qs));
                       score_label := final_score_text (score s) (Z.of_nat (List.length qs));
                       button_enabled := false; entry_enabled := false |}).
Proof.
  intros Hq Hi. unfold show_next_question, end_game. py_unfold. rewrite Hq, py_len_list. simpl.
  destruct (Z.ltb_spec (current_question_index s) (Z.of_nat (List.length qs))); [lia|].
  py_unfold. by rewrite Hq, py_len_list.
Qed.

Lemma submit_in (s : state) (qs : list json) (q : json) (a : string) :
  questions s = JArr qs -> 0 <= current_question_index s ->
  qs !! Z.to_nat (current_question_index s) = Some q -> q_answer q = Some a ->
  submit_answer s =
    (Ret tt, {| s with score := if answer_matches (answer_entry s) a then score s + 1 else score s;
                       feedback_label := if answer_matches (answer_entry s) a then FCorrect
                                         else FWrong (py_lower (py_strip a));
                       current_question_index := current_question_index s + 1;
                       pending := S (pending s) |}).
Proof.
  intros Hq Hi Hl Ha. pose proof (lookup_lt_Some _ _ _ Hl).
  unfold submit_answer. py_unfold. rewrite Hq, py_len_list. simpl.
  destruct (Z.leb_spec (Z.of_nat (List.length qs)) (current_question_index s)); [lia|].
  rewrite (py_index_list qs _ q Hi Hl), (q_answer_key q a Ha). simpl.
  unfold answer_matches. destruct (String.eqb _ _); simpl; by rewrite ?Hq.
Qed.

Lemma submit_end (s : state) (qs : list json) :
  questions s = JArr qs -> Z.of_nat (List.length qs) <= current_question_index s ->
  submit_answer s = (Ret tt, s).
Proof.
  intros Hq Hi. unfold submit_answer. py_unfold. rewrite Hq, py_len_list. simpl.
  by destruct (Z.leb_spec (Z.of_nat (List.length qs)) (current_question_index s)); [|lia].
Qed.

(** What [start_game] resets before it looks at the questions. *)
Definition reset (f : file_read) (s : state) : state :=
  {| s with questions := load_quiz_questions f; current_question_index := 0; score := 0;
            button_enabled := true; entry_enabled := true; feedback_label := FBlank |}.

Lemma start_game_reset (f : file_read) (s : state) :
  start_game f s =
    if py_truthy (load_quiz_questions f) then show_next_question (reset f s)
    else (Ret tt, {| (reset f s) with question_label := QNoQuestions; button_enabled := false |}).
Proof. unfold start_game. py_unfold. by destruct (py_truthy _). Qed.

(** A callback that returns normally and keeps the invariant. *)
Definition runs_ok (m : PyM state unit) (s : state) : Prop :=
  fst (m s) = Ret tt /\ inv (snd (m s)).

Lemma good_lookup (qs : list json) (i : Z) :
  Forall (fun q => good_question q = true) qs -> 0 <= i < Z.of_nat (List.length qs) ->
  exists q a, qs !! Z.to_nat i = Some q /\ good_question q = true /\ q_answer q = Some a.
Proof.
  intros Hall Hi. destruct (lookup_lt_is_Some_2 qs (Z.to_nat i)) as [q Hq]; [lia|].
  pose proof (Forall_lookup_1 _ _ _ _ Hall Hq) as Hg.
  destruct (good_question_key q Hg) as [_ (a & _ & Ha)]. eauto.
Qed.

Lemma show_next_ok (s : state) : inv s -> runs_ok show_next_question s.
Proof.
  intros (qs & Hq & Hall & Hs & Hi). unfold runs_ok.
  destruct (Z.lt_ge_cases (current_question_index s) (Z.of_nat (List.length qs))) as [Hlt|Hge].
  - destruct (good_lookup qs (current_question_index s) Hall ltac:(lia)) as (q & a & Hl & Hg & _).
    destruct (show_next_in s qs q Hq ltac:(lia) Hl Hg) as [qt ->].
    split; [done|]. exists qs. unfold entry_delete. by destruct (entry_enabled s).
  - rewrite (show_next_end s qs Hq Hge). split; [done|]. by exists qs.
Qed.

Lemma submit_ok (s : state) : inv s -> runs_ok submit_answer s.
Proof.
  intros (qs & Hq & Hall & Hs & Hi). unfold runs_ok.
  destruct (Z.lt_ge_cases (current_question_index s) (Z.of_nat (List.length qs))) as [Hlt|Hge].
  - destruct (good_lookup qs (current_question_index s) Hall ltac:(lia)) as (q & a & Hl & _ & Ha).
    rewrite (submit_in s qs q a Hq ltac:(lia) Hl Ha). split; [done|].
    exists qs. simpl. destruct (answer_matches _ _); repeat split; done || lia.
  - rewrite (submit_end s qs Hq Hge). split; [done|]. by exists qs.
Qed.

Lemma start_game_ok (f : file_read) (s : state) : good_file f = true -> runs_ok (start_game f) s.
Proof.
  unfold good_file. intros Hf. unfold runs_ok. rewrite start_game_reset.
  destruct (load_quiz_questions f) as [| | | |qs|] eqn:Hl; try discriminate.
  assert (Hr : inv (reset f s)).
  { exists qs. unfold reset; simpl. rewrite Hl. split; [done|].
    split; [by apply Forall_forall; intros q Hq%list_elem_of_In; apply (proj1 (forallb_forall _ _) Hf)|lia]. }
  destruct (py_truthy (JArr qs)); [by apply show_next_ok|].
  split; [done|]. destruct Hr as (qs' & ? & ? & ?). by exists qs'.
Qed.

Lemma handle_ok (e : event) (s : state) :
  inv s -> (forall f, e = NewGame f -> good_file f = true) -> runs_ok (handle_m e) s.
Proof.
  intros Hi He. destruct e as [txt| | |f]; unfold runs_ok, handle_m, py_bind, py_get, py_ret, py_modify; cbv beta iota.
  - split; [done|]. destruct Hi as (qs & ? & ? & ?). exists qs. by destruct (entry_enabled s).
  - destruct (button_enabled s); [by apply submit_ok|done].
  - destruct (pending s) as [|p]; [done|].
    apply show_next_ok. destruct Hi as (qs & ? & ? & ?). by exists qs.
  - by apply start_game_ok, He.
Qed.

(** ** A quiz played to the end *)

(** Typing an answer, submitting it, and the delayed
    [show_next_question] firing. *)
Definition answer_round (a : string) (s : state) : state :=
  handle Timer (handle Submit (handle (TypeAnswer a) s)).

Definition play_quiz (answers : list string) (s : state) : state :=
  foldl (fun s a => answer_round a s) s answers.

(** The number of answers that match their question's answer. *)
Fixpoint count_correct (answers : list string) (qs : list json) : Z :=
  match answers, qs with
  | a :: answers', q :: qs' =>
      match q_answer q with
      | Some ans => if answer_matches a ans then 1 else 0
      | None => 0
      end + count_correct answers' qs'
  | _, _ => 0
  end.

(** The page shows question [i] of [qs] and waits for an answer. *)
Definition showing (qs : list json) (i : Z) (s : state) : Prop :=
  questions s = JArr qs /\ current_question_index s = i /\ pending s = 0%nat /\
  button_enabled s = true /\ entry_enabled s = true /\ 0 <= i < Z.of_nat (List.length qs).

(** The terminal page of a quiz of [n] questions with the given score. *)
Definition finished (n : Z) (s : state) : Prop :=
  question_label s = QFinished (score s) n /\ score_label s = final_score_text (score s) n /\
  button_enabled s = false /\ entry_enabled s = false.

Lemma answer_round_step (qs : list json) (i : Z) (s : state) (q : json) (ans a : string) :
  Forall (fun q => good_question q = true) qs -> showing qs i s ->
  qs !! Z.to_nat i = Some q -> q_answer q = Some ans ->
  score (answer_round a s) = score s + (if answer_matches a ans then 1 else 0) /\
  (i + 1 < Z.of_nat (List.length qs) -> showing qs (i + 1) (answer_round a s)) /\
  (i + 1 = Z.of_nat (List.length qs) -> finished (Z.of_nat (List.length qs)) (answer_round a s)).
Proof.
  intros Hall (Hq & Hi & Hp & Hb & He & Hr) Hl Ha.
  destruct s as [qj idx sc sl ql ae en bn fb pn]; simpl in *; subst.
  pose proof (lookup_lt_Some _ _ _ Hl).
  set (s3 := mkState (JArr qs) (i + 1) (if answer_matches a ans then sc + 1 else sc) sl ql a
                     true true (if answer_matches a ans then FCorrect else FWrong (py_lower (py_strip ans))) 0).
  assert (E3 : answer_round a (mkState (JArr qs) i sc sl ql ae true true fb 0) =
               snd (show_next_question s3)).
  { unfold answer_round, handle, exec, handle_m, py_modify, py_bind, py_get. simpl.
    rewrite (submit_in _ qs q ans); [|done|simpl; lia|done|done]. simpl.
    subst s3. by destruct (answer_matches a ans). }
  assert (Hq : questions s3 = JArr qs) by done.
  rewrite E3. split; [|split].
  - destruct (Z.lt_ge_cases (i + 1) (Z.of_nat (List.length qs))) as [Hlt|Hge].
    + destruct (good_lookup qs (i + 1) Hall ltac:(lia)) as (q' & a' & Hl' & Hg' & _).
      destruct (show_next_in s3 qs q' Hq ltac:(simpl; lia) Hl' Hg') as [qt ->].
      unfold entry_delete. simpl. simpl. destruct (answer_matches a ans); simpl; lia.
    + rewrite (show_next_end s3 qs Hq ltac:(simpl; lia)). simpl. destruct (answer_matches a ans); simpl; lia.
  - intros Hlt. destruct (good_lookup qs (i + 1) Hall ltac:(lia)) as (q' & a' & Hl' & Hg' & _).
    destruct (show_next_in s3 qs q' Hq ltac:(simpl; lia) Hl' Hg') as [qt ->].
    unfold entry_delete. simpl. repeat split; done || lia.
  - intros Heq. rewrite (show_next_end s3 qs Hq ltac:(simpl; lia)). simpl.
    repeat split; by rewrite ?Heq.
Qed.

Lemma play_quiz_finishes (qs : list json) (answers : list string) (i : Z) (s : state) :
  Forall (fun q => good_question q = true) qs -> showing qs i s ->
  Z.of_nat (List.length answers) = Z.of_nat (List.length qs) - i ->
  finished (Z.of_nat (List.length qs)) (play_quiz answers s) /\
  score (play_quiz answers s) = score s + count_correct answers (drop (Z.to_nat i) qs).
Proof.
  revert i s. induction answers as [|a answers IH]; intros i s Hall Hs Hlen.
  { destruct Hs as (_ & _ & _ & _ & _ & Hr). simpl in Hlen. lia. }
  destruct (good_lookup qs i Hall ltac:(destruct Hs as (_ & _ & _ & _ & _ & Hr); lia))
    as (q & ans & Hl & _ & Ha).
  destruct (answer_round_step qs i s q ans a Hall Hs Hl Ha) as (Hsc & Hnext & Hend).
  rewrite (drop_S qs q (Z.to_nat i) Hl). simpl. rewrite Ha.
  rewrite length_cons, Nat2Z.inj_succ in Hlen.
  destruct answers as [|a' answers'].
  - simpl in *. split; [apply Hend; lia|]. lia.
  - destruct (IH (i + 1) (answer_round a s)) as [Hf Hsc']; [done|apply Hnext; rewrite length_cons in Hlen; lia|lia|].
    split; [done|]. rewrite Hsc', Hsc. replace (Z.to_nat (i + 1)) with (S (Z.to_nat i)) by (destruct Hs as (_ & _ & _ & _ & _ & Hr); lia).
    lia.
Qed.

(** [start_game] on a non-empty list of well-formed questions shows the
    first one. *)
Lemma start_game_showing (qs : list json) (f : file_read) (s : state) :
  load_quiz_questions f = JArr qs -> qs <> [] -> Forall (fun q => good_question q = true) qs ->
  fst (start_game f s) = Ret tt /\
  (pending s = 0%nat -> showing qs 0 (snd (start_game f s))) /\
  score (snd (start_game f s)) = 0 /\ pending (snd (start_game f s)) = pending s.
Proof.
  intros Hl Hne Hall. rewrite start_game_reset, Hl.
  destruct qs as [|q0 qs']; [done|]. simpl py_truthy. cbv iota.
  destruct (good_lookup (q0 :: qs') 0 Hall ltac:(simpl; lia)) as (q & a & Hq & Hg & _).
  destruct (show_next_in (reset f s) (q0 :: qs') q ltac:(unfold reset; simpl; by rewrite Hl)
              ltac:(simpl; lia) Hq Hg) as [qt ->].
  unfold entry_delete, reset, showing. simpl. rewrite Hl. repeat split; intros; try done; lia.
Qed.

Lemma remove_dups_cons_nonempty {A} `{EqDecision A} (x : A) (l : list A) :
  remove_dups (x :: l) <> [].
Proof.
  intros E. assert (Hx : x ∈ remove_dups (x :: l)) by (apply elem_of_remove_dups; left).
  rewrite E in Hx. by apply elem_of_nil in Hx.
Qed.

Lemma quiz_reachable_inv (s : state) : reachable good_file s -> inv s.
Proof.
  revert s. apply reachable_from_inv; [|intros s e IH He; apply (handle_ok e s IH He)].
  intros s (f & Hf & Hinit).
  destruct (start_game_ok f init_attrs Hf) as [_ Hi]. unfold init in Hinit. by rewrite Hinit in Hi.
Qed.

(** What [start_game] raises, by the shape of the loaded value. *)
Lemma start_game_raised (f : file_read) (s : state) :
  raised (start_game f) s =
    if py_truthy (load_quiz_questions f) then
      match load_quiz_questions f with
      | JArr (JObj m :: _) =>
          match obj_lookup m "question" with Some _ => None | None => Some KeyError end
      | JObj _ => Some KeyError
      | _ => Some TypeError
      end
    else None.
Proof.
  unfold raised. rewrite start_game_reset. destruct (py_truthy _) eqn:Ht; [|done].
  unfold show_next_question, end_game, reset, py_len, py_index, py_key. py_unfold.
  destruct (load_quiz_questions f) as [|b|n|str|[|q rest]|[|[k v] m]]; simpl in Ht |- *;
    try discriminate; try reflexivity.
  - by destruct str as [|c str].
  - destruct q as [| | | | |m]; try reflexivity. simpl.
    by destruct (obj_lookup m "question").
  - assert (Hn : 0 < Z.of_nat (List.length (dict_keys ((k, v) :: m)))).
    { unfold dict_keys. pose proof (remove_dups_cons_nonempty k (fst <$> m)) as Hd.
      destruct (remove_dups _); [done|]. simpl. lia. }
    destruct (Z.ltb_spec 0 (Z.of_nat (List.length (dict_keys ((k, v) :: m))))); [reflexivity|lia].
Qed.

(** * Theorems *)

(** C28 (safety): while every read of the question file gives a list of
    records with a [question] and a string [answer], no callback of the
    page ever raises, whatever the user does and however the delayed
    [show_next_question] calls interleave with it. *)
Theorem quiz_never_raises (s : state) (e : event) :
  reachable good_file s -> (forall f, e = NewGame f -> good_file f = true) ->
  raised (handle_m e) s = None.
Proof.
  intros Hr%quiz_reachable_inv He. destruct (handle_ok e s Hr He) as [Hret _].
  unfold raised. by rewrite Hret.
Qed.

(** C29 (bounds): on every page reached with well-formed files,
    [0 <= self.score <= self.current_question_index <= len(self.questions)],
    so the labels ["Score: k/n"] and ["Final Score: k/n"] never show
    more right answers than questions. *)
Theorem quiz_score_bounds (s : state) :
  reachable good_file s ->
  exists qs, questions s = JArr qs /\
    0 <= score s <= current_question_index s /\
    current_question_index s <= Z.of_nat (List.length qs).
Proof. intros (qs & Hq & _ & Hb)%quiz_reachable_inv. by exists qs. Qed.

(** C30 (functional): a quiz of [n] well-formed questions answered in turn
    (type, Submit, wait for the next question) ends on the terminal page,
    with the input disabled and both labels showing [k/n], where [k] is
    the number of answers that equal their question's answer after
    [strip] and [lower]. *)
Theorem quiz_final_score (qs : list json) (answers : list string) :
  Forall (fun q => good_question q = true) qs -> qs <> [] -> List.length answers = List.length qs ->
  let s := play_quiz answers (snd (init (Parsed (JArr qs)))) in
  let k := count_correct answers qs in
  let n := Z.of_nat (List.length qs) in
  fst (init (Parsed (JArr qs))) = Ret tt /\
  score_label s = final_score_text k n /\ question_label s = QFinished k n /\
  button_enabled s = false /\ entry_enabled s = false.
Proof.
  intros Hall Hne Hlen s k n.
  destruct (start_game_showing qs (Parsed (JArr qs)) init_attrs eq_refl Hne Hall)
    as (Hret & Hsh & Hsc & _).
  destruct (play_quiz_finishes qs answers 0 _ Hall (Hsh eq_refl) ltac:(lia)) as ((Hq & Hl & Hb & He) & Hscore).
  rewrite Hsc in Hscore. simpl in Hscore. subst s k n. unfold init.
  rewrite Hq, Hl, Hscore. by repeat split.
Qed.

(** C31 (functional): Submit stays enabled while the feedback is shown, so
    a second press before the delayed [show_next_question] grades the
    same typed answer against the next question, which is never shown:
    the index moves by two, two calls are pending, and the question label
    still shows the first question. *)
Theorem double_submit_skips (qs : list json) (i : Z) (s : state) (q q' : json) (ans ans' : string) :
  showing qs i s -> i + 1 < Z.of_nat (List.length qs) ->
  qs !! Z.to_nat i = Some q -> qs !! Z.to_nat (i + 1) = Some q' ->
  q_answer q = Some ans -> q_answer q' = Some ans' ->
  let s2 := handle Submit (handle Submit s) in
  current_question_index s2 = i + 2 /\ pending s2 = 2%nat /\
  question_label s2 = question_label s /\ button_enabled s2 = true /\
  score s2 = score s + (if answer_matches (answer_entry s) ans then 1 else 0)
                     + (if answer_matches (answer_entry s) ans' then 1 else 0).
Proof.
  intros (Hq & Hi & Hp & Hb & He & Hr) Hn Hl Hl' Ha Ha' s2.
  destruct s as [qj idx sc sl ql ae en bn fb pn]; simpl in *; subst.
  subst s2. unfold handle, exec, handle_m, py_bind, py_get. simpl.
  rewrite (submit_in _ qs q ans); [|done|simpl; lia|done|done]. simpl.
  rewrite (submit_in _ qs q' ans'); [|done|simpl; lia|done|done]. simpl.
  destruct (answer_matches ae ans), (answer_matches ae ans'); repeat split; lia.
Qed.

(** C32 (error): [load_quiz_questions] returns whatever JSON the file
    holds unchecked, and [start_game] raises exactly when that value is
    truthy and is not a list whose first item is a dict with a
    ["question"] key: a non-empty dict raises [KeyError] at
    [questions[0]], a first item that is a dict without ["question"]
    raises [KeyError], and every other truthy value (a number, [true], a
    string, a list whose first item is not a dict) raises [TypeError]. *)
Theorem start_game_raises (f : file_read) (s : state) :
  (raised (start_game f) s = None <->
     py_truthy (load_quiz_questions f) = false \/
     exists m qt rest, load_quiz_questions f = JArr (JObj m :: rest) /\ obj_lookup m "question" = Some qt) /\
  (raised (start_game f) s = None \/ raised (start_game f) s = Some KeyError \/
   raised (start_game f) s = Some TypeError).
Proof.
  rewrite start_game_raised.
  destruct (load_quiz_questions f) as [|b|n|str|[|q rest]|[|km m]]; simpl;
    [| destruct b | destruct (n =? 0)%Z | destruct (str =? "")%string | |
     destruct q as [| | | | |m]; [..| destruct (obj_lookup m "question") eqn:Eq] | |]; simpl;
    naive_solver.
Qed.

(** when the file gives no questions (a missing, unreadable
    or undecodable file, or an empty list), [start_game] shows the
    diagnostic and disables Submit, but leaves the answer entry enabled
    and the score label as it was. *)
Theorem no_questions_entry_enabled (f : file_read) (s : state) :
  load_quiz_questions f = JArr [] ->
  let s' := snd (start_game f s) in
  fst (start_game f s) = Ret tt /\ question_label s' = QNoQuestions /\
  button_enabled s' = false /\ entry_enabled s' = true /\ score_label s' = score_label s.
Proof. intros Hl s'. subst s'. rewrite start_game_reset, Hl. by repeat split. Qed.

(** C33 (functional): New Game does not cancel the [show_next_question]
    calls still pending from the previous game: the first one to fire
    re-shows the first question and erases the answer the player has
    started typing. *)
Theorem stale_timer_clears_answer (f : file_read) (qs : list json) (s : state) (txt : string) :
  load_quiz_questions f = JArr qs -> qs <> [] -> Forall (fun q => good_question q = true) qs ->
  pending s <> 0%nat ->
  let s1 := handle (TypeAnswer txt) (handle (NewGame f) s) in
  answer_entry s1 = txt /\ current_question_index s1 = 0 /\
  answer_entry (handle Timer s1) = EmptyString /\ current_question_index (handle Timer s1) = 0 /\
  pending (handle Timer s1) = Nat.pred (pending s).
Proof.
  intros Hl Hne Hall Hp s1.
  destruct (good_lookup qs 0 Hall ltac:(destruct qs; [done|simpl; lia])) as (q & a & Hq & Hg & _).
  assert (Hr : questions (reset f s) = JArr qs) by (unfold reset; simpl; by rewrite Hl).
  destruct (show_next_in (reset f s) qs q Hr ltac:(simpl; lia) Hq Hg) as [qt Hshow].
  assert (E0 : handle (NewGame f) s = snd (show_next_question (reset f s))).
  { unfold handle, exec. simpl handle_m. rewrite start_game_reset, Hl.
    destruct qs; [done|]. reflexivity. }
  rewrite Hshow in E0. unfold entry_delete in E0. simpl in E0. rewrite Hl in E0.
  destruct (pending s) as [|p] eqn:Hps; [done|].
  set (t := {| questions := JArr qs; current_question_index := 0; score := 0;
               score_label := score_text 0 (Z.of_nat (List.length qs));
               question_label := QText (0 + 1) qt; answer_entry := txt; entry_enabled := true;
               button_enabled := true; feedback_label := FBlank; pending := p |}).
  assert (E1 : s1 = {| t with pending := S p |}) by (subst s1; rewrite E0; reflexivity).
  assert (E2 : handle Timer s1 = snd (show_next_question t)) by (rewrite E1; reflexivity).
  destruct (show_next_in t qs q eq_refl ltac:(simpl; lia) Hq Hg) as [qt' E3].
  rewrite E2, E3, E1. by repeat split.
Qed.

(** ** Witnesses *)

Definition question (q a : string) : json := JObj [("question", JStr q); ("answer", JStr a)].

(** The example of the spec: three questions. *)
Definition sample : list json :=
  [question "2+2?" "4"; question "Capital of France?" " Paris"; question "Color of the sky?" "blue"].

Definition sample_file : file_read := Parsed (JArr sample).

Lemma sample_good : Forall (fun q => good_question q = true) sample.
Proof. repeat constructor. Qed.

Definition sample_page : state := snd (init sample_file).

Lemma sample_page_reachable : reachable good_file sample_page.
Proof.
  apply reach_init. exists sample_file. split; [reflexivity|].
  unfold sample_page. vm_compute. reflexivity.
Qed.

(** The page after one right answer, before the next question shows. *)
Definition answered_page : state := handle Submit (handle (TypeAnswer "4") sample_page).

Lemma answered_page_reachable : reachable good_file answered_page.
Proof.
  apply reach_step; [apply reach_step; [apply sample_page_reachable|]|]; intros f [=].
Qed.

Lemma quiz_never_raises_witness : raised (handle_m Timer) answered_page = None.
Proof. apply quiz_never_raises; [apply answered_page_reachable|intros f [=]]. Defined.

Lemma quiz_score_bounds_witness :
  exists qs, questions answered_page = JArr qs /\
    0 <= score answered_page <= current_question_index answered_page /\
    current_question_index answered_page <= Z.of_nat (List.length qs).
Proof. apply quiz_score_bounds, answered_page_reachable. Defined.

(** Two right answers out of three show "Final Score: 2/3". *)
Lemma quiz_final_score_witness :
  score_label (play_quiz ["4"; "PARIS "; "red"] sample_page) = "Final Score: 2/3".
Proof.
  destruct (quiz_final_score sample ["4"; "PARIS "; "red"] sample_good ltac:(discriminate) eq_refl)
    as (_ & Hl & _).
  unfold sample_page, sample_file. rewrite Hl. vm_compute. reflexivity.
Defined.

Lemma double_submit_skips_witness :
  let s := handle (TypeAnswer "4") sample_page in
  let s2 := handle Submit (handle Submit s) in
  current_question_index s2 = 0 + 2 /\ pending s2 = 2%nat /\
  question_label s2 = question_label s /\ button_enabled s2 = true /\
  score s2 = score s + (if answer_matches (answer_entry s) "4" then 1 else 0)
                     + (if answer_matches (answer_entry s) " Paris" then 1 else 0).
Proof.
  refine (double_submit_skips sample 0 _ (question "2+2?" "4") (question "Capital of France?" " Paris")
            "4" " Paris" _ _ eq_refl eq_refl eq_refl eq_refl); [|simpl; lia].
  unfold showing. repeat split; try (vm_compute; reflexivity); simpl; lia.
Defined.

Lemma no_questions_entry_enabled_witness :
  let s' := snd (start_game FileMissing init_attrs) in
  fst (start_game FileMissing init_attrs) = Ret tt /\ question_label s' = QNoQuestions /\
  button_enabled s' = false /\ entry_enabled s' = true /\ score_label s' = score_label init_attrs.
Proof. apply no_questions_entry_enabled. reflexivity. Defined.

Lemma stale_timer_clears_answer_witness :
  let s := handle Submit (handle (TypeAnswer "4") sample_page) in
  let s1 := handle (TypeAnswer "5") (handle (NewGame sample_file) s) in
  answer_entry s1 = "5" /\ current_question_index s1 = 0 /\
  answer_entry (handle Timer s1) = EmptyString /\ current_question_index (handle Timer s1) = 0 /\
  pending (handle Timer s1) = Nat.pred (pending s).
Proof.
  apply (stale_timer_clears_answer sample_file sample); [reflexivity|discriminate|exact sample_good|].
  vm_compute. discriminate.
Defined.

End Quiz.
