(* ===== verification/PageHost.v ===== *)
(** * The page host ([GameApp], games_gui.py 58-88) and its interface

    [GameApp.__init__] creates one frame per page class, registers it in
    the dictionary [self.frames] under the class name and grids it in the
    same cell of the container, so the frames are stacked and the one on
    top is the page the user sees.  [show_frame(page_name)] looks the
    frame up ([KeyError] for an unknown name) and raises it to the top
    with [tkraise]; [controller.quit] (the Exit button of the main menu)
    stops the main loop.

    The host is a [host]: the registered names as a [gset], the stacking
    order of the frames as a list from bottom to top, and whether the
    main loop runs.  [FrameHost] is the interface the pages use: a
    [show_frame] callback and the page on top; [FrameHostLaws] is what
    a page may rely on, and [PageHost] discharges it. *)

From stdpp Require Import base list gmap sets strings.
From Stdlib Require Import String ZArith Lia.
From S2P Require Import Prelude.

Local Open Scope string_scope.
Local Open Scope py_scope.

(** ** The interface between the pages and their controller *)

Class FrameHost (H : Type) := {
  host_show_frame : string -> PyM H unit;
  host_visible : H -> option string;
  host_registered : H -> string -> bool
}.

Class FrameHostLaws (H : Type) `{FrameHost H} := {
  (** Showing a registered page puts it on top and keeps the registry. *)
  show_frame_registered : forall n h, host_registered h n = true ->
    fst (host_show_frame n h) = Ret tt /\
    host_visible (snd (host_show_frame n h)) = Some n /\
    forall m, host_registered (snd (host_show_frame n h)) m = host_registered h m;
  (** Showing an unknown page raises [KeyError] and changes nothing. *)
  show_frame_unknown : forall n h, host_registered h n = false ->
    host_show_frame n h = (Exc KeyError, h)
}.

Module PageHost.

(** The page classes in the order of the loop of [GameApp.__init__]. *)
Definition page_names : list string :=
  ["MainMenu"; "NumberGuessingGUI"; "WordGuessingGUI"; "RockPaperScissorsGUI";
   "HigherOrLowerGUI"; "DiceRollingGUI"; "QuizGameGUI"; "TicTacToeGUI"].

Record host : Type := mkHost {
  frames : gset string;              (** the keys of [self.frames] *)
  stacking : list string;            (** the frames from bottom to top *)
  running : bool                     (** the main loop runs *)
}.

(** [frame.tkraise()]: the frame moves to the top of the stacking order. *)
Definition tkraise (name : string) (l : list string) : list string :=
  filter (fun n => n <> name) l ++ [name].

Definition show_frame (page_name : string) : PyM host unit :=
  h <- py_get ;;
  if decide (page_name ∈ frames h)
  then py_modify (fun h => {| h with stacking := tkraise page_name (stacking h) |})
  else py_raise KeyError.

(** The page the user sees: the frame on top. *)
Definition visible (h : host) : option string := last (stacking h).

(** [controller.quit]. *)
Definition quit (h : host) : host := {| h with running := false |}.

(** The loop of [GameApp.__init__]: each created frame is registered and
    stacked above the previous ones; then [show_frame("MainMenu")]. *)
Definition register_frames (names : list string) (h : host) : host :=
  foldl (fun h n => {| h with frames := {[ n ]} ∪ frames h; stacking := stacking h ++ [n] |})
    h names.

Definition init : outcome unit * host :=
  show_frame "MainMenu" (register_frames page_names {| frames := ∅; stacking := []; running := true |}).

#[export] Instance page_host : FrameHost host := {
  host_show_frame := show_frame;
  host_visible := visible;
  host_registered h n := bool_decide (n ∈ frames h)
}.

(** The invariant of the host: the stacking order holds every registered
    frame exactly once. *)
Definition inv (h : host) : Prop :=
  NoDup (stacking h) /\ (forall n, n ∈ stacking h <-> n ∈ frames h) /\
  frames h = list_to_set page_names.

(** ** Lemmas *)

Lemma tkraise_NoDup (n : string) (l : list string) : NoDup l -> NoDup (tkraise n l).
Proof.
  intros Hl. unfold tkraise. apply NoDup_app. split; [by apply NoDup_filter|]. split.
  - intros x Hx%list_elem_of_filter ->%list_elem_of_singleton. by destruct Hx.
  - apply NoDup_singleton.
Qed.

Lemma elem_of_tkraise (n x : string) (l : list string) :
  x ∈ tkraise n l <-> x = n \/ x ∈ l.
Proof.
  unfold tkraise. rewrite elem_of_app, list_elem_of_filter, list_elem_of_singleton.
  destruct (decide (x = n)); naive_solver.
Qed.

Lemma last_tkraise (n : string) (l : list string) : last (tkraise n l) = Some n.
Proof. apply last_snoc. Qed.

Lemma show_frame_in (n : string) (h : host) :
  n ∈ frames h -> show_frame n h = (Ret tt, {| h with stacking := tkraise n (stacking h) |}).
Proof. intros Hn. unfold show_frame. py_unfold. by rewrite decide_True. Qed.

Lemma show_frame_notin (n : string) (h : host) :
  n ∉ frames h -> show_frame n h = (Exc KeyError, h).
Proof. intros Hn. unfold show_frame. py_unfold. by rewrite decide_False. Qed.

(** [show_frame] only restacks: it never stops the main loop. *)
Lemma show_frame_running (n : string) (h : host) : running (snd (show_frame n h)) = running h.
Proof. destruct (decide (n ∈ frames h)); [rewrite show_frame_in|rewrite show_frame_notin]; done. Qed.

#[export] Instance page_host_laws : FrameHostLaws host.
Proof.
  split.
  - intros n h Hn%bool_decide_eq_true. simpl. rewrite show_frame_in by done.
    split; [done|]. split; [apply last_tkraise|done].
  - intros n h Hn%bool_decide_eq_false. by apply show_frame_notin.
Qed.

Lemma show_frame_inv (n : string) (h : host) : inv h -> inv (snd (show_frame n h)).
Proof.
  intros (Hnd & Hel & Hfr). destruct (decide (n ∈ frames h)) as [Hn|Hn].
  - rewrite show_frame_in by done. split; [by apply tkraise_NoDup|]. split; [|done].
    intros x. simpl. rewrite elem_of_tkraise, Hel. naive_solver.
  - by rewrite show_frame_notin.
Qed.

Lemma quit_inv (h : host) : inv h -> inv (quit h).
Proof. done. Qed.

(** Every reachable host shows exactly one page, a registered one. *)
Lemma inv_visible (h : host) : inv h -> exists p, visible h = Some p /\ p ∈ page_names.
Proof.
  intros (Hnd & Hel & Hfr). unfold visible.
  destruct (last (stacking h)) as [p|] eqn:E.
  - exists p. split; [done|]. apply last_Some_elem_of in E.
    apply Hel in E. rewrite Hfr in E. by apply elem_of_list_to_set in E.
  - exfalso. apply last_None in E.
    assert (Hm : "MainMenu" ∈ frames h) by (rewrite Hfr; set_solver).
    apply Hel in Hm. rewrite E in Hm. by apply elem_of_nil in Hm.
Qed.

Lemma init_ok : exists h, init = (Ret tt, h) /\ inv h /\ visible h = Some "MainMenu".
Proof.
  eexists. split; [reflexivity|]. split.
  - split; [vm_compute; repeat constructor; set_solver|].
    split; [|reflexivity]. intros n. simpl. set_solver.
  - reflexivity.
Qed.

End PageHost.
