(* ===== verification/App.v ===== *)
(** * The application: the host, the main menu and the seven pages
    (games_gui.py 58-116 and the "Back to Menu" buttons of every page)

    [App] puts the pieces together as [GameApp] does: the host of
    [PageHost] and the state of each page.  A click reaches only the page
    on top, because the frames are stacked in one grid cell, while the
    Quiz's [after] callback runs whichever page is on top; the main
    menu's buttons call [show_frame] with the page names of its [games]
    list, its Exit button calls [quit], and each page's "Back to Menu"
    button calls [show_frame("MainMenu")], Hangman's through
    [WordGuessingGUI.back_to_menu], which first disables every letter.

    The navigation callbacks are written once against the [FrameHost]
    interface (Section [Navigation]) and used with the [PageHost]
    instance.  [init] constructs the pages in the order of the loop of
    [GameApp.__init__]; an exception in a page constructor propagates
    out of [GameApp()] and the application does not start.  Page
    events carry the draws of [random.randint] within its bounds
    ([valid_page_event]); [pages_reachable] says that each page of the
    application is a state of its own page machine, which is how the
    page-level theorems carry over to the whole program.  [mainloop]
    and [main] model the [__main__] block: the user's actions are
    delivered in order while the loop runs, and Exit's [quit] ends it. *)

From stdpp Require Import base list gmap sets strings.
From Stdlib Require Import String ZArith Lia.
From S2P Require Import Prelude PyStr Loaders NumberGuessing TicTacToe Hangman Dice RockPaperScissors HigherOrLower Quiz PageHost.

Local Open Scope string_scope.
Local Open Scope py_scope.

(** ** Navigation, against the interface *)

Section Navigation.
Context {H : Type} `{FrameHostLaws H}.

(** A "Back to Menu" button: [lambda: controller.show_frame("MainMenu")]. *)
Definition back_button : PyM H unit := host_show_frame "MainMenu".

(** [WordGuessingGUI.back_to_menu]: [self.disable_all_letters()], then
    [self.controller.show_frame("MainMenu")]. *)
Definition hangman_back_to_menu : PyM (Hangman.state * H) unit :=
  fun '(s, h) =>
    let s := Hangman.disable_all_letters s in
    let '(o, h) := host_show_frame "MainMenu" h in (o, (s, h)).

Lemma back_button_spec (h : H) :
  host_registered h "MainMenu" = true ->
  fst (back_button h) = Ret tt /\ host_visible (snd (back_button h)) = Some "MainMenu".
Proof. intros Hm. destruct (show_frame_registered _ _ Hm) as (? & ? & _). done. Qed.

Lemma hangman_back_to_menu_spec (s : Hangman.state) (h : H) :
  host_registered h "MainMenu" = true ->
  fst (hangman_back_to_menu (s, h)) = Ret tt /\
  fst (snd (hangman_back_to_menu (s, h))) = Hangman.disable_all_letters s /\
  snd (snd (hangman_back_to_menu (s, h))) = snd (host_show_frame "MainMenu" h).
Proof.
  intros Hm. destruct (show_frame_registered _ _ Hm) as (Hr & _ & _).
  unfold hangman_back_to_menu. destruct (host_show_frame "MainMenu" h) as [o h'].
  simpl in *. by subst.
Qed.

End Navigation.

Module App.

Import PageHost.

(** The [games] list of [MainMenu.__init__]: the text and the page name
    of each button. *)
Definition menu_games : list (string * string) :=
  [("1. Number Guessing Game", "NumberGuessingGUI");
   ("2. Word Guessing (Hangman)", "WordGuessingGUI");
   ("3. Rock-Paper-Scissors", "RockPaperScissorsGUI");
   ("4. Higher or Lower (1-100)", "HigherOrLowerGUI");
   ("5. Dice Rolling (Betting)", "DiceRollingGUI");
   ("6. Quiz Game", "QuizGameGUI");
   ("7. Tic-Tac-Toe (2-Player)", "TicTacToeGUI")].

Record app : Type := mkApp {
  window : PageHost.host;             (** the [GameApp] window: frames and stacking *)
  ng : NumberGuessing.NumberGuessing.state;
  hm : Hangman.Hangman.state;
  rps : RockPaperScissors.RockPaperScissors.state;
  hl : HigherOrLower.HigherOrLower.state;
  dice : Dice.Dice.state;
  quiz : Quiz.Quiz.state;
  ttt : TicTacToe.TicTacToe.state
}.

(** The events a page handles, tagged with the page. *)
Inductive page_event : Type :=
  | NGEvent (e : NumberGuessing.NumberGuessing.event)
  | HMEvent (e : Hangman.Hangman.event)
  | RPSEvent (e : RockPaperScissors.RockPaperScissors.event)
  | HLEvent (e : HigherOrLower.HigherOrLower.event)
  | DiceEvent (e : Dice.Dice.event)
  | QuizEvent (e : Quiz.Quiz.event)
  | TTTEvent (e : TicTacToe.TicTacToe.event).

Definition page_of (e : page_event) : string :=
  match e with
  | NGEvent _ => "NumberGuessingGUI" | HMEvent _ => "WordGuessingGUI"
  | RPSEvent _ => "RockPaperScissorsGUI" | HLEvent _ => "HigherOrLowerGUI"
  | DiceEvent _ => "DiceRollingGUI" | QuizEvent _ => "QuizGameGUI"
  | TTTEvent _ => "TicTacToeGUI"
  end.

Inductive event : Type :=
  | MenuButton (i : nat)          (** the [i]-th button of [games] *)
  | ExitButton
  | BackButton                    (** "Back to Menu" of the page on top *)
  | Page (e : page_event).

Definition with_window (h : host) (a : app) : app := {| a with window := h |}.

(** Hangman's "Back to Menu" (and its [BackToMenu] event). *)
Definition hangman_back (a : app) : app :=
  let '(_, (s, h)) := hangman_back_to_menu (hm a, window a) in {| a with hm := s; window := h |}.

Definition dispatch (e : page_event) (a : app) : app :=
  match e with
  | NGEvent e => {| a with ng := NumberGuessing.NumberGuessing.handle e (ng a) |}
  | HMEvent Hangman.Hangman.BackToMenu => hangman_back a
  | HMEvent e => {| a with hm := Hangman.Hangman.handle e (hm a) |}
  | RPSEvent e => {| a with rps := RockPaperScissors.RockPaperScissors.handle e (rps a) |}
  | HLEvent e => {| a with hl := HigherOrLower.HigherOrLower.handle e (hl a) |}
  | DiceEvent e => {| a with dice := Dice.Dice.handle e (dice a) |}
  | QuizEvent e => {| a with quiz := Quiz.Quiz.handle e (quiz a) |}
  | TTTEvent e => {| a with ttt := TicTacToe.TicTacToe.handle e (ttt a) |}
  end.

(** The callbacks scheduled with [after] (the Quiz's delayed
    [show_next_question]): Tk runs them whatever frame is raised. *)
Definition after_callback (pe : page_event) : bool :=
  match pe with QuizEvent Quiz.Quiz.Timer => true | _ => false end.

(** One event, delivered while the main loop runs: a click or a key goes
    to the page on top, a timer callback to its page wherever it is; Tk
    keeps the state a raising callback left. *)
Definition handle (e : event) (a : app) : app :=
  if running (window a) then
    match visible (window a) with
    | None => a
    | Some p =>
        match e with
        | MenuButton i =>
            if String.eqb p "MainMenu" then
              match menu_games !! i with
              | Some (_, name) => with_window (exec (show_frame name) (window a)) a
              | None => a
              end
            else a
        | ExitButton => if String.eqb p "MainMenu" then with_window (quit (window a)) a else a
        | BackButton =>
            if String.eqb p "MainMenu" then a
            else if String.eqb p "WordGuessingGUI" then hangman_back a
            else with_window (exec back_button (window a)) a
        | Page pe => if String.eqb p (page_of pe) || after_callback pe then dispatch pe a else a
        end
    end
  else a.

(** [GameApp.__init__]: the pages in the order of its loop, then
    [show_frame("MainMenu")]; the draws and file reads of the page
    constructors are parameters. *)
Definition init (t_ng : Z) (hf : file_read) (hk : nat) (t_hl : Z) (qf : file_read) : outcome app :=
  match Hangman.Hangman.init hf hk with
  | (Exc e, _) => Exc e
  | (Ret _, hs) =>
      match Quiz.Quiz.init qf with
      | (Exc e, _) => Exc e
      | (Ret _, qs) =>
          match PageHost.init with
          | (Exc e, _) => Exc e
          | (Ret _, h) =>
              Ret (mkApp h (NumberGuessing.NumberGuessing.init t_ng) hs
                     RockPaperScissors.RockPaperScissors.init (HigherOrLower.HigherOrLower.init t_hl)
                     Dice.Dice.init qs TicTacToe.TicTacToe.init)
          end
      end
  end.

(** The draws a page event carries come from [random.randint] with the
    page's bounds: 1..10 and 1..100 for the secrets, 1..6 for the die. *)
Definition valid_page_event (pe : page_event) : Prop :=
  match pe with
  | NGEvent e => NumberGuessing.NumberGuessing.valid_event e
  | HLEvent e => HigherOrLower.HigherOrLower.valid_event e
  | DiceEvent e => Dice.Dice.valid_event e
  | _ => True
  end.

Definition valid_event (e : event) : Prop :=
  match e with Page pe => valid_page_event pe | _ => True end.

(** The applications [GameApp()] builds, then any user actions. *)
Definition reachable : app -> Prop :=
  reachable_from (fun a => exists t_ng hf hk t_hl qf, (1 <= t_ng <= 10)%Z /\ (1 <= t_hl <= 100)%Z /\
                             init t_ng hf hk t_hl qf = Ret a)
    valid_event handle.

(** Each page is a state its own page machine reaches; a question file
    may be any read. *)
Definition pages_reachable (a : app) : Prop :=
  NumberGuessing.NumberGuessing.reachable (ng a) /\ Hangman.Hangman.reachable (hm a) /\
  RockPaperScissors.RockPaperScissors.reachable (rps a) /\
  HigherOrLower.HigherOrLower.reachable (hl a) /\ Dice.Dice.reachable (dice a) /\
  Quiz.Quiz.reachable (fun _ => true) (quiz a) /\ TicTacToe.TicTacToe.reachable (ttt a).



(** The pages' states, without the host. *)
Definition pages_equal (a b : app) : Prop :=
  ng a = ng b /\ hm a = hm b /\ rps a = rps b /\ hl a = hl b /\
  dice a = dice b /\ quiz a = quiz b /\ ttt a = ttt b.

(** ** Lemmas *)

Lemma main_menu_registered (h : host) : inv h -> "MainMenu" ∈ frames h.
Proof. intros (_ & _ & ->). set_solver. Qed.

Lemma hangman_back_window (a : app) :
  inv (window a) ->
  window (hangman_back a) = snd (show_frame "MainMenu" (window a)) /\
  hm (hangman_back a) = Hangman.Hangman.disable_all_letters (hm a) /\
  pages_equal {| a with hm := hm (hangman_back a) |} (hangman_back a).
Proof.
  intros Hi. pose proof (main_menu_registered _ Hi) as Hm.
  unfold hangman_back, hangman_back_to_menu. simpl. rewrite show_frame_in by done.
  simpl. by repeat split.
Qed.

Lemma dispatch_window (pe : page_event) (a : app) :
  inv (window a) -> inv (window (dispatch pe a)).
Proof.
  intros Hi. destruct pe as [e|e|e|e|e|e|e]; try done.
  destruct e; try done. change (dispatch _ a) with (hangman_back a).
  rewrite (proj1 (hangman_back_window a Hi)). by apply show_frame_inv.
Qed.

Lemma app_handle_inv (e : event) (a : app) : inv (window a) -> inv (window (handle e a)).
Proof.
  intros Hi. unfold handle. destruct (running (window a)); [|done].
  destruct (visible (window a)) as [p|]; [|done].
  destruct e as [i| | |pe].
  - destruct (String.eqb p "MainMenu"); [|done].
    destruct (menu_games !! i) as [[? name]|]; [|done]. by apply show_frame_inv.
  - by destruct (String.eqb p "MainMenu").
  - destruct (String.eqb p "MainMenu"); [done|].
    destruct (String.eqb p "WordGuessingGUI").
    + rewrite (proj1 (hangman_back_window a Hi)). by apply show_frame_inv.
    + by apply show_frame_inv.
  - destruct (String.eqb p (page_of pe) || after_callback pe); [by apply dispatch_window|done].
Qed.

Lemma app_reachable_inv (a : app) : reachable a -> inv (window a).
Proof.
  revert a. apply reachable_from_inv; [|intros a e IH _; by apply app_handle_inv].
  intros a (t_ng & hf & hk & t_hl & qf & _ & _ & Hinit).
  unfold init in Hinit.
  destruct (Hangman.Hangman.init hf hk) as [[]?]; [|done].
  destruct (Quiz.Quiz.init qf) as [[]?]; [|done].
  destruct PageHost.init_ok as (h & Eh & Hh & _). rewrite Eh in Hinit.
  by injection Hinit as <-.
Qed.

(** Every button of the menu names a page class of the loop. *)
Lemma menu_games_registered : Forall (fun '(_, n) => n ∈ page_names) menu_games.
Proof. unfold menu_games, page_names. repeat constructor; set_solver. Qed.

(** Hangman's "Back to Menu" changes no page but Hangman, and Hangman
    by its [BackToMenu] step. *)
Lemma hangman_back_pages (a : app) :
  hm (hangman_back a) = Hangman.Hangman.handle Hangman.Hangman.BackToMenu (hm a) /\
  pages_equal {| a with hm := hm (hangman_back a) |} (hangman_back a).
Proof.
  unfold hangman_back, hangman_back_to_menu. simpl.
  destruct (show_frame "MainMenu" (window a)). by repeat split.
Qed.

Lemma pages_reachable_hangman_back (a : app) :
  pages_reachable a -> pages_reachable (hangman_back a).
Proof.
  destruct (hangman_back_pages a) as (Hh & E1 & _ & E2 & E3 & E4 & E5 & E6).
  intros (H1 & H2 & H3 & H4 & H5 & H6 & H7). simpl in E1, E2, E3, E4, E5, E6.
  unfold pages_reachable. rewrite <- E1, <- E2, <- E3, <- E4, <- E5, <- E6, Hh.
  repeat split; try done. by apply reach_step.
Qed.

Lemma pages_reachable_dispatch (pe : page_event) (a : app) :
  valid_page_event pe -> pages_reachable a -> pages_reachable (dispatch pe a).
Proof.
  intros Hv Ha. destruct pe as [e|e|e|e|e|e|e];
    [| destruct e; try by apply pages_reachable_hangman_back |..];
    destruct Ha as (H1 & H2 & H3 & H4 & H5 & H6 & H7);
    cbn [pages_reachable dispatch valid_page_event ng hm rps hl dice quiz ttt] in *;
    repeat split; try assumption; apply reach_step; try done; by intros ? ->.
Qed.

Lemma pages_reachable_handle (e : event) (a : app) :
  valid_event e -> pages_reachable a -> pages_reachable (handle e a).
Proof.
  intros He Ha. unfold handle.
  destruct (running (window a)), (visible (window a)) as [p|]; try exact Ha.
  destruct e as [i| | |pe].
  - destruct (String.eqb p "MainMenu"), (menu_games !! i) as [[? ?]|]; exact Ha.
  - by destruct (String.eqb p "MainMenu").
  - destruct (String.eqb p "MainMenu"), (String.eqb p "WordGuessingGUI"); try exact Ha.
    by apply pages_reachable_hangman_back.
  - destruct (String.eqb p (page_of pe) || after_callback pe); [by apply pages_reachable_dispatch|exact Ha].
Qed.

(** [GameApp()] builds each page as its own [__init__] does. *)
Lemma pages_reachable_init (t_ng : Z) (hf : file_read) (hk : nat) (t_hl : Z) (qf : file_read) (a : app) :
  (1 <= t_ng <= 10)%Z -> (1 <= t_hl <= 100)%Z -> init t_ng hf hk t_hl qf = Ret a -> pages_reachable a.
Proof.
  intros Hng Hhl. unfold init.
  destruct (Hangman.Hangman.init hf hk) as [[[]|] hs] eqn:Eh; [|done].
  destruct (Quiz.Quiz.init qf) as [[[]|] qs] eqn:Eq; [|done].
  destruct PageHost.init_ok as (h & Eph & _). rewrite Eph. intros [= <-].
  repeat split; apply reach_init; simpl; eauto.
Qed.

(** ** Lemmas: the main loop *)







(** * Theorems *)

(** C36 (functional): "Back to Menu" on a game page brings the main menu
    to the top and keeps every page's state as it was, except Hangman's:
    its [back_to_menu] disables every letter button first. *)
Theorem back_to_menu_keeps_pages (a : app) (p : string) :
  reachable a -> running (window a) = true -> visible (window a) = Some p -> p <> "MainMenu" ->
  let a' := handle BackButton a in
  visible (window a') = Some "MainMenu" /\
  ng a' = ng a /\ rps a' = rps a /\ hl a' = hl a /\ dice a' = dice a /\
  quiz a' = quiz a /\ ttt a' = ttt a /\
  hm a' = (if String.eqb p "WordGuessingGUI" then Hangman.Hangman.disable_all_letters (hm a) else hm a).
Proof.
  intros Hr Hrun Hv Hp a'. pose proof (app_reachable_inv a Hr) as Hi.
  pose proof (main_menu_registered _ Hi) as Hm.
  subst a'. unfold handle. rewrite Hrun, Hv.
  destruct (String.eqb_spec p "MainMenu") as [|_]; [done|].
  destruct (String.eqb_spec p "WordGuessingGUI") as [->|_].
  - destruct (hangman_back_window a Hi) as (Hw & Hh & (? & _ & ? & ? & ? & ? & ?)).
    rewrite Hw, Hh, show_frame_in by done. simpl in *.
    split; [apply last_tkraise|]. repeat split; congruence.
  - unfold with_window, back_button, exec. simpl. rewrite show_frame_in by done.
    simpl. split; [apply last_tkraise|]. by repeat split.
Qed.

(** C37 (error): every button of the main menu names a registered page,
    so pressing it never raises and brings that page to the top, leaving
    all pages' states alone; [show_frame] with a name that is not
    registered raises [KeyError] and changes nothing. *)
Theorem menu_buttons_show (a : app) (i : nat) (text name : string) :
  reachable a -> running (window a) = true -> visible (window a) = Some "MainMenu" ->
  menu_games !! i = Some (text, name) ->
  raised (show_frame name) (window a) = None /\
  visible (window (handle (MenuButton i) a)) = Some name /\
  pages_equal a (handle (MenuButton i) a) /\
  (forall n, n ∉ page_names -> show_frame n (window a) = (Exc KeyError, window a)).
Proof.
  intros Hr Hrun Hv Hi. pose proof (app_reachable_inv a Hr) as Hinv.
  assert (Hn : name ∈ frames (window a)).
  { destruct Hinv as (_ & _ & ->). apply elem_of_list_to_set.
    exact (Forall_lookup_1 _ _ _ _ menu_games_registered Hi). }
  unfold raised, handle, with_window, exec. rewrite Hrun, Hv. simpl. rewrite Hi, show_frame_in by done. simpl.
  split; [done|]. split; [apply last_tkraise|]. split; [by repeat split|].
  intros n Hn'. apply show_frame_notin. destruct Hinv as (_ & _ & ->).
  by rewrite elem_of_list_to_set.
Qed.

(** C34 (invariant): the pages compose without interfering.  In every
    state of the application each page's state is one its own page
    machine reaches from its [__init__] by its own events: the menu, the
    host and the other pages never touch it, and Hangman's "Back to
    Menu" is its [BackToMenu] step.  Every invariant proved of a page
    alone therefore holds of that page inside the running application. *)
Theorem app_pages_reachable (a : app) :
  reachable a ->
  NumberGuessing.NumberGuessing.reachable (ng a) /\ Hangman.Hangman.reachable (hm a) /\
  RockPaperScissors.RockPaperScissors.reachable (rps a) /\
  HigherOrLower.HigherOrLower.reachable (hl a) /\ Dice.Dice.reachable (dice a) /\
  Quiz.Quiz.reachable (fun _ => true) (quiz a) /\ TicTacToe.TicTacToe.reachable (ttt a).
Proof.
  revert a. apply reachable_from_inv.
  - intros a (t_ng & hf & hk & t_hl & qf & Hng & Hhl & Hi). by eapply pages_reachable_init.
  - intros a e IH He. by apply pages_reachable_handle.
Qed.


(** ** Witnesses *)

(** The application started with the secret 7, the word list ["cat"],
    no quiz file and the secret 42. *)
Definition started : app :=
  match init 7 (Parsed (JArr [JStr "cat"])) 0 42 FileMissing with
  | Ret a => a
  | Exc _ => mkApp (snd PageHost.init) (NumberGuessing.NumberGuessing.init 7) Hangman.Hangman.init_attrs
               RockPaperScissors.RockPaperScissors.init (HigherOrLower.HigherOrLower.init 42)
               Dice.Dice.init Quiz.Quiz.init_attrs TicTacToe.TicTacToe.init
  end.

Lemma reachable_started : reachable started.
Proof. apply reach_init. exists 7%Z, (Parsed (JArr [JStr "cat"])), 0%nat, 42%Z, FileMissing.
  split; [lia|split; [lia|vm_compute; reflexivity]].
Qed.

Lemma back_to_menu_keeps_pages_witness :
  let a := handle (MenuButton 1) started in
  let a' := handle BackButton a in
  visible (window a') = Some "MainMenu" /\
  ng a' = ng a /\ rps a' = rps a /\ hl a' = hl a /\ dice a' = dice a /\
  quiz a' = quiz a /\ ttt a' = ttt a /\
  hm a' = (if String.eqb "WordGuessingGUI" "WordGuessingGUI"
           then Hangman.Hangman.disable_all_letters (hm a) else hm a).
Proof.
  apply back_to_menu_keeps_pages; [apply reach_step; [apply reachable_started|exact I]|vm_compute; reflexivity
    |vm_compute; reflexivity|discriminate].
Defined.

Lemma menu_buttons_show_witness :
  raised (show_frame "QuizGameGUI") (window started) = None /\
  visible (window (handle (MenuButton 5) started)) = Some "QuizGameGUI" /\
  pages_equal started (handle (MenuButton 5) started) /\
  (forall n, n ∉ page_names -> show_frame n (window started) = (Exc KeyError, window started)).
Proof.
  apply (menu_buttons_show started 5 "6. Quiz Game");
    [apply reachable_started|vm_compute; reflexivity|vm_compute; reflexivity|reflexivity].
Defined.

(** Tic-Tac-Toe opened from the menu and its top-left cell played. *)
Definition ttt_played : app := handle (Page (TTTEvent (TicTacToe.TicTacToe.Click 0 0))) (handle (MenuButton 6) started).

Lemma app_pages_reachable_witness :
  let a := ttt_played in
  NumberGuessing.NumberGuessing.reachable (ng a) /\ Hangman.Hangman.reachable (hm a) /\
  RockPaperScissors.RockPaperScissors.reachable (rps a) /\
  HigherOrLower.HigherOrLower.reachable (hl a) /\ Dice.Dice.reachable (dice a) /\
  Quiz.Quiz.reachable (fun _ => true) (quiz a) /\ TicTacToe.TicTacToe.reachable (ttt a).
Proof.
  apply app_pages_reachable. unfold ttt_played.
  apply reach_step; [apply reach_step; [apply reachable_started|exact I]|exact I].
Defined.



End App.
